(** * CostBench: the extraction and normalisation pipeline of [app.py]

    A shallow embedding of the decision logic of [src/app.py]: the number
    parser [try_number], the label classifier [normalize_label], the column
    detection [col_like], the two extractors [extract_from_excel] and
    [extract_from_pdf], the aggregator [write_workbook], and the endpoint
    [build] with its helper [_download_file].

    Python values are modelled as the code sees them:
    - a [str] is the list of its Unicode code points ([pystr]);
    - a [float] is an IEEE 754 binary64 value ([spec_float] of the Standard
      Library, precision 53, maximal exponent 1024);
    - a [dict] is an association list in insertion order ([PyDict]);
    - an exception is the [Raise] branch of [result].

    What the code takes from the Python runtime and not from the repository
    (the Unicode character database beyond ASCII, [pathlib]'s [stem], the
    summation algorithm of the builtin [sum]) is gathered in the record
    [Runtime]; every definition and theorem is parametric in it. What a
    request meets outside the repository (the base64 decoder, the network,
    the readers of the two formats, the workbook writer, the clock) is
    gathered in the record [World], and the service is parametric in it;
    the requests it makes are threaded through it as a log. *)

From Stdlib Require Import List ZArith NArith Bool Lia String Ascii QArith.
From Stdlib Require Import Floats.SpecFloat.
Import ListNotations.

Set Implicit Arguments.
Local Open Scope N_scope.

(** ** Python strings *)

Module PyStr.

(** A Python [str]: its code points. *)
Definition pystr := list N.

(** An ASCII literal of the source, as a [pystr]. *)
Definition lit (s : string) : pystr :=
  map N_of_ascii (list_ascii_of_string s).

Fixpoint eqb (a b : pystr) : bool :=
  match a, b with
  | [], [] => true
  | x :: a', y :: b' => (x =? y) && eqb a' b'
  | _, _ => false
  end.

(** [bool(s)]: a string is true when it is not empty. *)
Definition truthy (s : pystr) : bool :=
  match s with [] => false | _ => true end.

(** [Py_UNICODE_ISSPACE]: the characters [str.strip()] removes and the
    class [\s] matches. *)
Definition isspace (c : N) : bool :=
  ((9 <=? c) && (c <=? 13)) || ((28 <=? c) && (c <=? 32))
  || (c =? 133) || (c =? 160) || (c =? 5760)
  || ((8192 <=? c) && (c <=? 8202))
  || (c =? 8232) || (c =? 8233) || (c =? 8239) || (c =? 8287)
  || (c =? 12288).

Fixpoint lstrip (s : pystr) : pystr :=
  match s with
  | c :: t => if isspace c then lstrip t else s
  | [] => []
  end.

Definition rstrip (s : pystr) : pystr := rev (lstrip (rev s)).

(** [s.strip()] *)
Definition strip (s : pystr) : pystr := rstrip (lstrip s).

(** [s.replace(c, "")] for a one-character [c]. *)
Definition remove (c : N) (s : pystr) : pystr :=
  filter (fun x => negb (x =? c)) s.

Fixpoint startswith (p s : pystr) : bool :=
  match p, s with
  | [], _ => true
  | x :: p', y :: s' => (x =? y) && startswith p' s'
  | _ :: _, [] => false
  end.

Definition endswith (p s : pystr) : bool := startswith (rev p) (rev s).

(** [k in s]: [k] occurs in [s] as a substring. *)
Fixpoint contains (k s : pystr) : bool :=
  startswith k s ||
  match s with
  | [] => false
  | _ :: t => contains k t
  end.

(** [sep.join(parts)] *)
Fixpoint join (sep : pystr) (parts : list pystr) : pystr :=
  match parts with
  | [] => []
  | [p] => p
  | p :: rest => p ++ sep ++ join sep rest
  end.

(** The line boundaries of [str.splitlines()]. *)
Definition islinebreak (c : N) : bool :=
  ((10 <=? c) && (c <=? 13)) || ((28 <=? c) && (c <=? 30))
  || (c =? 133) || (c =? 8232) || (c =? 8233).

(** [s.splitlines()], [cur] being the current line, reversed. A carriage
    return followed by a line feed is one boundary; a final boundary opens
    no empty last line. *)
Fixpoint splitlines_from (cur : pystr) (s : pystr) : list pystr :=
  match s with
  | [] => match cur with [] => [] | _ => [rev cur] end
  | c :: t =>
      if c =? 13 then
        match t with
        | 10 :: t' => rev cur :: splitlines_from [] t'
        | _ => rev cur :: splitlines_from [] t
        end
      else if islinebreak c then rev cur :: splitlines_from [] t
      else splitlines_from (c :: cur) t
  end.

Definition splitlines (s : pystr) : list pystr := splitlines_from [] s.

Definition isascii (s : pystr) : bool := forallb (fun c => c <? 128) s.

Definition ascii_lower (c : N) : N :=
  if (65 <=? c) && (c <=? 90) then c + 32 else c.

Definition ascii_isalnum (c : N) : bool :=
  ((48 <=? c) && (c <=? 57)) || ((65 <=? c) && (c <=? 90))
  || ((97 <=? c) && (c <=? 122)).

End PyStr.
Import PyStr.

Abbreviation py s := (PyStr.lit s) (only parsing).

(** ** Exceptions *)

Inductive exn := ValueError | ZeroDivisionError | IndexError.

Inductive result (A : Type) : Type :=
| Ok (a : A)
| Raise (e : exn).
Arguments Ok {A} a.
Arguments Raise {A} e.

Definition bind {A B} (r : result A) (k : A -> result B) : result B :=
  match r with
  | Ok a => k a
  | Raise e => Raise e
  end.

Notation "x <- r ;; k" := (bind r (fun x => k))
  (at level 61, r at next level, right associativity).

(** ** Floats *)

(** A Python [float] is a binary64 value. *)
Definition float := spec_float.

Module PyFloat.

Definition prec : Z := 53.
Definition emax : Z := 1024.

Definition zero : float := S754_zero false.

(** [bool(x)]: every float but the two zeros is true (a NaN too). *)
Definition truthy (x : float) : bool :=
  match x with S754_zero _ => false | _ => true end.

Definition isfinite (x : float) : bool :=
  match x with S754_zero _ | S754_finite _ _ _ => true | _ => false end.

Definition isnan (x : float) : bool :=
  match x with S754_nan => true | _ => false end.

(** [-x] *)
Definition neg (x : float) : float := SFopp x.

(** [x / y]: Python raises on a zero divisor, and divides as IEEE 754
    does otherwise. *)
Definition truediv (x y : float) : result float :=
  if truthy y then Ok (SFdiv prec emax x y) else Raise ZeroDivisionError.

Definition add (x y : float) : float := SFadd prec emax x y.

(** The decimal number [m / 10^k] with sign [s], rounded to the nearest
    binary64 value, ties to even: what [float()] computes for a decimal
    literal with [k] digits after the point ([m] = all its digits). *)
Definition of_decimal (s : bool) (m : Z) (k : nat) : float :=
  match m with
  | Z0 => S754_zero s
  | Zneg _ => S754_nan
  | Zpos _ =>
      let '(q, e, l) := SFdiv_core_binary prec emax m 0 (10 ^ Z.of_nat k) 0 in
      binary_round_aux prec emax s q e l
  end.

(** The real number a finite float stands for. *)
Definition value (x : float) : option Q :=
  match x with
  | S754_zero _ => Some 0%Q
  | S754_finite s m e =>
      Some (inject_Z (cond_Zopp s (Zpos m)) * Qpower 2 e)%Q
  | _ => None
  end.

(** [x] is finite and stands for the rational [q]. *)
Definition represents (x : float) (q : Q) : Prop :=
  match value x with
  | Some v => (v == q)%Q
  | None => False
  end.

End PyFloat.

(** ** Regular expressions

    The fragment of Python's [re] the source uses, matched the way [re]
    matches: by backtracking, alternatives left to right, greedy repetition
    longest first and lazy repetition shortest first. A position in the
    subject is the pair of the text before it (reversed) and the text after
    it. *)

Module Re.

Inductive regex : Type :=
| Eps                              (* the empty pattern *)
| Chr (c : N)                      (* a literal character *)
| Cls (f : N -> bool)              (* a class: [..], \d, \s, ., or a letter under re.I *)
| Bol                              (* ^ *)
| Eol                              (* $ *)
| WordB                            (* \b *)
| Cat (r1 r2 : regex)              (* r1 r2 *)
| Alt (r1 r2 : regex)              (* r1|r2 *)
| Star (greedy : bool) (r : regex) (* r* and r*? *)
| Grp (i : nat) (r : regex).       (* (r), the i-th group *)

(** The text of the groups matched so far, the latest first. *)
Definition caps := list (nat * pystr).

Definition group (i : nat) (cs : caps) : pystr :=
  match find (fun p => Nat.eqb (fst p) i) cs with
  | Some (_, s) => s
  | None => []
  end.

Definition str (s : pystr) : regex := fold_right (fun c r => Cat (Chr c) r) Eps s.
Definition set (cs : list N) : regex := Cls (fun c => existsb (N.eqb c) cs).
Definition opt (r : regex) : regex := Alt r Eps.
Definition plus (r : regex) : regex := Cat r (Star true r).
Declare Scope re_scope.
Delimit Scope re_scope with re.
Bind Scope re_scope with regex.
Infix "+++" := Cat (at level 60, right associativity) : re_scope.
Infix "<|>" := Alt (at level 65, right associativity) : re_scope.

(** [.]: any character but a line feed. *)
Definition dot : regex := Cls (fun c => negb (c =? 10)).

(** [$] holds at the end of the subject and before a line feed that ends it. *)
Definition at_end (a : pystr) : bool :=
  match a with
  | [] => true
  | [c] => c =? 10
  | _ => false
  end.

Section Matcher.
(** [\w]: the word characters, which decide [\b]. *)
Variable isword : N -> bool.
Variable R : Type.

Definition cont := pystr -> pystr -> caps -> option R.

Definition word_at (s : pystr) : bool :=
  match s with c :: _ => isword c | [] => false end.

(** [\b]: exactly one of the two neighbours is a word character. *)
Definition at_boundary (b a : pystr) : bool := xorb (word_at b) (word_at a).

(** The repetition of [body]: one more round (which must consume a
    character) or the continuation, in the order [greedy] says. *)
Fixpoint star_loop (greedy : bool)
    (body : pystr -> pystr -> caps -> cont -> option R)
    (fuel : nat) (b a : pystr) (cs : caps) (k : cont) : option R :=
  match fuel with
  | O => k b a cs
  | S fuel' =>
      let again (_ : unit) :=
        body b a cs (fun b' a' cs' =>
          if (List.length a' <? List.length a)%nat
          then star_loop greedy body fuel' b' a' cs' k
          else None) in
      if greedy then
        match again tt with Some x => Some x | None => k b a cs end
      else
        match k b a cs with Some x => Some x | None => again tt end
  end.

Fixpoint run (r : regex) (b a : pystr) (cs : caps) (k : cont) : option R :=
  match r with
  | Eps => k b a cs
  | Chr c =>
      match a with
      | x :: a' => if x =? c then k (x :: b) a' cs else None
      | [] => None
      end
  | Cls f =>
      match a with
      | x :: a' => if f x then k (x :: b) a' cs else None
      | [] => None
      end
  | Bol => match b with [] => k b a cs | _ :: _ => None end
  | Eol => if at_end a then k b a cs else None
  | WordB => if at_boundary b a then k b a cs else None
  | Cat r1 r2 => run r1 b a cs (fun b' a' cs' => run r2 b' a' cs' k)
  | Alt r1 r2 =>
      match run r1 b a cs k with
      | Some x => Some x
      | None => run r2 b a cs k
      end
  | Star g r1 => star_loop g (run r1) (S (List.length a)) b a cs k
  | Grp i r1 =>
      run r1 b a cs (fun b' a' cs' =>
        k b' a' ((i, firstn (List.length a - List.length a') a) :: cs'))
  end.
End Matcher.

Section Search.
Variable isword : N -> bool.

(** [re.match(r, s)]: a match that starts at the start of [s]. *)
Definition rmatch (r : regex) (s : pystr) : option caps :=
  run isword r [] s [] (fun _ _ cs => Some cs).

(** [re.search(r, s)] from the position [(b, a)]: the leftmost start
    from which [r] matches. *)
Fixpoint search_from (r : regex) (b a : pystr) : option caps :=
  match run isword r b a [] (fun _ _ cs => Some cs) with
  | Some cs => Some cs
  | None =>
      match a with
      | [] => None
      | c :: a' => search_from r (c :: b) a'
      end
  end.

Definition search (r : regex) (s : pystr) : option caps := search_from r [] s.

Definition found (m : option caps) : bool :=
  match m with Some _ => true | None => false end.
End Search.

(** *** What a pattern matches

    [matches isword r b a b' a']: from the position [(b, a)] the pattern
    [r] can match up to the position [(b', a')]. *)
Inductive matches (isword : N -> bool) : regex -> pystr -> pystr -> pystr -> pystr -> Prop :=
| M_Eps b a : matches isword Eps b a b a
| M_Chr c b a : matches isword (Chr c) b (c :: a) (c :: b) a
| M_Cls (f : N -> bool) x b a :
    f x = true -> matches isword (Cls f) b (x :: a) (x :: b) a
| M_Bol a : matches isword Bol [] a [] a
| M_Eol b a : at_end a = true -> matches isword Eol b a b a
| M_WordB b a : at_boundary isword b a = true -> matches isword WordB b a b a
| M_Cat r1 r2 b a b1 a1 b2 a2 :
    matches isword r1 b a b1 a1 -> matches isword r2 b1 a1 b2 a2 ->
    matches isword (Cat r1 r2) b a b2 a2
| M_AltL r1 r2 b a b' a' :
    matches isword r1 b a b' a' -> matches isword (Alt r1 r2) b a b' a'
| M_AltR r1 r2 b a b' a' :
    matches isword r2 b a b' a' -> matches isword (Alt r1 r2) b a b' a'
| M_Star0 g r b a : matches isword (Star g r) b a b a
| M_StarS g r b a b1 a1 b2 a2 :
    matches isword r b a b1 a1 -> (List.length a1 < List.length a)%nat ->
    matches isword (Star g r) b1 a1 b2 a2 ->
    matches isword (Star g r) b a b2 a2
| M_Grp i r b a b' a' :
    matches isword r b a b' a' -> matches isword (Grp i r) b a b' a'.

End Re.

(** ** The Python runtime *)

(** What the code reads from the interpreter and its libraries: for the
    characters beyond ASCII, their decimal digit value, whether they are
    alphanumeric, and the lower-casing of a string that holds one; the final
    component of a path without its suffix; the value the builtin [sum]
    gives for a non-empty list of floats (left-to-right addition up to
    CPython 3.11, compensated summation since). *)
Record Runtime : Type := {
  uni_decimal : N -> option N;
  uni_isalnum : N -> bool;
  uni_lower : pystr -> pystr;
  path_stem : pystr -> pystr;
  float_sum : list float -> float
}.

(** ** Python objects, as the code observes them *)

(** A cell of a table or a column label: [None], a string, or any other
    object (a number, a NaN, a date), of which the code reads only [bool()]
    and [str()]. *)
Inductive pyval :=
| PyNone
| PyStr (s : pystr)
| PyOther (truth : bool) (repr : pystr).

Definition py_str (v : pyval) : pystr :=
  match v with
  | PyNone => py "None"
  | PyStr s => s
  | PyOther _ r => r
  end.

Definition py_bool (v : pyval) : bool :=
  match v with
  | PyNone => false
  | PyStr s => PyStr.truthy s
  | PyOther t _ => t
  end.

(** [a or b] *)
Definition py_or (a b : pyval) : pyval := if py_bool a then a else b.

(** A dict: its items in insertion order; setting a key it holds keeps the
    key's place. *)
Module PyDict.
Definition t (V : Type) := list (pystr * V).

Fixpoint get {V} (d : t V) (k : pystr) : option V :=
  match d with
  | [] => None
  | (k', v) :: d' => if PyStr.eqb k k' then Some v else get d' k
  end.

Fixpoint set {V} (d : t V) (k : pystr) (v : V) : t V :=
  match d with
  | [] => [(k, v)]
  | (k', v') :: d' =>
      if PyStr.eqb k k' then (k', v) :: d' else (k', v') :: set d' k v
  end.

End PyDict.

(** ** The data model *)

Record ClassifiedRow := {
  company_name : pystr;
  fiscal_year : pystr;
  reporting_currency : pystr;
  base_currency : pystr;
  line_item : pystr;
  amount : option float
}.

(** A row of a sheet written out; a blank cell ([""]) is [None]. *)
Record OutRow := {
  o_company_name : pystr;
  o_fiscal_year : pystr;
  o_reporting_currency : pystr;
  o_base_currency : pystr;
  o_line_item : pystr;
  o_amount : option float;
  o_percent_of_revenue : option float
}.

(** A table as [pandas] hands it over: the column labels and the rows, each
    row holding one cell per column. *)
Record DataFrame := {
  columns : list pyval;
  data : list (list pyval)
}.

(** One call [df.to_excel(xw, sheet_name=...)]. *)
Definition Sheet := (pystr * list OutRow)%type.

Definition FIXED_ROWS : list pystr := map PyStr.lit [
  "Revenue | Product"; "Revenue | Services"; "Revenue | Other Operating Revenue";
  "COGS | Materials"; "COGS | Direct Labor"; "COGS | Purchased Services"; "COGS | Other COGS";
  "Gross Profit (derived)";
  "OpEx | Sales & Marketing | People"; "OpEx | Sales & Marketing | Media/Ads"; "OpEx | Sales & Marketing | Agencies"; "OpEx | Sales & Marketing | Events"; "OpEx | Sales & Marketing | Software/Tools";
  "OpEx | General & Administrative | People"; "OpEx | General & Administrative | Facilities"; "OpEx | General & Administrative | Professional Services"; "OpEx | General & Administrative | IT/Software"; "OpEx | General & Administrative | Travel"; "OpEx | General & Administrative | Other G&A";
  "OpEx | Research & Development | People"; "OpEx | Research & Development | Contractors"; "OpEx | Research & Development | Cloud/Compute"; "OpEx | Research & Development | Labs/Prototyping"; "OpEx | Research & Development | Other R&D";
  "Depreciation"; "Amortization";
  "Other Operating | Grants/Subsidies"; "Other Operating | Gains/Losses on Disposals"; "Other Operating | Restructuring";
  "Operating Profit (EBIT) (derived)";
  "Below Operating | Net Interest"; "Below Operating | FX Gains/Losses"; "Below Operating | Associates/JVs";
  "Tax | Current"; "Tax | Deferred";
  "Net Income (derived)"
]%string.

(** ** The pipeline *)

Section Pipeline.
Variable rt : Runtime.
Import Re.
Local Open Scope re_scope.

(** [Py_UNICODE_TODECIMAL]: the value of a decimal digit of any script. A
    blank is no digit (a character has one general category), whatever
    the table of the runtime says. *)
Definition decimal (c : N) : option N :=
  if (48 <=? c) && (c <=? 57) then Some (c - 48)
  else if (c <? 128) || isspace c then None
  else uni_decimal rt c.

(** The class [\d]. *)
Definition isdecimal (c : N) : bool :=
  match decimal c with Some _ => true | None => false end.

(** The class [\w]: alphanumeric or an underscore. *)
Definition isword (c : N) : bool :=
  if c <? 128 then ascii_isalnum c || (c =? 95) else uni_isalnum rt c.

(** [s.lower()] *)
Definition lower (s : pystr) : pystr :=
  if isascii s then map ascii_lower s else uni_lower rt s.

(** An ASCII word of a pattern. *)
Definition w (s : string) : regex := str (PyStr.lit s).

(** Under [re.I] a character of the subject matches the ASCII pattern
    character [c] when both have the same lower case, or through one of
    the extra pairs of [re]: the long s for s, the Kelvin sign for k, the
    dotted capital and the dotless i for i. *)
Definition ci_eq (c x : N) : bool :=
  let l := ascii_lower c in
  ((x <? 128) && (ascii_lower x =? l))
  || ((l =? 115) && (x =? 383))
  || ((l =? 107) && (x =? 8490))
  || ((l =? 105) && ((x =? 304) || (x =? 305))).

(** An ASCII word of a pattern compiled with [re.I]. *)
Definition wi (s : string) : regex :=
  fold_right (fun c r => Cat (Cls (ci_eq c)) r) Eps (PyStr.lit s).

(** *** [float()] *)

(** The values of the leading decimal digits of [s], and what follows them. *)
Fixpoint span_digits (s : pystr) : list N * pystr :=
  match s with
  | c :: t =>
      match decimal c with
      | Some d => let '(ds, r) := span_digits t in (d :: ds, r)
      | None => ([], s)
      end
  | [] => ([], [])
  end.

Definition digits_value (ds : list N) : Z :=
  fold_left (fun acc d => (10 * acc + Z.of_N d)%Z) ds 0%Z.

(** The sign a literal starts with, and what follows it. *)
Definition read_sign (t : pystr) : bool * pystr :=
  match t with
  | c :: r =>
      if c =? 45 then (true, r) else if c =? 43 then (false, r) else (false, t)
  | [] => (false, t)
  end.

(** The digits after a decimal point, and what follows them. *)
Definition read_fraction (t : pystr) : list N * pystr :=
  match t with
  | c :: r => if c =? 46 then span_digits r else ([], t)
  | [] => ([], t)
  end.

(** [float(s)] for the decimal literals: blanks around, a sign, digits of
    any script with at most one point among them. [float] reads more (an
    exponent, underscores, [inf], [nan]); here every other string raises
    [ValueError], so that a result [Ok] of the model is a result of
    [float]. *)
Definition py_float (s : pystr) : result float :=
  let '(sgn, t1) := read_sign (strip s) in
  let '(ip, t2) := span_digits t1 in
  let '(fp, t3) := read_fraction t2 in
  match ip ++ fp, t3 with
  | _ :: _, [] =>
      Ok (PyFloat.of_decimal sgn (digits_value (ip ++ fp)) (List.length fp))
  | _, _ => Raise ValueError
  end.

(** *** [try_number] *)

(** [^-?\d+(\.\d+)?$] *)
Definition number_re : regex :=
  Bol +++ opt (Chr 45) +++ plus (Cls isdecimal)
      +++ opt (Grp 1 (Chr 46 +++ plus (Cls isdecimal))) +++ Eol.

(** [str(x).strip().replace(" ", "").replace(",", "").replace(" ","")] *)
Definition unspaced (x : pyval) : pystr :=
  remove 160 (remove 44 (remove 32 (strip (py_str x)))).

Definition try_number (x : pyval) : result (option float) :=
  match x with
  | PyNone => Ok None
  | _ =>
      let s := unspaced x in
      let neg := startswith (py "(") s && endswith (py ")") s in
      let s := remove 41 (remove 40 s) in
      if negb (found (rmatch isword number_re s)) then Ok None
      else
        v <- py_float s ;;
        Ok (Some (if neg then PyFloat.neg v else v))
  end.

(** *** [normalize_label] *)

Definition LABEL_MAP : list (regex * pystr) := [
  (* \b(advertis|marketing|media|pub(licit[eé])?)\b *)
  (WordB +++ Grp 1 (w "advertis" <|> w "marketing" <|> w "media"
                    <|> w "pub" +++ opt (Grp 2 (w "licit" +++ set [101; 233])))
         +++ WordB,
   py "OpEx | Sales & Marketing | Media/Ads");
  (* \b(g[& ]*a|frais\s*g[ée]n[ée]raux|administrative)\b *)
  (WordB +++ Grp 1 (w "g" +++ Star true (set [38; 32]) +++ w "a"
                    <|> w "frais" +++ Star true (Cls isspace) +++ w "g"
                        +++ set [233; 101] +++ w "n" +++ set [233; 101] +++ w "raux"
                    <|> w "administrative")
         +++ WordB,
   py "OpEx | General & Administrative | People");
  (* \b(r&d|recherche|entwicklung|research)\b *)
  (WordB +++ Grp 1 (w "r&d" <|> w "recherche" <|> w "entwicklung" <|> w "research")
         +++ WordB,
   py "OpEx | Research & Development | People");
  (* \b(cost of sales|co[uû]t des ventes|cogs)\b *)
  (WordB +++ Grp 1 (w "cost of sales"
                    <|> w "co" +++ set [117; 251] +++ w "t des ventes"
                    <|> w "cogs")
         +++ WordB,
   py "COGS | Other COGS");
  (* \b(materials|mati[eè]res)\b *)
  (WordB +++ Grp 1 (w "materials" <|> w "mati" +++ set [101; 232] +++ w "res")
         +++ WordB,
   py "COGS | Materials");
  (* \b(direct labor|main d'?oeuvre|personnel direct)\b *)
  (WordB +++ Grp 1 (w "direct labor"
                    <|> w "main d" +++ opt (Chr 39) +++ w "oeuvre"
                    <|> w "personnel direct")
         +++ WordB,
   py "COGS | Direct Labor");
  (* \b(services? achet[ée]s|purchased services)\b *)
  (WordB +++ Grp 1 (w "service" +++ opt (Chr 115) +++ w " achet"
                        +++ set [233; 101] +++ w "s"
                    <|> w "purchased services")
         +++ WordB,
   py "COGS | Purchased Services");
  (* \b(revenue|chiffre d'affaires|sales)\b *)
  (WordB +++ Grp 1 (w "revenue" <|> w "chiffre d'affaires" <|> w "sales")
         +++ WordB,
   py "Revenue | Product");
  (* \b(depreciation|amortissement technique)\b *)
  (WordB +++ Grp 1 (w "depreciation" <|> w "amortissement technique")
         +++ WordB,
   py "Depreciation");
  (* \b(amortization|amortissement incorporel)\b *)
  (WordB +++ Grp 1 (w "amortization" <|> w "amortissement incorporel")
         +++ WordB,
   py "Amortization");
  (* \b(taxes?|imp[oô]ts?)\b *)
  (WordB +++ Grp 1 (w "taxe" +++ opt (Chr 115)
                    <|> w "imp" +++ set [111; 244] +++ w "t" +++ opt (Chr 115))
         +++ WordB,
   py "Tax | Current")
].

(** The loop of [normalize_label] over the rules. *)
Fixpoint first_rule (rules : list (regex * pystr)) (low : pystr) : option pystr :=
  match rules with
  | [] => None
  | (pattern, fixed) :: rest =>
      if found (search isword pattern low) then Some fixed
      else first_rule rest low
  end.

Definition normalize_label (label : pystr) : option pystr :=
  if negb (PyStr.truthy label) then None
  else first_rule LABEL_MAP (lower label).

(** *** [extract_from_excel] *)

(** [str(c).strip().lower()] for the column labels. *)
Definition lowered_columns (df : DataFrame) : list pystr :=
  map (fun c => lower (strip (py_str c))) (columns df).

(** The inner loop of [col_like]: the index of the first column, from the
    [i]-th on, whose name holds [k]. *)
Fixpoint first_col (k : pystr) (cols : list pystr) (i : nat) : option nat :=
  match cols with
  | [] => None
  | c :: rest => if contains k c then Some i else first_col k rest (S i)
  end.

(** [col_like(keys)]: the outer loop runs over the keys. The result is the
    index [i] of the column [df.columns[i]]. *)
Fixpoint col_like (cols : list pystr) (keys : list pystr) : option nat :=
  match keys with
  | [] => None
  | k :: rest =>
      match first_col k cols 0 with
      | Some i => Some i
      | None => col_like cols rest
      end
  end.

Definition label_keys : list pystr :=
  map PyStr.lit ["label"; "item"; "intitul"; "description"; "account"]%string.
Definition amount_keys : list pystr :=
  map PyStr.lit ["amount"; "montant"; "value"; "valeur"; "total"]%string.
Definition year_keys : list pystr :=
  map PyStr.lit ["year"; "exercice"; "fy"; "fiscal"]%string.
Definition currency_keys : list pystr :=
  map PyStr.lit ["curr"; "devise"; "currency"]%string.

(** [r.get(c, default)] for the column found by [col_like] ([None] is no
    label of the table). *)
Definition series_get (r : list pyval) (c : option nat) (default : pyval) : pyval :=
  match c with
  | Some i => nth i r default
  | None => default
  end.

(** [bool(c)] for the result of [col_like]. *)
Definition col_truthy (df : DataFrame) (c : option nat) : bool :=
  match c with
  | Some i => py_bool (nth i (columns df) PyNone)
  | None => false
  end.

(** [base_currency if base_currency and base_currency != "NONE" else ccy] *)
Definition resolve_base (base_currency : option pystr) (ccy : pystr) : pystr :=
  match base_currency with
  | Some b => if PyStr.truthy b && negb (PyStr.eqb b (py "NONE")) then b else ccy
  | None => ccy
  end.

(** A loop [for x in xs: ... rows.append(..)] whose body adds a row or
    goes on to the next item. *)
Fixpoint for_each {A} (body : A -> result (option ClassifiedRow))
    (xs : list A) (rows : list ClassifiedRow) : result (list ClassifiedRow) :=
  match xs with
  | [] => Ok rows
  | x :: rest =>
      o <- body x ;;
      for_each body rest (match o with Some row => rows ++ [row] | None => rows end)
  end.

(** [str(r.get(c_label, "") or "")] *)
Definition row_label (r : list pyval) (c_label : option nat) : pystr :=
  py_str (py_or (series_get r c_label (PyStr [])) (PyStr [])).

(** The body of the loop over the rows of a sheet. *)
Definition excel_row (fname : pystr) (base_currency : option pystr)
    (df : DataFrame) (c_label c_amt c_year c_ccy : option nat)
    (r : list pyval) : result (option ClassifiedRow) :=
  let label := row_label r c_label in
  match normalize_label label with
  | None => Ok None
  | Some fixed =>
      if negb (PyStr.truthy fixed) then Ok None
      else
        amt <- try_number (series_get r c_amt PyNone) ;;
        let ccy :=
          if col_truthy df c_ccy then py_str (series_get r c_ccy (PyStr [])) else [] in
        Ok (Some {|
          company_name := path_stem rt fname;
          fiscal_year :=
            if col_truthy df c_year then py_str (series_get r c_year (PyStr [])) else [];
          reporting_currency := ccy;
          base_currency := resolve_base base_currency ccy;
          line_item := fixed;
          amount := amt |})
  end.

(** The body of the loop over the sheets. *)
Definition excel_sheet (fname : pystr) (base_currency : option pystr)
    (df : DataFrame) (rows : list ClassifiedRow) : result (list ClassifiedRow) :=
  let cols := lowered_columns df in
  let c_label := col_like cols label_keys in
  let c_amt := col_like cols amount_keys in
  let c_year := col_like cols year_keys in
  let c_ccy := col_like cols currency_keys in
  for_each (excel_row fname base_currency df c_label c_amt c_year c_ccy) (data df) rows.

Fixpoint excel_sheets (fname : pystr) (base_currency : option pystr)
    (sheets : list DataFrame) (rows : list ClassifiedRow) : result (list ClassifiedRow) :=
  match sheets with
  | [] => Ok rows
  | df :: rest =>
      rows' <- excel_sheet fname base_currency df rows ;;
      excel_sheets fname base_currency rest rows'
  end.

(** [extract_from_excel], from the sheets [pandas] decodes the content to. *)
Definition extract_from_excel (sheets : list DataFrame) (fname : pystr)
    (base_currency : option pystr) : result (list ClassifiedRow) :=
  excel_sheets fname base_currency sheets [].

(** *** [extract_from_pdf] *)

(** [\bUSD|\$|US\$|dollars?\b] with [re.I] *)
Definition usd_re : regex :=
  WordB +++ wi "USD" <|> Chr 36 <|> wi "US" +++ Chr 36
    <|> wi "dollar" +++ opt (Cls (ci_eq 115)) +++ WordB.

(** [\bEUR|€\b] with [re.I] *)
Definition eur_re : regex := WordB +++ wi "EUR" <|> Chr 8364 +++ WordB.

(** [\bGBP|£\b] with [re.I] *)
Definition gbp_re : regex := WordB +++ wi "GBP" <|> Chr 163 +++ WordB.

(** The reporting currency guessed from the whole text ([rep_ccy]). *)
Definition guess_currency (text : pystr) : pystr :=
  if found (search isword usd_re text) then py "USD"
  else if found (search isword eur_re text) then py "EUR"
  else if found (search isword gbp_re text) then py "GBP"
  else [].

(** [(.*?)[\s:\-]+([\(\)\-\d\s,\.]+)$] *)
Definition line_re : regex :=
  Grp 1 (Star false dot)
    +++ plus (Cls (fun c => isspace c || (c =? 58) || (c =? 45)))
    +++ Grp 2 (plus (Cls (fun c =>
                 (c =? 40) || (c =? 41) || (c =? 45) || isdecimal c
                 || isspace c || (c =? 44) || (c =? 46))))
    +++ Eol.

(** The body of the loop over the lines of the text. *)
Definition pdf_line (fname : pystr) (base_currency : option pystr)
    (rep_ccy : pystr) (line : pystr) : result (option ClassifiedRow) :=
  let line := strip line in
  if negb (PyStr.truthy line) then Ok None
  else
    match search isword line_re line with
    | None => Ok None
    | Some m =>
        let label_raw := group 1 m in
        let num_raw := group 2 m in
        match normalize_label label_raw with
        | None => Ok None
        | Some fixed =>
            if negb (PyStr.truthy fixed) then Ok None
            else
              amt <- try_number (PyStr num_raw) ;;
              match amt with
              | None => Ok None
              | Some v =>
                  Ok (Some {|
                    company_name := path_stem rt fname;
                    fiscal_year := [];
                    reporting_currency := rep_ccy;
                    base_currency := resolve_base base_currency rep_ccy;
                    line_item := fixed;
                    amount := Some v |})
              end
        end
    end.

(** ["\n".join([(p.extract_text() or "") for p in pdf.pages])] *)
Definition pdf_text (pages : list (option pystr)) : pystr :=
  join [10] (map (fun p => match p with Some t => t | None => [] end) pages).

(** [extract_from_pdf], from the text [pdfplumber] extracts of each page
    ([None] when a page has none). *)
Definition extract_from_pdf (pages : list (option pystr)) (fname : pystr)
    (base_currency : option pystr) : result (list ClassifiedRow) :=
  let text := pdf_text pages in
  let rep_ccy := guess_currency text in
  for_each (pdf_line fname base_currency rep_ccy) (splitlines text) [].

(** *** [write_workbook] *)

(** [r["company_name"] or "Company"] *)
Definition company_key (r : ClassifiedRow) : pystr :=
  if PyStr.truthy (company_name r) then company_name r else py "Company".

(** [by_co.setdefault(key, []).append(r)] *)
Definition setdefault_append (by_co : PyDict.t (list ClassifiedRow))
    (r : ClassifiedRow) : PyDict.t (list ClassifiedRow) :=
  let k := company_key r in
  let items := match PyDict.get by_co k with Some l => l | None => [] end in
  PyDict.set by_co k (items ++ [r]).

Definition group_by_company (rows : list ClassifiedRow) : PyDict.t (list ClassifiedRow) :=
  fold_left setdefault_append rows [].

(** The builtin [sum] over floats; the sum of nothing is the integer 0. *)
Definition py_sum (xs : list float) : float :=
  match xs with
  | [] => PyFloat.zero
  | _ => float_sum rt xs
  end.

(** [float(i.get("amount") or 0)] *)
Definition amount_or_zero (i : ClassifiedRow) : float :=
  match amount i with
  | Some a => if PyFloat.truthy a then a else PyFloat.zero
  | None => PyFloat.zero
  end.

(** [str(i["line_item"]).startswith("Revenue")] *)
Definition is_revenue (i : ClassifiedRow) : bool :=
  startswith (py "Revenue") (line_item i).

Definition total_revenue (items : list ClassifiedRow) : float :=
  py_sum (map amount_or_zero (filter is_revenue items)).

(** [{i["line_item"]: i for i in items}] *)
Definition build_lookup (items : list ClassifiedRow) : PyDict.t ClassifiedRow :=
  fold_left (fun d i => PyDict.set d (line_item i) i) items [].

(** The body of the loop over [FIXED_ROWS]. *)
Definition report_row (meta : ClassifiedRow) (total_rev : float)
    (lookup : PyDict.t ClassifiedRow) (line : pystr) : result OutRow :=
  let amt :=
    match PyDict.get lookup line with
    | Some i => amount i
    | None => None
    end in
  perc <- match amt with
          | Some a =>
              if PyFloat.truthy total_rev
              then (p <- PyFloat.truediv a total_rev ;; Ok (Some p))
              else Ok None
          | None => Ok None
          end ;;
  Ok {| o_company_name := company_name meta;
        o_fiscal_year := fiscal_year meta;
        o_reporting_currency := reporting_currency meta;
        o_base_currency :=
          if PyStr.truthy (base_currency meta) then base_currency meta
          else reporting_currency meta;
        o_line_item := line;
        o_amount := amt;
        o_percent_of_revenue := perc |}.

Fixpoint report_rows (meta : ClassifiedRow) (total_rev : float)
    (lookup : PyDict.t ClassifiedRow) (lines : list pystr) : result (list OutRow) :=
  match lines with
  | [] => Ok []
  | line :: rest =>
      o <- report_row meta total_rev lookup line ;;
      out <- report_rows meta total_rev lookup rest ;;
      Ok (o :: out)
  end.

(** The table of one company ([out]). *)
Definition company_report (items : list ClassifiedRow) : result (list OutRow) :=
  let total_rev := total_revenue items in
  let lookup := build_lookup items in
  match items with
  | [] => Raise IndexError
  | meta :: _ => report_rows meta total_rev lookup FIXED_ROWS
  end.

(** [re.sub(r'[\\/?*\[\]:]', '_', company)[:31] or "Company"] *)
Definition safe_name (company : pystr) : pystr :=
  let sub c :=
    if existsb (N.eqb c) [92; 47; 63; 42; 91; 93; 58] then 95 else c in
  let s := firstn 31 (map sub company) in
  if PyStr.truthy s then s else py "Company".

Fixpoint company_sheets (by_co : PyDict.t (list ClassifiedRow)) : result (list Sheet) :=
  match by_co with
  | [] => Ok []
  | (company, items) :: rest =>
      out <- company_report items ;;
      sheets <- company_sheets rest ;;
      Ok ((safe_name company, out) :: sheets)
  end.

Definition template_row (line : pystr) : OutRow :=
  {| o_company_name := []; o_fiscal_year := []; o_reporting_currency := [];
     o_base_currency := []; o_line_item := line;
     o_amount := None; o_percent_of_revenue := None |}.

(** [write_workbook]: the sheets handed to the writer, in order. *)
Definition write_workbook (rows : list ClassifiedRow) : result (list Sheet) :=
  let by_co := group_by_company rows in
  match by_co with
  | [] => Ok [(py "Company_Template", map template_row FIXED_ROWS)]
  | _ => company_sheets by_co
  end.
End Pipeline.

(** ** A runtime to run the code on *)

(** [sum] as CPython computes it up to 3.11: additions from left to right. *)
Definition naive_sum (xs : list float) : float :=
  fold_left PyFloat.add xs PyFloat.zero.

(** A runtime for the examples: no character beyond ASCII is a digit or
    alphanumeric, a string that holds one is its own lower case, a path is
    its own stem. On ASCII input, and on paths with neither directory nor
    suffix, the pipeline does not consult these tables. *)
Definition plain_runtime : Runtime := {|
  uni_decimal := fun _ => None;
  uni_isalnum := fun _ => false;
  uni_lower := fun s => s;
  path_stem := fun s => s;
  float_sum := naive_sum
|}.

(** ** The words of the specification *)

(** The column the specification names: the first one whose name holds any
    of the keys ([i] is the index of the first column of [cols]). *)
Fixpoint first_with_any (keys cols : list pystr) (i : nat) : option nat :=
  match cols with
  | [] => None
  | c :: rest =>
      if existsb (fun k => contains k c) keys then Some i
      else first_with_any keys rest (S i)
  end.

(** [k] occurs in [s], the case of the ASCII letters left aside. *)
Definition contains_ci (k s : pystr) : bool :=
  contains (map ascii_lower k) (map ascii_lower s).

(** The currency guess the specification words: the tokens of each currency
    looked up anywhere in the text, without regard to case. *)
Definition claimed_guess (text : pystr) : pystr :=
  let any := existsb (fun k => contains_ci k text) in
  if any [py "USD"; py "$"; py "US$"; py "dollars"] then py "USD"
  else if any [py "EUR"; [8364]] then py "EUR"
  else if any [py "GBP"; [163]] then py "GBP"
  else [].

(** The rows of one company among the input rows, in their order. *)
Definition company_rows (rows : list ClassifiedRow) (company : pystr) : list ClassifiedRow :=
  filter (fun r => PyStr.eqb (company_key r) company) rows.

(** The amount of the last of the [items] whose line item is [line]. *)
Definition last_amount (items : list ClassifiedRow) (line : pystr) : option float :=
  match find (fun i => PyStr.eqb line (line_item i)) (rev items) with
  | Some i => amount i
  | None => None
  end.

(** [amount / total_revenue] when the amount is present and the total is
    not zero, blank otherwise. *)
Definition percent_of (total_rev : float) (amt : option float) : option float :=
  match amt with
  | Some a =>
      if PyFloat.truthy total_rev
      then Some (SFdiv PyFloat.prec PyFloat.emax a total_rev)
      else None
  | None => None
  end.

(** The rows a loop over [xs] emits, in order: the row of each item the
    body gives a row for, and nothing for the other items. *)
Definition emitted {A} (body : A -> result (option ClassifiedRow)) (xs : list A) :
    list ClassifiedRow :=
  flat_map (fun x => match body x with Ok (Some row) => [row] | _ => [] end) xs.

(** The body of the loop over the rows of the sheet [df], with the columns
    [col_like] finds in it for the four roles. *)
Definition sheet_row (rt : Runtime) (fname : pystr) (bc : option pystr)
    (df : DataFrame) : list pyval -> result (option ClassifiedRow) :=
  let cols := lowered_columns rt df in
  excel_row rt fname bc df (col_like cols label_keys) (col_like cols amount_keys)
    (col_like cols year_keys) (col_like cols currency_keys).

(** [d.get(k, [])] *)
Definition items_of (d : PyDict.t (list ClassifiedRow)) (k : pystr) : list ClassifiedRow :=
  match PyDict.get d k with
  | Some l => l
  | None => []
  end.

(** [mid] is the word [w] of a pattern compiled with [re.I]. *)
Definition ci_word (w mid : pystr) : Prop :=
  Forall2 (fun c x => ci_eq c x = true) w mid.

(** [w] occurs in [text], in any case. *)
Definition occurs_ci (w text : pystr) : Prop :=
  exists pre mid post, text = pre ++ mid ++ post /\ ci_word w mid.

(** Half-way between the largest binary64 number, [2^1024 - 2^971], and
    [2^1024]: rounding to the nearest binary64 number keeps the numbers
    below it finite, and takes it and the numbers above it to an infinity. *)
Definition overflow_threshold : Z := (2 ^ 1024 - 2 ^ 970)%Z.

Section SpecDefs.
Variable rt : Runtime.

(** What is left of [s] after its leading digits. *)
Fixpoint drop_digits (s : pystr) : pystr :=
  match s with
  | c :: t => if isdecimal rt c then drop_digits t else s
  | [] => []
  end.

(** [s] without the minus sign it starts with, when it does. *)
Definition drop_minus (s : pystr) : pystr :=
  match s with
  | c :: t => if c =? 45 then t else s
  | [] => s
  end.

(** [s] is digits, one at least, and nothing else. *)
Definition only_digits (s : pystr) : bool :=
  match s with
  | c :: _ => isdecimal rt c && match drop_digits s with [] => true | _ :: _ => false end
  | [] => false
  end.

(** The shape of the specification: an optional leading minus sign, digits,
    optionally a decimal point and digits, and nothing else. *)
Definition number_shape (s : pystr) : bool :=
  match drop_minus s with
  | c :: t =>
      isdecimal rt c &&
      match drop_digits (c :: t) with
      | [] => true
      | p :: frac => (p =? 46) && only_digits frac
      end
  | [] => false
  end.

(** [w] occurs in [text], in any case, right after a word boundary. *)
Definition starts_word_ci (w text : pystr) : Prop :=
  exists pre mid post, text = pre ++ mid ++ post /\ ci_word w mid
    /\ Re.at_boundary (isword rt) (rev pre) (mid ++ post) = true.

(** [w] occurs in [text], in any case, right before a word boundary. *)
Definition ends_word_ci (w text : pystr) : Prop :=
  exists pre mid post, text = pre ++ mid ++ post /\ ci_word w mid
    /\ Re.at_boundary (isword rt) (rev mid ++ rev pre) post = true.

(** What makes the guess USD: a dollar sign, [usd] at the start of a word,
    [dollar] or [dollars] at the end of one. *)
Definition usd_indicator (text : pystr) : Prop :=
  In 36 text \/ starts_word_ci (py "USD") text
  \/ ends_word_ci (py "dollar") text \/ ends_word_ci (py "dollars") text.

(** A row is classified: its line item is canonical, and is what the
    classifier returns for some label. *)
Definition classified (r : ClassifiedRow) : Prop :=
  In (line_item r) FIXED_ROWS
  /\ exists label, normalize_label rt label = Some (line_item r).

(** A report row is as the specification words it: the amount of the last
    row of the company with its line item, and that amount over the total
    revenue of the company. *)
Definition row_as_specified (items : list ClassifiedRow) (o : OutRow) : Prop :=
  o_amount o = last_amount items (o_line_item o)
  /\ o_percent_of_revenue o = percent_of (total_revenue rt items) (o_amount o).

(** [s] without the line feed that ends it, when one does. *)
Definition drop_final_newline (s : pystr) : pystr :=
  match rev s with
  | c :: t => if c =? 10 then rev t else s
  | [] => s
  end.

(** The string [try_number] checks: blanks, commas and parentheses removed. *)
Definition cleaned (x : pyval) : pystr := remove 41 (remove 40 (unspaced x)).

(** The number a string of the shape denotes, its sign left aside, as a
    fraction [m / 10^k]: [m] is the number its digits write, the point left
    out, and [k] is the number of digits after the point. *)
Definition literal_fraction (s : pystr) : Z * nat :=
  let '(ip, t) := span_digits rt (drop_minus s) in
  let '(fp, _) := read_fraction rt t in
  (digits_value (ip ++ fp), List.length fp).

(** The number [s] denotes is within the range of the finite binary64
    numbers: its magnitude is below [overflow_threshold]. *)
Definition below_overflow (s : pystr) : bool :=
  let '(m, k) := literal_fraction s in
  (m <? overflow_threshold * 10 ^ Z.of_nat k)%Z.
(** A decimal literal: what [number_re] matches. *)
Inductive literal : pystr -> pystr -> Prop :=
| Literal sign x ds frac :
    sign = [] \/ sign = [45] ->
    isdecimal rt x = true -> forallb (isdecimal rt) ds = true ->
    (frac = [] \/ exists y ds2, frac = 46 :: y :: ds2 /\ isdecimal rt y = true
                                /\ forallb (isdecimal rt) ds2 = true) ->
    forall nl, nl = [] \/ nl = [10] ->
    literal (sign ++ (x :: ds) ++ frac) nl.

(** The text after a run of digits: nothing, or a character that is no digit. *)
Definition no_digit_ahead (rest : pystr) : Prop :=
  match rest with
  | [] => True
  | c :: _ => isdecimal rt c = false
  end.

End SpecDefs.


(** ** Inputs of the examples *)

(** The float of a small whole number. *)
Definition whole (n : Z) : float := PyFloat.of_decimal false n 0.

Definition example_row (line : string) (amt : option float) : ClassifiedRow := {|
  company_name := py "acme";
  fiscal_year := [];
  reporting_currency := py "EUR";
  base_currency := py "EUR";
  line_item := py line;
  amount := amt
|}.

(** One company, its product revenue stated twice. *)
Definition duplicate_rows : list ClassifiedRow :=
  [ example_row "Revenue | Product" (Some (whole 100));
    example_row "Tax | Current" (Some (whole 40));
    example_row "Revenue | Product" (Some (whole 300)) ].

(** One company with three revenue rows, one of them without an amount,
    and a tax row. *)
Definition revenue_rows : list ClassifiedRow :=
  [ example_row "Revenue | Product" (Some (whole 100));
    example_row "Revenue | Services" None;
    example_row "Revenue | Other Operating Revenue" (Some (whole 300));
    example_row "Tax | Current" (Some (whole 200)) ].

(** A sheet whose first column holds a later key and whose second column
    holds the first key. *)
Definition two_label_columns : DataFrame := {|
  columns := [PyStr (py "Description"); PyStr (py "Label"); PyStr (py "Amount")];
  data := [[PyStr (py "x"); PyStr (py "Revenue"); PyStr (py "abc")]]
|}.

(** * The service: [_download_file] and [build] *)

(** ** The request *)

Record FileRef := {
  name : pystr;
  contentUrl : option pystr;
  contentType : option pystr;
  headers : option (PyDict.t pystr);
  dataUri : option pystr
}.

Record BuildReq := {
  files : list FileRef;
  baseCurrency : option pystr
}.

(** The answer of [build]. *)
Record Response := {
  fileUrl : pystr;
  fileName : pystr
}.

(** ** What a request meets outside the repository *)

Definition bytes := list Byte.byte.

(** A call [requests.get(url, headers=...)]. *)
Definition Request := (pystr * PyDict.t pystr)%type.

(** What ends a request that fails: an [HTTPException] of the code, an
    exception of the pipeline, or one a library raises (a download that
    fails, a content that does not decode or does not parse, a workbook
    the writer refuses), none of which the code catches. *)
Inductive failure :=
| HTTPException (status_code : N) (detail : pystr)
| Uncaught (e : exn)
| LibraryError (what : pystr).

(** The libraries and the network, each call giving its result or the
    text of the exception it raises: [base64.b64decode]; [requests.get]
    followed by [raise_for_status] and [content], which may depend on the
    requests made before; the sheets [pandas] reads from a content; the text
    [pdfplumber] extracts from each page of a content; the workbook writer
    closing the file of a name; the time stamp
    [datetime.utcnow().strftime("%Y%m%d_%H%M%S")]. *)
Record World := {
  b64decode : pystr -> bytes + pystr;
  http_get : list Request -> Request -> bytes + pystr;
  read_excel : bytes -> list DataFrame + pystr;
  read_pdf : bytes -> list (option pystr) + pystr;
  save_workbook : pystr -> list Sheet -> unit + pystr;
  utcnow : pystr
}.

(** The environment variables read when the module is loaded. *)
Record Settings := {
  BASE_URL : pystr;
  API_KEY : pystr
}.

(** A computation of the service: from the requests made so far, in their
    order, to the requests made when it ends and its value or its failure. *)
Definition io (A : Type) : Type := list Request -> list Request * (A + failure).

Definition ret {A} (a : A) : io A := fun log => (log, inl a).

Definition throw {A} (e : failure) : io A := fun log => (log, inr e).

Definition io_bind {A B} (m : io A) (k : A -> io B) : io B :=
  fun log =>
    match m log with
    | (log', inl a) => k a log'
    | (log', inr e) => (log', inr e)
    end.

Notation "x <~ m ;; k" := (io_bind m (fun x => k))
  (at level 61, m at next level, right associativity).

(** The result of a library call. *)
Definition library {A} (r : A + pystr) : io A :=
  match r with
  | inl a => ret a
  | inr e => throw (LibraryError e)
  end.

(** The result of a function of the pipeline. *)
Definition pipeline {A} (r : result A) : io A :=
  match r with
  | Ok a => ret a
  | Raise e => throw (Uncaught e)
  end.

(** [bool(s)] for an optional string. *)
Definition opt_truthy (s : option pystr) : bool :=
  match s with
  | Some s => PyStr.truthy s
  | None => false
  end.

(** [s or ""] for an optional string. *)
Definition or_empty (s : option pystr) : pystr :=
  match s with
  | Some s => s
  | None => []
  end.

(** What follows the first comma of [s], when [s] holds one:
    [s.split(",", 1)[1]]. *)
Fixpoint after_comma (s : pystr) : option pystr :=
  match s with
  | [] => None
  | c :: t => if c =? 44 then Some t else after_comma t
  end.

Section Service.
Variable rt : Runtime.
Variable env : Settings.
Variable world : World.

(** [requests.get(url, headers=hs)], [raise_for_status()], [content]. *)
Definition fetch (url : pystr) (hs : PyDict.t pystr) : io bytes :=
  fun log =>
    (log ++ [(url, hs)],
     match http_get world log (url, hs) with
     | inl b => inl b
     | inr e => inr (LibraryError e)
     end).

Definition _download_file (f : FileRef) : io bytes :=
  if opt_truthy (dataUri f) then
    let uri := or_empty (dataUri f) in
    let b64 := match after_comma uri with Some p => p | None => uri end in
    library (b64decode world b64)
  else if opt_truthy (contentUrl f) then
    fetch (or_empty (contentUrl f))
          (match headers f with Some hs => hs | None => [] end)
  else throw (HTTPException 400 (py "no content for " ++ name f)).

(** The condition of the first branch of the loop of [build]: the file is
    read as a spreadsheet. *)
Definition as_excel (f : FileRef) : bool :=
  let lname := lower rt (name f) in
  endswith (py ".xlsx") lname || endswith (py ".xls") lname
  || endswith (py "sheet") (or_empty (contentType f)).

(** The condition of the second branch: the file is read as a PDF. *)
Definition as_pdf (f : FileRef) : bool :=
  let lname := lower rt (name f) in
  endswith (py ".pdf") lname || endswith (py "pdf") (or_empty (contentType f)).

(** [f.name or default] *)
Definition name_or (f : FileRef) (default : pystr) : pystr :=
  if PyStr.truthy (name f) then name f else default.

(** The body of the loop of [build] over the files. *)
Definition build_file (base : option pystr) (f : FileRef)
    (all_rows : list ClassifiedRow) : io (list ClassifiedRow) :=
  b <~ _download_file f ;;
  if as_excel f then
    sheets <~ library (read_excel world b) ;;
    rows <~ pipeline (extract_from_excel rt sheets (name_or f (py "file.xlsx")) base) ;;
    ret (all_rows ++ rows)
  else if as_pdf f then
    pages <~ library (read_pdf world b) ;;
    rows <~ pipeline (extract_from_pdf rt pages (name_or f (py "file.pdf")) base) ;;
    ret (all_rows ++ rows)
  else ret all_rows.

Fixpoint build_files (base : option pystr) (fs : list FileRef)
    (all_rows : list ClassifiedRow) : io (list ClassifiedRow) :=
  match fs with
  | [] => ret all_rows
  | f :: rest =>
      all_rows' <~ build_file base f all_rows ;;
      build_files base rest all_rows'
  end.

(** [x_api_key != API_KEY] *)
Definition key_differs (x_api_key : option pystr) : bool :=
  match x_api_key with
  | Some k => negb (PyStr.eqb k (API_KEY env))
  | None => true
  end.

(** [build]: the answer, and the workbook written with the name of its
    file in the output directory. *)
Definition build (req : BuildReq) (x_api_key : option pystr)
    : io (Response * (pystr * list Sheet)) :=
  if PyStr.truthy (API_KEY env) && key_differs x_api_key then
    throw (HTTPException 401 (py "unauthorized"))
  else if match files req with [] => true | _ :: _ => false end then
    throw (HTTPException 400 (py "files[] required"))
  else
    all_rows <~ build_files (baseCurrency req) (files req) [] ;;
    let out_name := py "CostBench_PerCompany_" ++ utcnow world ++ py ".xlsx" in
    sheets <~ pipeline (write_workbook rt all_rows) ;;
    _ <~ library (save_workbook world out_name sheets) ;;
    ret ({| fileUrl := BASE_URL env ++ py "/out/" ++ out_name;
            fileName := py "CostBench_PerCompany.xlsx" |},
         (out_name, sheets)).

End Service.

(** ** Words for the properties of the workbook *)

(** The characters a sheet name may not hold. *)
Definition forbidden (c : N) : bool :=
  existsb (N.eqb c) [92; 47; 63; 42; 91; 93; 58].

(** A name a sheet may bear: 1 to 31 characters, none of them forbidden. *)
Definition valid_sheet_name (n : pystr) : Prop :=
  n <> [] /\ (List.length n <= 31)%nat
  /\ forallb (fun c => negb (forbidden c)) n = true.

(** The keys of [ks] that are not in [seen], each once, in the order of
    their first appearance. *)
Fixpoint first_seen (seen ks : list pystr) : list pystr :=
  match ks with
  | [] => []
  | k :: rest =>
      if existsb (PyStr.eqb k) seen then first_seen seen rest
      else k :: first_seen (seen ++ [k]) rest
  end.

(** The canonical items no rule of [LABEL_MAP] leads to. *)
Definition unmapped : list pystr :=
  filter (fun line => negb (existsb (PyStr.eqb line) (map snd LABEL_MAP))) FIXED_ROWS.

(** The amount and the percentage of a row of a report are blank. *)
Definition blank (o : OutRow) : Prop :=
  o_amount o = None /\ o_percent_of_revenue o = None.

(** The columns of a report row that repeat the row [m] of the input. *)
Definition carries_meta (m : ClassifiedRow) (o : OutRow) : Prop :=
  o_company_name o = company_name m
  /\ o_fiscal_year o = fiscal_year m
  /\ o_reporting_currency o = reporting_currency m
  /\ o_base_currency o
     = (if PyStr.truthy (base_currency m) then base_currency m
        else reporting_currency m).

(** The company the rows of a file go to: the stem of its name, or
    [Company] when the stem is empty. *)
Definition file_company (rt : Runtime) (fname : pystr) : pystr :=
  if PyStr.truthy (path_stem rt fname) then path_stem rt fname else py "Company".

(** What a row of a file states about the file: its company is the stem
    of the name of the file, its base currency the one of the request or,
    failing it, its reporting currency. *)
Definition of_file (rt : Runtime) (fname : pystr) (bc : option pystr)
    (row : ClassifiedRow) : Prop :=
  company_name row = path_stem rt fname
  /\ base_currency row = resolve_base bc (reporting_currency row).

(** The amount of a row, when it has one, is a number and no NaN. *)
Definition amount_is_number (row : ClassifiedRow) : Prop :=
  match amount row with
  | Some v => PyFloat.isnan v = false
  | None => True
  end.

(** What the columns a sheet lacks leave blank in a row read from it, [ca],
    [cy] and [cc] being the columns found for the amount, the year and the
    currency. *)
Definition blank_where_lacking (ca cy cc : option nat) (row : ClassifiedRow) : Prop :=
  (ca = None -> amount row = None)
  /\ (cy = None -> fiscal_year row = [])
  /\ (cc = None -> reporting_currency row = []).

(** The requests the files call for, in the order of the files: one for
    each file that has a URL and no data URI. *)
Definition requests_of (fs : list FileRef) : list Request :=
  flat_map (fun f =>
    if opt_truthy (dataUri f) then []
    else if opt_truthy (contentUrl f)
         then [(or_empty (contentUrl f),
                match headers f with Some hs => hs | None => [] end)]
         else []) fs.

(** The request is let in: no key is set, or the key sent is the key set. *)
Definition authorised (env : Settings) (x_api_key : option pystr) : Prop :=
  API_KEY env = [] \/ x_api_key = Some (API_KEY env).

(** The sheet written when there are no rows. *)
Definition template_sheet : Sheet :=
  (py "Company_Template", map template_row FIXED_ROWS).

(** ** More inputs of the examples *)

(** A world where a data URI decodes to an empty content, no download
    succeeds, a content holds neither sheet nor page, and the writer
    accepts every workbook. *)
Definition quiet_world : World := {|
  b64decode := fun _ => inl [];
  http_get := fun _ _ => inr (py "ConnectionError");
  read_excel := fun _ => inl [];
  read_pdf := fun _ => inl [];
  save_workbook := fun _ _ => inl tt;
  utcnow := py "20240101_000000"
|}.

Definition keyed_settings : Settings := {|
  BASE_URL := py "https://example.com";
  API_KEY := py "secret"
|}.

Definition open_settings : Settings := {|
  BASE_URL := py "https://example.com";
  API_KEY := []
|}.

(** A file sent within the request, and a file to fetch. *)
Definition inline_file (n : string) : FileRef := {|
  name := py n;
  contentUrl := Some (py "https://example.com/ignored");
  contentType := None;
  headers := None;
  dataUri := Some (py "data:application/pdf;base64,AAAA")
|}.

Definition remote_file (n : string) : FileRef := {|
  name := py n;
  contentUrl := Some (py "https://example.com/report");
  contentType := None;
  headers := None;
  dataUri := None
|}.

(** A file with neither content nor address. *)
Definition empty_file (n : string) : FileRef := {|
  name := py n;
  contentUrl := None;
  contentType := None;
  headers := None;
  dataUri := Some []
|}.

(** A row of the company [company] stating a year and two currencies. *)
Definition stated_row (company year ccy : string) (base : pystr)
    (line : string) : ClassifiedRow := {|
  company_name := py company;
  fiscal_year := py year;
  reporting_currency := py ccy;
  base_currency := base;
  line_item := py line;
  amount := Some (whole 100)
|}.

(** One company, its two rows stating different years and currencies. *)
Definition two_years : list ClassifiedRow :=
  [ stated_row "acme" "2023" "EUR" [] "Revenue | Product";
    stated_row "acme" "2024" "USD" (py "USD") "Tax | Current" ].

(** Two companies whose names differ in their 32nd character only. *)
Definition long_names : list ClassifiedRow :=
  [ stated_row "International Holdings Company A" "2024" "EUR" [] "Tax | Current";
    stated_row "International Holdings Company B" "2024" "EUR" [] "Tax | Current" ].

(** A sheet with a label column and no amount column, and a sheet with no
    label column. *)
Definition no_amount_column : DataFrame := {|
  columns := [PyStr (py "Label"); PyStr (py "Note")];
  data := [[PyStr (py "Revenue"); PyStr (py "100")]]
|}.

Definition no_label_column : DataFrame := {|
  columns := [PyStr (py "Name"); PyStr (py "Amount")];
  data := [[PyStr (py "Revenue"); PyStr (py "100")]]
|}.

(** * The matcher and what a pattern matches *)

Section ReFacts.
Import Re.
Variable isword : N -> bool.
Variable R : Type.

Abbreviation mt := (matches isword).
Abbreviation sound_at body r :=
  (forall b a cs (k : cont R) x, body b a cs k = Some x ->
     exists b' a' cs', mt r b a b' a' /\ k b' a' cs' = Some x).
Abbreviation complete_at body r :=
  (forall b a b' a' cs (k : cont R), mt r b a b' a' ->
     (forall cs', k b' a' cs' <> None) -> body b a cs k <> None).

Lemma star_loop_sound g r body fuel :
  sound_at body r -> sound_at (star_loop g body fuel) (Star g r).
Proof.
  intros Hbody. induction fuel as [|fuel IH]; intros b a cs k x H; simpl in H.
  - exists b, a, cs. split; [constructor | exact H].
  - assert (Hagain : forall y,
        body b a cs (fun b' a' cs' =>
          if (List.length a' <? List.length a)%nat
          then star_loop g body fuel b' a' cs' k else None) = Some y ->
        exists b' a' cs', mt (Star g r) b a b' a' /\ k b' a' cs' = Some y).
    { intros y Hy. apply Hbody in Hy. destruct Hy as (b1 & a1 & cs1 & Hm & Hk).
      destruct (Nat.ltb_spec (List.length a1) (List.length a)) as [Hlt|]; [|discriminate].
      apply IH in Hk. destruct Hk as (b2 & a2 & cs2 & Hm2 & Hk2).
      exists b2, a2, cs2. split; [|exact Hk2]. eapply M_StarS; eauto. }
    destruct g.
    + destruct (body b a cs _).
      * apply Hagain. exact H.
      * exists b, a, cs. split; [constructor | exact H].
    + destruct (k b a cs) eqn:E.
      * inversion H; subst. exists b, a, cs. split; [constructor | exact E].
      * apply Hagain. exact H.
Qed.

Lemma run_sound r : sound_at (run isword (R:=R) r) r.
Proof.
  induction r; intros b a cs k x H; cbn [run] in H.
  - exists b, a, cs. split; [constructor | exact H].
  - destruct a as [|y a]; [discriminate|].
    destruct (N.eqb_spec y c); [subst|discriminate].
    exists (c :: b), a, cs. split; [constructor | exact H].
  - destruct a as [|y a]; [discriminate|].
    destruct (f y) eqn:E; [|discriminate].
    exists (y :: b), a, cs. split; [constructor; exact E | exact H].
  - destruct b; [|discriminate]. exists [], a, cs. split; [constructor | exact H].
  - destruct (at_end a) eqn:E; [|discriminate].
    exists b, a, cs. split; [constructor; exact E | exact H].
  - destruct (at_boundary isword b a) eqn:E; [|discriminate].
    exists b, a, cs. split; [constructor; exact E | exact H].
  - apply IHr1 in H. destruct H as (b1 & a1 & cs1 & Hm1 & H).
    apply IHr2 in H. destruct H as (b2 & a2 & cs2 & Hm2 & H).
    exists b2, a2, cs2. split; [econstructor; eauto | exact H].
  - destruct (run isword r1 b a cs k) eqn:E.
    + inversion H; subst. apply IHr1 in E. destruct E as (b1 & a1 & cs1 & Hm & Hk).
      exists b1, a1, cs1. split; [apply M_AltL; exact Hm | exact Hk].
    + apply IHr2 in H. destruct H as (b1 & a1 & cs1 & Hm & Hk).
      exists b1, a1, cs1. split; [apply M_AltR; exact Hm | exact Hk].
  - eapply star_loop_sound; [exact IHr | exact H].
  - apply IHr in H. destruct H as (b1 & a1 & cs1 & Hm & Hk).
    eexists b1, a1, _. split; [apply M_Grp; exact Hm | exact Hk].
Qed.

Lemma star_loop_complete g r body :
  complete_at body r ->
  forall b a b' a', mt (Star g r) b a b' a' ->
  forall fuel cs (k : cont R), (List.length a < fuel)%nat ->
    (forall cs', k b' a' cs' <> None) ->
    star_loop g body fuel b a cs k <> None.
Proof.
  intros Hbody b a b' a' Hm.
  remember (Star g r) as sr eqn:Esr.
  induction Hm; try discriminate; inversion Esr; subst; clear Esr;
    intros fuel cs k Hfuel Hk.
  - destruct fuel as [|fuel]; simpl; [apply Hk|].
    destruct g.
    + destruct (body b a cs _); [discriminate | apply Hk].
    + destruct (k b a cs) eqn:E; [discriminate | exfalso; eapply Hk; eauto].
  - destruct fuel as [|fuel]; [lia|]. simpl.
    assert (Hagain :
        body b a cs (fun b' a' cs' =>
          if (List.length a' <? List.length a)%nat
          then star_loop g body fuel b' a' cs' k else None) <> None).
    { eapply Hbody; [exact Hm1|]. intros cs'.
      destruct (Nat.ltb_spec (List.length a1) (List.length a)); [|lia].
      apply IHHm2; auto. lia. }
    destruct g.
    + destruct (body b a cs _); [discriminate | contradiction].
    + destruct (k b a cs); [discriminate | exact Hagain].
Qed.

Lemma run_complete r : complete_at (run isword (R:=R) r) r.
Proof.
  induction r; intros b a b' a' cs k Hm Hk; cbn [run].
  - inversion Hm; subst. apply Hk.
  - inversion Hm; subst. rewrite N.eqb_refl. apply Hk.
  - inversion Hm as [ | |? ? ? ? Hf| | | | | | | | | ]; subst. rewrite Hf. apply Hk.
  - inversion Hm; subst. apply Hk.
  - inversion Hm as [ | | | |? ? He| | | | | | | ]; subst. rewrite He. apply Hk.
  - inversion Hm as [ | | | | |? ? Hb| | | | | | ]; subst. rewrite Hb. apply Hk.
  - inversion Hm; subst. eapply IHr1; [eassumption|].
    intros cs'. eapply IHr2; eassumption.
  - inversion Hm; subst.
    + destruct (run isword r1 b a cs k) eqn:E; [discriminate|].
      exfalso. eapply IHr1; eauto.
    + destruct (run isword r1 b a cs k); [discriminate|]. eapply IHr2; eauto.
  - eapply star_loop_complete; [exact IHr | exact Hm | lia | exact Hk].
  - inversion Hm; subst. eapply IHr; [eassumption|]. intros cs'. apply Hk.
Qed.
End ReFacts.

Section ReInversion.
Import Re.
Variable isword : N -> bool.
Abbreviation mt' := (matches isword).

Lemma mt_Eps_inv b a b' a' : mt' Eps b a b' a' -> b' = b /\ a' = a.
Proof. intros H; inversion H; auto. Qed.

Lemma mt_Chr_inv c b a b' a' : mt' (Chr c) b a b' a' -> a = c :: a' /\ b' = c :: b.
Proof. intros H; inversion H; auto. Qed.

Lemma mt_Cls_inv f b a b' a' :
  mt' (Cls f) b a b' a' -> exists x, a = x :: a' /\ b' = x :: b /\ f x = true.
Proof. intros H; inversion H; subst; eauto. Qed.

Lemma mt_Bol_inv b a b' a' : mt' Bol b a b' a' -> b = [] /\ b' = [] /\ a' = a.
Proof. intros H; inversion H; auto. Qed.

Lemma mt_Eol_inv b a b' a' :
  mt' Eol b a b' a' -> b' = b /\ a' = a /\ at_end a = true.
Proof. intros H; inversion H; auto. Qed.

Lemma mt_WordB_inv b a b' a' :
  mt' WordB b a b' a' -> b' = b /\ a' = a /\ at_boundary isword b a = true.
Proof. intros H; inversion H; auto. Qed.

Lemma mt_Cat_inv r1 r2 b a b' a' :
  mt' (Cat r1 r2) b a b' a' ->
  exists b1 a1, mt' r1 b a b1 a1 /\ mt' r2 b1 a1 b' a'.
Proof. intros H; inversion H; subst; eauto. Qed.

Lemma mt_Alt_inv r1 r2 b a b' a' :
  mt' (Alt r1 r2) b a b' a' -> mt' r1 b a b' a' \/ mt' r2 b a b' a'.
Proof. intros H; inversion H; subst; auto. Qed.

Lemma mt_Grp_inv i r b a b' a' : mt' (Grp i r) b a b' a' -> mt' r b a b' a'.
Proof. intros H; inversion H; subst; auto. Qed.

(** A repeated class matches a run of characters of the class. *)
Lemma mt_star_cls g f b a b' a' :
  mt' (Star g (Cls f)) b a b' a' ->
  exists ds, a = ds ++ a' /\ forallb f ds = true /\ b' = rev ds ++ b.
Proof.
  intros H. remember (Star g (Cls f)) as r eqn:E.
  induction H as [ | | | | | | | | | |g0 r0 b a b1 a1 b2 a2 H1 _ Hlt H2 IH| ];
    try discriminate; inversion E; subst; clear E.
  - exists []. auto.
  - destruct (IH eq_refl) as (ds & -> & Hds & ->).
    apply mt_Cls_inv in H1. destruct H1 as (x & -> & -> & Hx).
    exists (x :: ds). simpl. rewrite Hx, Hds.
    repeat split; auto. rewrite <- app_assoc. reflexivity.
Qed.

End ReInversion.

(** Takes apart the hypotheses that a composed pattern matches. *)
Ltac mt_inv :=
  repeat match goal with
  | H : Re.matches _ Re.Eps _ _ _ _ |- _ =>
      apply mt_Eps_inv in H; destruct H as [? ?]; subst
  | H : Re.matches _ (Re.Chr _) _ _ _ _ |- _ =>
      apply mt_Chr_inv in H; destruct H as [? ?]; subst
  | H : Re.matches _ (Re.Cls _) _ _ _ _ |- _ =>
      apply mt_Cls_inv in H; destruct H as (? & ? & ? & ?); subst
  | H : Re.matches _ Re.Bol _ _ _ _ |- _ =>
      apply mt_Bol_inv in H; destruct H as (? & ? & ?); subst
  | H : Re.matches _ Re.Eol _ _ _ _ |- _ =>
      apply mt_Eol_inv in H; destruct H as (? & ? & ?); subst
  | H : Re.matches _ Re.WordB _ _ _ _ |- _ =>
      apply mt_WordB_inv in H; destruct H as (? & ? & ?); subst
  | H : Re.matches _ (Re.Cat _ _) _ _ _ _ |- _ =>
      apply mt_Cat_inv in H; destruct H as (? & ? & ? & ?)
  | H : Re.matches _ (Re.Grp _ _) _ _ _ _ |- _ => apply mt_Grp_inv in H
  | H : Re.matches _ (Re.Star _ (Re.Cls _)) _ _ _ _ |- _ =>
      apply mt_star_cls in H; destruct H as (? & ? & ? & ?); subst
  | H : Re.matches _ (Re.Alt _ _) _ _ _ _ |- _ =>
      apply mt_Alt_inv in H; destruct H as [H|H]
  end.

(** * Floats: a decimal literal never reads as a NaN *)

Section FloatFacts.
Import PyFloat.

Lemma iter_pos_invariant {A} (P : A -> Prop) (f : A -> A) :
  (forall x, P x -> P (f x)) -> forall p x, P x -> P (iter_pos f p x).
Proof.
  intros Hf. induction p as [p IH|p IH|]; intros x Hx; simpl; auto.
Qed.

Lemma shr_1_nonneg mrs : (0 <= shr_m mrs -> 0 <= shr_m (shr_1 mrs))%Z.
Proof.
  destruct mrs as [m r s]. simpl. destruct m as [|p|p]; simpl; try lia.
  - destruct p; simpl; lia.
Qed.

Lemma shr_nonneg mrs e n : (0 <= shr_m mrs -> 0 <= shr_m (fst (shr mrs e n)))%Z.
Proof.
  intros H. destruct n as [|p|p]; simpl; auto.
  apply (iter_pos_invariant (fun x => (0 <= shr_m x)%Z)); auto using shr_1_nonneg.
Qed.

Lemma shr_fexp_nonneg m e l :
  (0 <= m -> 0 <= shr_m (fst (shr_fexp prec emax m e l)))%Z.
Proof.
  intros H. unfold shr_fexp. apply shr_nonneg.
  destruct l as [|[]]; simpl; exact H.
Qed.

Lemma round_nearest_even_nonneg m l : (0 <= m -> 0 <= round_nearest_even m l)%Z.
Proof.
  intros H. destruct l as [|[]]; simpl; try lia. destruct (Z.even m); lia.
Qed.

Lemma binary_round_aux_not_nan s m e l :
  (0 <= m)%Z -> isnan (binary_round_aux prec emax s m e l) = false.
Proof.
  intros H. unfold binary_round_aux.
  pose proof (shr_fexp_nonneg e l H) as H1.
  destruct (shr_fexp prec emax m e l) as [mrs' e'] eqn:E1. simpl in H1.
  pose proof (round_nearest_even_nonneg (loc_of_shr_record mrs') H1) as H2.
  pose proof (shr_fexp_nonneg e' loc_Exact H2) as H3.
  destruct (shr_fexp prec emax (round_nearest_even _ _) e' loc_Exact) as [mrs'' e''].
  simpl in H3. destruct (shr_m mrs'') as [|p|p]; try reflexivity; try lia.
  destruct (e'' <=? emax - prec)%Z; reflexivity.
Qed.

Lemma of_decimal_not_nan s m k : (0 <= m)%Z -> isnan (of_decimal s m k) = false.
Proof.
  intros Hm. unfold of_decimal. destruct m as [|p|p]; [reflexivity| |lia].
  unfold SFdiv_core_binary.
  set (m' := match _ with Z0 => _ | Zpos _ => _ | Zneg _ => _ end).
  assert (Hm' : (0 <= m')%Z).
  { subst m'. destruct (_ - _ - _)%Z; try lia. apply Z.shiftl_nonneg. lia. }
  pose proof (Z.div_pos m' (10 ^ Z.of_nat k)%Z Hm') as Hq.
  unfold Z.div in Hq.
  destruct (Z.div_eucl m' (10 ^ Z.of_nat k)) as [q r].
  apply binary_round_aux_not_nan. apply Hq. apply Z.pow_pos_nonneg; lia.
Qed.

Lemma neg_not_nan x : isnan x = false -> isnan (neg x) = false.
Proof. destruct x; simpl; auto. Qed.
End FloatFacts.

(** * Floats: the decimal literals that are read as finite numbers *)

Section RangeFacts.
Import PyFloat.
Local Open Scope Z_scope.

Lemma digits2_pos_bounds p :
  2 ^ (Zpos (digits2_pos p) - 1) <= Zpos p < 2 ^ Zpos (digits2_pos p).
Proof.
  induction p as [p IH|p IH|]; cbn [digits2_pos].
  - rewrite Pos2Z.inj_succ.
    replace (Z.succ (Zpos (digits2_pos p)) - 1) with (Z.succ (Zpos (digits2_pos p) - 1)) by lia.
    rewrite !Z.pow_succ_r by lia. lia.
  - rewrite Pos2Z.inj_succ.
    replace (Z.succ (Zpos (digits2_pos p)) - 1) with (Z.succ (Zpos (digits2_pos p) - 1)) by lia.
    rewrite !Z.pow_succ_r by lia. lia.
  - simpl. lia.
Qed.

Lemma Zdigits2_bounds z : 0 < z -> 2 ^ (Zdigits2 z - 1) <= z < 2 ^ Zdigits2 z.
Proof. destruct z as [|p|p]; try lia. intros _. apply digits2_pos_bounds. Qed.

Lemma Zdigits2_nonneg z : 0 <= Zdigits2 z.
Proof. destruct z; simpl; lia. Qed.

Lemma Zdigits2_le z d : 0 <= z < 2 ^ d -> 0 <= d -> Zdigits2 z <= d.
Proof.
  intros [Hz Hlt] Hd. destruct (Z.eq_dec z 0) as [->|Hne]; [simpl; lia|].
  destruct (@Zdigits2_bounds z) as [Hlo _]; [lia|].
  destruct (Z_le_gt_dec (Zdigits2 z) d) as [|Hgt]; [assumption|].
  assert (2 ^ d <= 2 ^ (Zdigits2 z - 1)) by (apply Z.pow_le_mono_r; lia). lia.
Qed.

Lemma Zdigits2_ge z d : 2 ^ d <= z -> 0 <= d -> d + 1 <= Zdigits2 z.
Proof.
  intros Hle Hd. assert (0 < 2 ^ d) by (apply Z.pow_pos_nonneg; lia).
  destruct (@Zdigits2_bounds z) as [_ Hhi]; [lia|].
  destruct (Z_le_gt_dec (d + 1) (Zdigits2 z)) as [|Hgt]; [assumption|].
  assert (2 ^ Zdigits2 z <= 2 ^ d)
    by (apply Z.pow_le_mono_r; [lia|pose proof (Zdigits2_nonneg z); lia]).
  lia.
Qed.

Lemma shr_1_spec mrs :
  0 <= shr_m mrs ->
  shr_m (shr_1 mrs) = shr_m mrs / 2 /\ shr_r (shr_1 mrs) = Z.odd (shr_m mrs).
Proof.
  destruct mrs as [m r s]. cbn [shr_m]. intros Hm. rewrite <- Z.div2_div.
  destruct m as [|[p|p|]|p]; try lia; split; reflexivity.
Qed.

Lemma iter_pos_indexed {A} (P : Z -> A -> Prop) (f : A -> A) :
  (forall t x, 0 <= t -> P t x -> P (t + 1) (f x)) ->
  forall p t x, 0 <= t -> P t x -> P (t + Zpos p) (iter_pos f p x).
Proof.
  intros Hf. induction p as [p IH|p IH|]; intros t x Ht Hx; cbn [iter_pos].
  - replace (t + Zpos p~1) with (t + 1 + Zpos p + Zpos p) by lia.
    apply IH; [lia|]. apply IH; [lia|]. apply Hf; assumption.
  - replace (t + Zpos p~0) with (t + Zpos p + Zpos p) by lia.
    apply IH; [lia|]. apply IH; assumption.
  - apply Hf; assumption.
Qed.

Lemma iter_shr_1_spec p mrs :
  0 <= shr_m mrs ->
  shr_m (iter_pos shr_1 p mrs) = shr_m mrs / 2 ^ Zpos p
  /\ shr_r (iter_pos shr_1 p mrs) = Z.odd (shr_m mrs / 2 ^ (Zpos p - 1)).
Proof.
  intros Hm. set (q := shr_m mrs) in *.
  pose (P := fun (t : Z) (x : shr_record) =>
    0 <= shr_m x /\ shr_m x = q / 2 ^ t
    /\ (0 < t -> shr_r x = Z.odd (q / 2 ^ (t - 1)))).
  assert (H : P (0 + Zpos p) (iter_pos shr_1 p mrs)).
  { apply (@iter_pos_indexed _ P shr_1); [|lia|].
    - intros t x Ht (Hx & Ex & _). destruct (@shr_1_spec x Hx) as [E1 E2].
      split; [|split].
      + rewrite E1. apply Z.div_pos; lia.
      + rewrite E1, Ex, Z.div_div by (try apply Z.pow_pos_nonneg; lia).
        rewrite Z.pow_add_r by lia. reflexivity.
      + intros _. rewrite E2, Ex. replace (t + 1 - 1) with t by lia. reflexivity.
    - split; [exact Hm|]. split; [|lia]. fold q. rewrite Z.div_1_r. reflexivity. }
  destruct H as (_ & E1 & E2). simpl in E1, E2. split; [exact E1|]. apply E2. lia.
Qed.

Lemma shr_record_of_loc_m m l : shr_m (shr_record_of_loc m l) = m.
Proof. destruct l as [|[]]; reflexivity. Qed.

Lemma fexp_eq x : fexp prec emax x = Z.max (x - 53) (-1074).
Proof. reflexivity. Qed.

Lemma pow2_pos a : 0 <= a -> 0 < 2 ^ a.
Proof. intros H. apply Z.pow_pos_nonneg; lia. Qed.

Lemma shr_fexp_spec q e l :
  0 <= q ->
  let f := fexp prec emax (Zdigits2 q + e) in
  exists mrs,
    shr_fexp prec emax q e l = (mrs, Z.max e f)
    /\ shr_m mrs = q / 2 ^ (Z.max e f - e)
    /\ (e < f -> shr_r mrs = Z.odd (q / 2 ^ (f - e - 1))).
Proof.
  intros Hq f. unfold shr_fexp, shr. fold f.
  destruct (f - e) as [|p|p] eqn:En.
  - exists (shr_record_of_loc q l). replace (Z.max e f) with e by lia.
    rewrite shr_record_of_loc_m, Z.sub_diag, Z.div_1_r.
    split; [reflexivity|]. split; [reflexivity|lia].
  - destruct (@iter_shr_1_spec p (shr_record_of_loc q l)) as [E1 E2];
      [rewrite shr_record_of_loc_m; exact Hq|].
    rewrite shr_record_of_loc_m in E1, E2.
    exists (iter_pos shr_1 p (shr_record_of_loc q l)).
    replace (Z.max e f) with (e + Zpos p) by lia.
    replace (e + Zpos p - e) with (Zpos p) by lia.
    replace (f - e - 1) with (Zpos p - 1) by lia. auto.
  - exists (shr_record_of_loc q l). replace (Z.max e f) with e by lia.
    rewrite shr_record_of_loc_m, Z.sub_diag, Z.div_1_r.
    split; [reflexivity|]. split; [reflexivity|lia].
Qed.

Lemma round_nearest_even_bounds mrs :
  let m := shr_m mrs in
  let m' := round_nearest_even m (loc_of_shr_record mrs) in
  m <= m' <= m + 1
  /\ (shr_r mrs = false -> m' = m)
  /\ (shr_r mrs = true -> Z.odd m = true -> m' = m + 1).
Proof.
  destruct mrs as [m [] []]; cbn; repeat split; try lia; try discriminate.
  - destruct (Z.even m); lia.
  - destruct (Z.even m); lia.
  - intros _ Hodd. rewrite <- Z.negb_odd, Hodd. reflexivity.
Qed.

Lemma round_finite sx M e2 :
  0 <= M -> e2 <= 971 ->
  isfinite match M with
           | 0 => S754_zero sx
           | Zpos m => if e2 <=? emax - prec then S754_finite sx m e2 else S754_infinity sx
           | Zneg _ => S754_nan
           end = true.
Proof.
  intros HM He. destruct M as [|m|m]; [reflexivity| |lia].
  replace (e2 <=? emax - prec) with true; [reflexivity|].
  symmetry. apply Z.leb_le. unfold emax, prec. lia.
Qed.

Lemma round_infinite sx M e2 :
  0 < M -> 971 < e2 ->
  match M with
  | 0 => S754_zero sx
  | Zpos m => if e2 <=? emax - prec then S754_finite sx m e2 else S754_infinity sx
  | Zneg _ => S754_nan
  end = S754_infinity sx.
Proof.
  intros HM He. destruct M as [|m|m]; [lia| |lia].
  replace (e2 <=? emax - prec) with false; [reflexivity|].
  symmetry. apply Z.leb_gt. unfold emax, prec. lia.
Qed.

(** Below the midpoint the rounded mantissa stays below [2^53]: [h] is the
    mantissa with its round bit. *)
Lemma round_below_midpoint h (b : bool) mr :
  9007199254740992 <= h < 18014398509481983 ->
  b = Z.odd h ->
  h / 2 <= mr <= h / 2 + 1 ->
  (b = false -> mr = h / 2) ->
  4503599627370496 <= mr < 9007199254740992.
Proof.
  intros Hh Hodd Hb Hsame. destruct b.
  - symmetry in Hodd. rewrite Z.odd_spec in Hodd. destruct Hodd as [k Ek].
    clear Hsame. Z.to_euclidean_division_equations. lia.
  - rewrite (Hsame eq_refl). clear Hsame Hb Hodd.
    Z.to_euclidean_division_equations. lia.
Qed.

Lemma binary_round_aux_finite sx q e l :
  0 <= q -> e <= 0 ->
  isfinite (binary_round_aux prec emax sx q e l) = (q <? (2 ^ 54 - 1) * 2 ^ (970 - e)).
Proof.
  intros Hq He. unfold binary_round_aux.
  destruct (@shr_fexp_spec q e l Hq) as (mrs1 & -> & Em1 & Er1).
  rewrite fexp_eq in *.
  pose proof (Zdigits2_nonneg q) as Hdq.
  set (dq := Zdigits2 q) in *.
  set (e1 := Z.max e (Z.max (dq + e - 53) (-1074))) in *.
  destruct (round_nearest_even_bounds mrs1) as (Hb & Hsame & Hup). cbv zeta in *.
  set (mr := round_nearest_even (shr_m mrs1) (loc_of_shr_record mrs1)) in *.
  assert (Hm1 : 0 <= shr_m mrs1).
  { rewrite Em1. apply Z.div_pos; [lia|]. apply pow2_pos. lia. }
  assert (Hmr : 0 <= mr) by lia.
  destruct (@shr_fexp_spec mr e1 loc_Exact Hmr) as (mrs2 & -> & Em2 & _).
  rewrite fexp_eq in *.
  pose proof (Zdigits2_nonneg mr) as Hdr.
  set (dr := Zdigits2 mr) in *.
  set (e2 := Z.max e1 (Z.max (dr + e1 - 53) (-1074))) in *.
  set (B := 2 ^ (970 - e)).
  assert (HB : 0 < B) by (apply pow2_pos; lia).
  assert (P52 : 2 ^ 52 = 4503599627370496) by reflexivity.
  assert (P53 : 2 ^ 53 = 9007199254740992) by reflexivity.
  assert (P54 : 2 ^ 54 = 18014398509481984) by reflexivity.
  rewrite P54.
  assert (Hqd : 0 < q -> 2 ^ (dq - 1) <= q < 2 ^ dq) by apply Zdigits2_bounds.
  destruct (Z_lt_le_dec (dq + e) 1024) as [HA|HBC].
  - (* the number is below 2^1023 *)
    assert (He1 : e1 <= 970) by (unfold e1; lia).
    assert (Hlt : shr_m mrs1 < 2 ^ 53).
    { rewrite Em1. apply Z.div_lt_upper_bound; [apply pow2_pos; unfold e1; lia|].
      rewrite <- Z.pow_add_r by (unfold e1; lia).
      destruct (Z.eq_dec q 0) as [->|Hne]; [apply pow2_pos; unfold e1; lia|].
      apply Z.lt_le_trans with (2 ^ dq); [apply Hqd; lia|].
      apply Z.pow_le_mono_r; unfold e1; lia. }
    assert (Hdr54 : dr <= 54).
    { apply Zdigits2_le; [|lia]. rewrite P54. lia. }
    rewrite round_finite; [|rewrite Em2; apply Z.div_pos; [lia|apply pow2_pos; unfold e2; lia]
                           |unfold e2; lia].
    symmetry. apply Z.ltb_lt.
    destruct (Z.eq_dec q 0) as [->|Hne]; [lia|].
    apply Z.lt_le_trans with (2 ^ dq); [apply Hqd; lia|].
    apply Z.le_trans with (2 ^ (53 + (970 - e))).
    + apply Z.pow_le_mono_r; lia.
    + rewrite Z.pow_add_r by lia. fold B. rewrite P53. nia.
  - assert (Hqpos : 0 < q).
    { destruct (Z.eq_dec q 0) as [E|]; [|lia]. unfold dq in HBC. rewrite E in HBC.
      simpl in HBC. lia. }
    destruct (Hqd Hqpos) as [Hqlo Hqhi].
    destruct (Z_le_lt_eq_dec _ _ HBC) as [Hbig|Hcrit].
    + (* the number is 2^1024 at least *)
      assert (He1 : e1 = dq + e - 53) by (unfold e1; lia).
      assert (Hlo : 2 ^ 52 <= shr_m mrs1).
      { rewrite Em1. apply Z.div_le_lower_bound; [apply pow2_pos; lia|].
        rewrite <- Z.pow_add_r by lia.
        replace (e1 - e + 52) with (dq - 1) by lia. exact Hqlo. }
      assert (Hhi : shr_m mrs1 < 2 ^ 53).
      { rewrite Em1. apply Z.div_lt_upper_bound; [apply pow2_pos; lia|].
        rewrite <- Z.pow_add_r by lia.
        replace (e1 - e + 53) with dq by lia. exact Hqhi. }
      assert (Hdr53 : 53 <= dr).
      { apply (@Zdigits2_ge mr 52); [|lia]. lia. }
      assert (Hdr54 : dr <= 54).
      { apply Zdigits2_le; [|lia]. rewrite P54. lia. }
      rewrite round_infinite.
      * cbn [isfinite]. symmetry. apply Z.ltb_ge.
        apply Z.le_trans with (2 ^ (54 + (970 - e))).
        -- rewrite Z.pow_add_r by lia. fold B. rewrite P54.
           apply Z.mul_le_mono_nonneg_r; lia.
        -- apply Z.le_trans with (2 ^ (dq - 1)); [|exact Hqlo].
           apply Z.pow_le_mono_r; lia.
      * rewrite Em2. apply Z.div_str_pos. split; [apply pow2_pos; unfold e2; lia|].
        apply Z.le_trans with (2 ^ 1); [apply Z.pow_le_mono_r; unfold e2; lia|].
        simpl. lia.
      * unfold e2. lia.
    + (* the number is between 2^1023 and 2^1024 *)
      assert (He1 : e1 = 971) by (unfold e1; lia).
      assert (Er : shr_r mrs1 = Z.odd (q / B)).
      { rewrite Er1 by lia. unfold B. do 3 f_equal. lia. }
      assert (Em : shr_m mrs1 = q / B / 2).
      { rewrite Em1, Z.div_div by lia. f_equal.
        replace (e1 - e) with (970 - e + 1) by lia.
        rewrite Z.pow_add_r by lia. reflexivity. }
      set (h := q / B) in *.
      assert (Hh : 2 ^ 53 <= h < 2 ^ 54).
      { split.
        - apply Z.div_le_lower_bound; [exact HB|].
          unfold B. rewrite <- Z.pow_add_r by lia.
          replace (970 - e + 53) with (dq - 1) by lia. exact Hqlo.
        - apply Z.div_lt_upper_bound; [exact HB|].
          unfold B. rewrite <- Z.pow_add_r by lia.
          replace (970 - e + 54) with dq by lia. exact Hqhi. }
      rewrite P53, P54 in Hh.
      assert (Hcmp : (q <? (18014398509481984 - 1) * B) = (h <? 18014398509481983)).
      { destruct (Z.ltb_spec h 18014398509481983) as [Hlt|Hge].
        - apply Z.ltb_lt. unfold h in Hlt.
          pose proof (Z.mul_succ_div_gt q B HB) as Hdiv. nia.
        - apply Z.ltb_ge. unfold h in Hge.
          pose proof (Z.mul_div_le q B HB) as Hdiv. nia. }
      rewrite Hcmp. clear Hcmp.
      destruct (Z.ltb_spec h 18014398509481983) as [Hlt|Hge].
      * (* below the midpoint: the mantissa stays below 2^53 *)
        assert (Hmr53 : 4503599627370496 <= mr < 9007199254740992).
        { apply (@round_below_midpoint h (shr_r mrs1) mr).
          - lia.
          - exact Er.
          - rewrite <- Em. exact Hb.
          - intros Hf. rewrite <- Em. exact (Hsame Hf). }
        assert (Hdr53 : dr = 53).
        { apply Z.le_antisymm.
          - apply Zdigits2_le; [|lia]. rewrite P53. lia.
          - apply (@Zdigits2_ge mr 52); [|lia]. rewrite P52. lia. }
        apply round_finite.
        -- rewrite Em2. apply Z.div_pos; [lia|apply pow2_pos; unfold e2; lia].
        -- unfold e2. lia.
      * (* at the midpoint or above: the mantissa is rounded up to 2^53 *)
        assert (Eh : h = 18014398509481983) by lia.
        assert (Emr : mr = 9007199254740992).
        { rewrite Hup.
          - rewrite Em, Eh. reflexivity.
          - rewrite Er, Eh. reflexivity.
          - rewrite Em, Eh. reflexivity. }
        assert (Hdr54 : dr = 54) by (unfold dr; rewrite Emr; reflexivity).
        rewrite round_infinite; [reflexivity| |unfold e2; lia].
        rewrite Em2, Emr. replace (e2 - e1) with 1 by (unfold e2; lia). reflexivity.
Qed.

Lemma overflow_threshold_eq : overflow_threshold = (2 ^ 54 - 1) * 2 ^ 970.
Proof. reflexivity. Qed.

Lemma of_decimal_finite s m k :
  0 <= m ->
  isfinite (of_decimal s m k) = (m <? overflow_threshold * 10 ^ Z.of_nat k).
Proof.
  intros Hm. set (D := 10 ^ Z.of_nat k).
  assert (HD : 0 < D) by (apply Z.pow_pos_nonneg; lia).
  assert (HT : 0 < overflow_threshold) by reflexivity.
  unfold of_decimal. destruct m as [|p|p]; [|clear Hm|lia].
  - symmetry. apply Z.ltb_lt. nia.
  - fold D. unfold SFdiv_core_binary.
    set (e := Z.min _ _).
    assert (He : e <= 0) by (unfold e; lia).
    set (m' := match 0 - 0 - e with 0 => Zpos p | Zpos _ => Z.shiftl (Zpos p) (0 - 0 - e) | Zneg _ => 0 end).
    assert (Em' : m' = Zpos p * 2 ^ (- e)).
    { unfold m'. destruct (0 - 0 - e) as [|n|n] eqn:En; [|rewrite Z.shiftl_mul_pow2 by lia; f_equal; f_equal; lia|lia].
      replace (- e) with 0 by lia. lia. }
    pose proof (Z.div_pos m' D) as Hq. unfold Z.div in *.
    assert (Hmod : m' / D = fst (Z.div_eucl m' D)) by reflexivity.
    destruct (Z.div_eucl m' D) as [q r]. cbn [fst] in *.
    rewrite binary_round_aux_finite; [|apply Hq; [rewrite Em'; apply Z.mul_nonneg_nonneg; [lia|apply Z.pow_nonneg; lia]|exact HD]|exact He].
    rewrite overflow_threshold_eq.
    replace (970 - e) with (970 + - e) by lia. rewrite Z.pow_add_r by lia.
    set (S := 2 ^ (- e)) in *.
    assert (HS : 0 < S) by (apply Z.pow_pos_nonneg; lia).
    set (c := (2 ^ 54 - 1) * 2 ^ 970).
    replace ((2 ^ 54 - 1) * (2 ^ 970 * S)) with (c * S) by (unfold c; ring).
    subst q.
    destruct (Z.ltb_spec (Zpos p) (c * D)) as [Hlt|Hge].
    + apply Z.ltb_lt. apply Z.div_lt_upper_bound; [exact HD|]. rewrite Em'. nia.
    + apply Z.ltb_ge. apply Z.div_le_lower_bound; [exact HD|]. rewrite Em'. nia.
Qed.

Lemma neg_finite x : isfinite (neg x) = isfinite x.
Proof. destruct x; reflexivity. Qed.
End RangeFacts.

Ltac bool_arith :=
  repeat match goal with
  | H : _ && _ = true |- _ => apply andb_true_iff in H; destruct H
  | H : _ || _ = true |- _ => apply orb_true_iff in H; destruct H
  | H : _ && _ = false |- _ => apply andb_false_iff in H; destruct H
  | H : _ || _ = false |- _ => apply orb_false_iff in H; destruct H
  | H : (_ <=? _) = true |- _ => apply N.leb_le in H
  | H : (_ <? _) = true |- _ => apply N.ltb_lt in H
  | H : (_ =? _) = true |- _ => apply N.eqb_eq in H
  | H : (_ <=? _) = false |- _ => apply N.leb_gt in H
  | H : (_ <? _) = false |- _ => apply N.ltb_ge in H
  | H : (_ =? _) = false |- _ => apply N.eqb_neq in H
  end; try lia; try discriminate.

Section StripFacts.
Lemma lstrip_head c t : isspace c = false -> lstrip (c :: t) = c :: t.
Proof. intros H. simpl. rewrite H. reflexivity. Qed.

Lemma rstrip_last t c : isspace c = false -> rstrip (t ++ [c]) = t ++ [c].
Proof.
  intros H. unfold rstrip. rewrite rev_app_distr. simpl. rewrite H.
  simpl. rewrite rev_involutive. reflexivity.
Qed.

Lemma rstrip_newline t : rstrip (t ++ [10]) = rstrip t.
Proof. unfold rstrip. rewrite rev_app_distr. reflexivity. Qed.
End StripFacts.

Section NumberFacts.
Variable rt : Runtime.
Import Re.

Lemma isdecimal_range c :
  isdecimal rt c = true -> (48 <= c <= 57) \/ (128 <= c /\ isspace c = false).
Proof.
  unfold isdecimal, decimal.
  destruct ((48 <=? c) && (c <=? 57)) eqn:E1; [intros _; left; bool_arith|].
  destruct ((c <? 128) || isspace c) eqn:E2; [discriminate|].
  intros _. right. apply orb_false_iff in E2. destruct E2 as [E2 E3].
  split; [apply N.ltb_ge in E2; lia | exact E3].
Qed.

Lemma isdecimal_not_space c : isdecimal rt c = true -> isspace c = false.
Proof.
  intros H. apply isdecimal_range in H. destruct H as [H|[_ H]]; [|exact H].
  apply not_true_is_false. intros Hs. unfold isspace in Hs. bool_arith.
Qed.

Lemma ascii_not_decimal c : c < 48 -> isdecimal rt c = false.
Proof.
  intros H. apply not_true_is_false. intros Hd.
  apply isdecimal_range in Hd. lia.
Qed.

Lemma at_end_cases a : at_end a = true -> a = [] \/ a = [10].
Proof.
  destruct a as [|c [|]]; simpl; intros H; try discriminate; auto.
  apply N.eqb_eq in H. subst. auto.
Qed.

Lemma number_re_sound s :
  found (rmatch (isword rt) (number_re rt) s) = true ->
  exists core nl, s = core ++ nl /\ literal rt core nl.
Proof.
  unfold rmatch. destruct (run _ _ _ _ _ _) as [cs|] eqn:E; [intros _|discriminate].
  apply run_sound in E. destruct E as (b' & a' & cs' & Hm & _).
  unfold number_re, opt, plus in Hm. mt_inv.
  all: match goal with H : at_end _ = true |- _ => apply at_end_cases in H end.
  all: match goal with
       | |- exists _ _, 45 :: ?x :: ?ds ++ 46 :: ?y :: ?ds2 ++ ?nl = _ /\ _ =>
           exists ([45] ++ (x :: ds) ++ (46 :: y :: ds2)), nl
       | |- exists _ _, ?x :: ?ds ++ 46 :: ?y :: ?ds2 ++ ?nl = _ /\ _ =>
           exists ([] ++ (x :: ds) ++ (46 :: y :: ds2)), nl
       | |- exists _ _, 45 :: ?x :: ?ds ++ ?nl = _ /\ _ =>
           exists ([45] ++ (x :: ds) ++ []), nl
       | |- exists _ _, ?x :: ?ds ++ ?nl = _ /\ _ =>
           exists ([] ++ (x :: ds) ++ []), nl
       end.
  all: split;
    [ rewrite ?app_nil_r; repeat (simpl; rewrite <- ?app_assoc); reflexivity
    | constructor; eauto 8 ].
Qed.

Lemma forallb_last (f : N -> bool) l x :
  forallb f (l ++ [x]) = true -> f x = true.
Proof.
  rewrite forallb_app. simpl. intros H. bool_arith. assumption.
Qed.

(** A literal starts and ends with a character that is no blank. *)
Lemma literal_ends core nl :
  literal rt core nl ->
  (exists c t, core = c :: t /\ isspace c = false /\ c <> 43) /\
  (exists t c, core = t ++ [c] /\ isdecimal rt c = true).
Proof.
  intros H. destruct H as [sign x ds frac Hsign Hx Hds Hfrac nl Hnl]. split.
  - destruct Hsign as [->| ->]; simpl.
    + exists x, (ds ++ frac). repeat split; auto using isdecimal_not_space.
      intros ->. rewrite ascii_not_decimal in Hx; [discriminate|lia].
    + exists 45, (x :: ds ++ frac). repeat split; lia.
  - destruct Hfrac as [->|(y & ds2 & -> & Hy & Hds2)].
    + rewrite app_nil_r.
      destruct (exists_last (l:=x :: ds)) as (t & c & E); [discriminate|].
      exists (sign ++ t), c. rewrite E, app_assoc. split; [reflexivity|].
      assert (Hall : forallb (isdecimal rt) (x :: ds) = true)
        by (simpl; rewrite Hx, Hds; reflexivity).
      rewrite E in Hall. eapply forallb_last; eauto.
    + destruct (exists_last (l:=y :: ds2)) as (t & c & E); [discriminate|].
      exists (sign ++ (x :: ds) ++ 46 :: t), c. split.
      * change (46 :: y :: ds2) with ([46] ++ y :: ds2). rewrite E.
        rewrite <- !app_assoc. reflexivity.
      * assert (Hall : forallb (isdecimal rt) (y :: ds2) = true)
          by (simpl; rewrite Hy, Hds2; reflexivity).
        rewrite E in Hall. eapply forallb_last; eauto.
Qed.

Lemma strip_literal core nl : literal rt core nl -> strip (core ++ nl) = core.
Proof.
  intros H. pose proof (literal_ends H) as [(c & t & E1 & Hc & _) (t' & c' & E2 & Hc')].
  assert (Hnl : nl = [] \/ nl = [10]) by (destruct H; assumption).
  unfold strip. rewrite E1. simpl app. rewrite lstrip_head by exact Hc.
  change (c :: t ++ nl) with ((c :: t) ++ nl). rewrite <- E1, E2.
  apply isdecimal_not_space in Hc'.
  destruct Hnl as [->| ->].
  - rewrite app_nil_r. apply rstrip_last. exact Hc'.
  - rewrite rstrip_newline. apply rstrip_last. exact Hc'.
Qed.

Lemma drop_final_newline_literal core nl :
  literal rt core nl -> drop_final_newline (core ++ nl) = core.
Proof.
  intros H. pose proof (literal_ends H) as [_ (t' & c' & E2 & Hc')].
  assert (Hnl : nl = [] \/ nl = [10]) by (destruct H; assumption).
  unfold drop_final_newline. destruct Hnl as [->| ->].
  - rewrite app_nil_r, E2, rev_app_distr. simpl.
    destruct (N.eqb_spec c' 10) as [->|Hne]; [|reflexivity].
    rewrite ascii_not_decimal in Hc'; [discriminate|lia].
  - rewrite rev_app_distr. simpl. apply rev_involutive.
Qed.
Lemma isdecimal_decimal c : isdecimal rt c = true -> exists d, decimal rt c = Some d.
Proof. unfold isdecimal. destruct (decimal rt c); [eauto|discriminate]. Qed.

Lemma span_digits_app ds rest :
  forallb (isdecimal rt) ds = true -> no_digit_ahead rt rest ->
  exists vs, span_digits rt (ds ++ rest) = (vs, rest)
             /\ List.length vs = List.length ds.
Proof.
  intros Hds Hrest. induction ds as [|c ds IH]; simpl in *.
  - exists []. split; [|reflexivity].
    destruct rest as [|c t]; [reflexivity|]. simpl in *.
    unfold isdecimal in Hrest. destruct (decimal rt c); [discriminate|reflexivity].
  - apply andb_true_iff in Hds. destruct Hds as [Hc Hds].
    destruct (IH Hds) as (vs & E & Hlen).
    destruct (isdecimal_decimal c Hc) as (d & Ed). rewrite Ed, E.
    exists (d :: vs). simpl. auto.
Qed.

Lemma drop_digits_app ds rest :
  forallb (isdecimal rt) ds = true -> no_digit_ahead rt rest ->
  drop_digits rt (ds ++ rest) = rest.
Proof.
  intros Hds Hrest. induction ds as [|c ds IH]; simpl in *.
  - destruct rest as [|c t]; [reflexivity|]. simpl. simpl in Hrest.
    rewrite Hrest. reflexivity.
  - apply andb_true_iff in Hds. destruct Hds as [Hc Hds]. rewrite Hc. auto.
Qed.

Lemma digits_value_nonneg ds : (0 <= digits_value ds)%Z.
Proof.
  unfold digits_value.
  assert (H : forall acc, (0 <= acc)%Z ->
    (0 <= fold_left (fun acc d => 10 * acc + Z.of_N d) ds acc)%Z).
  { induction ds as [|d ds IH]; intros acc Hacc; cbn [fold_left]; [exact Hacc|].
    apply IH. pose proof (N2Z.is_nonneg d). lia. }
  apply H. lia.
Qed.

Lemma py_float_literal core nl :
  literal rt core nl ->
  exists v, py_float rt (core ++ nl) = Ok v /\ PyFloat.isnan v = false.
Proof.
  intros H. unfold py_float. rewrite (strip_literal H).
  destruct H as [sign x ds frac Hsign Hx Hds Hfrac nl Hnl].
  assert (Hall : forallb (isdecimal rt) (x :: ds) = true)
    by (simpl; rewrite Hx, Hds; reflexivity).
  assert (Hahead : no_digit_ahead rt frac).
  { destruct Hfrac as [->|(y & ds2 & -> & _)]; simpl; auto. }
  destruct (span_digits_app (x :: ds) frac Hall Hahead) as (ip & Eip & Hip).
  assert (Hsgn : exists sgn,
    read_sign (sign ++ (x :: ds) ++ frac) = (sgn, (x :: ds) ++ frac)).
  { unfold read_sign. destruct Hsign as [->| ->]; simpl.
    - destruct (isdecimal_range x Hx) as [Hr|[Hr _]].
      + destruct (N.eqb_spec x 45); [lia|]. destruct (N.eqb_spec x 43); [lia|]. eauto.
      + destruct (N.eqb_spec x 45); [lia|]. destruct (N.eqb_spec x 43); [lia|]. eauto.
    - eauto. }
  destruct Hsgn as (sgn & ->). rewrite Eip.
  destruct ip as [|d ip]; [discriminate|].
  destruct Hfrac as [->|(y & ds2 & -> & Hy & Hds2)].
  - eexists. split; [reflexivity|].
    apply of_decimal_not_nan, digits_value_nonneg.
  - assert (Hall2 : forallb (isdecimal rt) (y :: ds2) = true)
      by (simpl; rewrite Hy, Hds2; reflexivity).
    destruct (span_digits_app (y :: ds2) [] Hall2 I) as (fp & Efp & Hfp).
    rewrite app_nil_r in Efp. unfold read_fraction. rewrite N.eqb_refl, Efp.
    eexists. split; [reflexivity|].
    apply of_decimal_not_nan, digits_value_nonneg.
Qed.

(** What [float] reads a literal as: the fraction it denotes, rounded. *)
Lemma py_float_literal_fraction core nl :
  literal rt core nl ->
  exists sgn,
    py_float rt (core ++ nl)
    = Ok (PyFloat.of_decimal sgn (fst (literal_fraction rt core))
            (snd (literal_fraction rt core)))
    /\ (0 <= fst (literal_fraction rt core))%Z.
Proof.
  intros H. unfold py_float. rewrite (strip_literal H).
  destruct H as [sign x ds frac Hsign Hx Hds Hfrac nl Hnl].
  assert (Hall : forallb (isdecimal rt) (x :: ds) = true)
    by (simpl; rewrite Hx, Hds; reflexivity).
  assert (Hahead : no_digit_ahead rt frac).
  { destruct Hfrac as [->|(y & ds2 & -> & _)]; simpl; auto. }
  destruct (span_digits_app (x :: ds) frac Hall Hahead) as (ip & Eip & Hip).
  assert (Hsgn : exists sgn,
    read_sign (sign ++ (x :: ds) ++ frac) = (sgn, (x :: ds) ++ frac)).
  { unfold read_sign. destruct Hsign as [->| ->]; simpl.
    - destruct (isdecimal_range x Hx) as [Hr|[Hr _]].
      + destruct (N.eqb_spec x 45); [lia|]. destruct (N.eqb_spec x 43); [lia|]. eauto.
      + destruct (N.eqb_spec x 45); [lia|]. destruct (N.eqb_spec x 43); [lia|]. eauto.
    - eauto. }
  assert (E : drop_minus (sign ++ (x :: ds) ++ frac) = (x :: ds) ++ frac).
  { unfold drop_minus. destruct Hsign as [->| ->]; simpl; [|reflexivity].
    destruct (N.eqb_spec x 45) as [->|]; [|reflexivity].
    rewrite ascii_not_decimal in Hx; [discriminate|lia]. }
  destruct Hsgn as (sgn & ->). exists sgn.
  unfold literal_fraction. rewrite E, Eip.
  destruct ip as [|d ip]; [discriminate|].
  destruct Hfrac as [->|(y & ds2 & -> & Hy & Hds2)].
  - cbn [read_fraction app fst snd]. split; [reflexivity|apply digits_value_nonneg].
  - assert (Hall2 : forallb (isdecimal rt) (y :: ds2) = true)
      by (simpl; rewrite Hy, Hds2; reflexivity).
    destruct (span_digits_app (y :: ds2) [] Hall2 I) as (fp & Efp & Hfp).
    rewrite app_nil_r in Efp. unfold read_fraction. rewrite N.eqb_refl, Efp.
    cbn [app fst snd]. split; [reflexivity|apply digits_value_nonneg].
Qed.

Lemma number_shape_literal core nl : literal rt core nl -> number_shape rt core = true.
Proof.
  intros H. destruct H as [sign x ds frac Hsign Hx Hds Hfrac nl Hnl].
  assert (Hall : forallb (isdecimal rt) (x :: ds) = true)
    by (simpl; rewrite Hx, Hds; reflexivity).
  assert (Hahead : no_digit_ahead rt frac).
  { destruct Hfrac as [->|(y & ds2 & -> & _)]; simpl; auto. }
  pose proof (drop_digits_app (x :: ds) frac Hall Hahead) as Edrop.
  assert (E : drop_minus (sign ++ (x :: ds) ++ frac) = (x :: ds) ++ frac).
  { unfold drop_minus. destruct Hsign as [->| ->]; simpl; [|reflexivity].
    destruct (N.eqb_spec x 45) as [->|]; [|reflexivity].
    rewrite ascii_not_decimal in Hx; [discriminate|lia]. }
  unfold number_shape. rewrite E. cbn [app] in *. rewrite Edrop, Hx.
  destruct Hfrac as [->|(y & ds2 & -> & Hy & Hds2)]; [reflexivity|].
  assert (Hall2 : forallb (isdecimal rt) (y :: ds2) = true)
    by (simpl; rewrite Hy, Hds2; reflexivity).
  pose proof (drop_digits_app (y :: ds2) [] Hall2 I) as Edrop2.
  rewrite app_nil_r in Edrop2. unfold only_digits.
  rewrite N.eqb_refl, Hy, Edrop2. reflexivity.
Qed.

(** [try_number] returns, and what it returns. *)
Lemma try_number_total x :
  exists r, try_number rt x = Ok r
    /\ match r with Some f => PyFloat.isnan f = false | None => True end
    /\ (number_shape rt (drop_final_newline (cleaned x)) = false -> r = None).
Proof.
  assert (Hgen : forall (neg : bool) (c : pystr),
    exists r,
      (if negb (found (rmatch (isword rt) (number_re rt) c)) then Ok None
       else v <- py_float rt c ;; Ok (Some (if neg then PyFloat.neg v else v)))
      = Ok r
      /\ match r with Some f => PyFloat.isnan f = false | None => True end
      /\ (number_shape rt (drop_final_newline c) = false -> r = None)).
  { intros neg c.
    destruct (found (rmatch (isword rt) (number_re rt) c)) eqn:E; simpl;
      [|exists None; auto].
    apply number_re_sound in E. destruct E as (core & nl & Ec & Hlit).
    destruct (py_float_literal Hlit) as (v & Ev & Hv). rewrite <- Ec in Ev.
    rewrite Ev. simpl. eexists. split; [reflexivity|]. split.
    - destruct neg; [apply neg_not_nan|]; exact Hv.
    - rewrite Ec, (drop_final_newline_literal Hlit), (number_shape_literal Hlit).
      discriminate. }
  destruct x as [|s|t s]; [exists None; simpl; auto| |]; apply Hgen.
Qed.

Lemma drop_digits_split s :
  exists ds, s = ds ++ drop_digits rt s
    /\ forallb (isdecimal rt) ds = true /\ no_digit_ahead rt (drop_digits rt s).
Proof.
  induction s as [|c s IH]; simpl.
  - exists []. auto.
  - destruct (isdecimal rt c) eqn:E.
    + destruct IH as (ds & E1 & Hds & Ha). exists (c :: ds). simpl.
      rewrite E, Hds. split; [f_equal; exact E1|auto].
    + exists []. simpl. auto.
Qed.

(** A string of the shape is a literal. *)
Lemma number_shape_is_literal s : number_shape rt s = true -> literal rt s [].
Proof.
  intros H.
  assert (Hbody : exists sign x t, s = sign ++ x :: t /\ (sign = [] \/ sign = [45])
    /\ isdecimal rt x = true
    /\ match drop_digits rt t with
       | [] => true
       | p :: frac => (p =? 46) && only_digits rt frac
       end = true).
  { unfold number_shape in H. destruct s as [|c0 t0]; [discriminate|].
    cbn [drop_minus] in H. destruct (N.eqb_spec c0 45) as [->|Hne].
    - destruct t0 as [|x t]; [discriminate|].
      apply andb_true_iff in H. destruct H as [Hx H].
      cbn [drop_digits] in H. rewrite Hx in H.
      exists [45], x, t. auto.
    - apply andb_true_iff in H. destruct H as [Hx H].
      cbn [drop_digits] in H. rewrite Hx in H.
      exists [], c0, t0. auto. }
  destruct Hbody as (sign & x & t & -> & Hsign & Hx & Hrest).
  destruct (drop_digits_split t) as (ds & Et & Hds & _).
  destruct (drop_digits rt t) as [|p frac].
  - rewrite app_nil_r in Et. subst t.
    replace (sign ++ x :: ds) with (sign ++ (x :: ds) ++ []) by (rewrite app_nil_r; reflexivity).
    constructor; auto.
  - apply andb_true_iff in Hrest. destruct Hrest as [Hp Hfrac].
    apply N.eqb_eq in Hp. subst p.
    unfold only_digits in Hfrac. destruct frac as [|y t2]; [discriminate|].
    apply andb_true_iff in Hfrac. destruct Hfrac as [Hy Hdrop].
    destruct (drop_digits_split (y :: t2)) as (ds2 & E2 & Hds2 & _).
    destruct (drop_digits rt (y :: t2)); [|discriminate].
    rewrite app_nil_r in E2. subst ds2.
    cbn [forallb] in Hds2. apply andb_true_iff in Hds2. destruct Hds2 as [_ Hds2].
    rewrite Et.
    replace (sign ++ x :: ds ++ 46 :: y :: t2) with (sign ++ (x :: ds) ++ 46 :: y :: t2)
      by reflexivity.
    constructor; auto. right. exists y, t2. auto.
Qed.

Lemma star_digits g ds : forall b a,
  forallb (isdecimal rt) ds = true ->
  matches (isword rt) (Star g (Cls (isdecimal rt))) b (ds ++ a) (rev ds ++ b) a.
Proof.
  induction ds as [|c ds IH]; intros b a H; simpl.
  - constructor.
  - simpl in H. apply andb_true_iff in H. destruct H as [Hc Hds].
    eapply M_StarS.
    + apply M_Cls. exact Hc.
    + simpl. lia.
    + rewrite <- app_assoc. simpl. apply IH. exact Hds.
Qed.

Lemma plus_digits x ds b a :
  isdecimal rt x = true -> forallb (isdecimal rt) ds = true ->
  matches (isword rt) (plus (Cls (isdecimal rt))) b ((x :: ds) ++ a) (rev (x :: ds) ++ b) a.
Proof.
  intros Hx Hds. unfold plus. eapply M_Cat.
  - apply M_Cls. exact Hx.
  - simpl. rewrite <- app_assoc. simpl. apply star_digits. exact Hds.
Qed.

(** [number_re] matches every literal. *)
Lemma number_re_complete core nl :
  literal rt core nl ->
  found (rmatch (isword rt) (number_re rt) (core ++ nl)) = true.
Proof.
  intros H. destruct H as [sign x ds frac Hsign Hx Hds Hfrac nl Hnl].
  assert (Hend : at_end nl = true) by (destruct Hnl as [->| ->]; reflexivity).
  assert (Hm : exists b', matches (isword rt) (number_re rt) []
                 ((sign ++ (x :: ds) ++ frac) ++ nl) b' nl).
  { assert (Hsgn : forall a, matches (isword rt) (opt (Chr 45)) [] (sign ++ a) (rev sign) a).
    { intros a. unfold opt. destruct Hsign as [->| ->]; simpl.
      - apply M_AltR. constructor.
      - apply M_AltL. constructor. }
    unfold number_re. rewrite <- !app_assoc.
    destruct Hfrac as [->|(y & ds2 & -> & Hy & Hds2)].
    - eexists.
      eapply M_Cat; [apply M_Bol|].
      eapply M_Cat; [apply Hsgn|].
      eapply M_Cat; [apply plus_digits; assumption|].
      eapply M_Cat; [|apply M_Eol; exact Hend].
      apply M_AltR. simpl. constructor.
    - eexists.
      eapply M_Cat; [apply M_Bol|].
      eapply M_Cat; [apply Hsgn|].
      eapply M_Cat; [apply plus_digits; assumption|].
      eapply M_Cat; [|apply M_Eol; exact Hend].
      apply M_AltL. apply M_Grp. eapply M_Cat; [apply M_Chr|].
      change (y :: ds2 ++ nl) with ((y :: ds2) ++ nl).
      apply plus_digits; assumption. }
  destruct Hm as (b' & Hm). unfold rmatch.
  destruct (run (isword rt) (number_re rt) [] _ [] _) eqn:E; [reflexivity|].
  exfalso. eapply (run_complete (R:=caps)); [exact Hm| |exact E]. discriminate.
Qed.

Lemma drop_final_newline_cases s :
  s = drop_final_newline s \/ s = drop_final_newline s ++ [10].
Proof.
  unfold drop_final_newline. destruct (rev s) as [|c t] eqn:E; [auto|].
  destruct (N.eqb_spec c 10) as [->|]; [|auto]. right.
  rewrite <- (rev_involutive s), E. reflexivity.
Qed.

Lemma literal_newline core nl : literal rt core [] -> nl = [] \/ nl = [10] -> literal rt core nl.
Proof.
  intros H Hnl. inversion H as [sign x ds frac Hs Hx Hds Hf nl0 Hnl0 E1 E2]; subst.
  constructor; auto.
Qed.

(** [try_number] gives a number for every string of the shape. *)
Lemma number_shape_found c :
  number_shape rt (drop_final_newline c) = true ->
  found (rmatch (isword rt) (number_re rt) c) = true.
Proof.
  intros H. apply number_shape_is_literal in H.
  destruct (drop_final_newline_cases c) as [E|E]; rewrite E at 1.
  - rewrite <- (app_nil_r (drop_final_newline c)).
    apply number_re_complete. exact H.
  - apply number_re_complete. apply literal_newline; auto.
Qed.

(** [try_number] returns; a number it returns is no NaN, and is finite
    exactly when the number its string denotes is within the range; it
    returns a number exactly for the strings of the shape. *)
Lemma try_number_finite x :
  exists r, try_number rt x = Ok r
    /\ match r with
       | Some f =>
           PyFloat.isnan f = false
           /\ PyFloat.isfinite f = below_overflow rt (drop_final_newline (cleaned x))
       | None => True
       end
    /\ (number_shape rt (drop_final_newline (cleaned x)) = false -> r = None)
    /\ (number_shape rt (drop_final_newline (cleaned x)) = true -> exists f, r = Some f).
Proof.
  assert (Hgen : forall (neg : bool) (c : pystr),
    exists r,
      (if negb (found (rmatch (isword rt) (number_re rt) c)) then Ok None
       else v <- py_float rt c ;; Ok (Some (if neg then PyFloat.neg v else v)))
      = Ok r
      /\ match r with
         | Some f =>
             PyFloat.isnan f = false
             /\ PyFloat.isfinite f = below_overflow rt (drop_final_newline c)
         | None => True
         end
      /\ (number_shape rt (drop_final_newline c) = false -> r = None)
      /\ (number_shape rt (drop_final_newline c) = true -> exists f, r = Some f)).
  { intros neg c.
    destruct (found (rmatch (isword rt) (number_re rt) c)) eqn:E; simpl.
    - apply number_re_sound in E. destruct E as (core & nl & Ec & Hlit).
      destruct (py_float_literal_fraction Hlit) as (sgn & Ev & Hm).
      rewrite <- Ec in Ev. rewrite Ev. simpl. eexists. split; [reflexivity|].
      rewrite Ec, (drop_final_newline_literal Hlit). split; [split|split].
      + destruct neg; [apply neg_not_nan|]; apply of_decimal_not_nan; exact Hm.
      + unfold below_overflow.
        destruct (literal_fraction rt core) as [m k]. cbn [fst snd] in *.
        destruct neg; [rewrite neg_finite|]; apply of_decimal_finite; exact Hm.
      + rewrite (number_shape_literal Hlit). discriminate.
      + intros _. eauto.
    - exists None. repeat split; auto.
      intros Hshape. apply number_shape_found in Hshape.
      rewrite Hshape in E. discriminate. }
  destruct x as [|s|t s]; [|apply Hgen|apply Hgen].
  exists None. repeat split; auto. intros H. vm_compute in H. discriminate.
Qed.
End NumberFacts.

(** * Strings and dicts *)

Section StringFacts.
Lemma pystr_eqb_eq a b : PyStr.eqb a b = true <-> a = b.
Proof.
  revert b. induction a as [|x a IH]; intros [|y b]; simpl; split; intros H;
    try discriminate; try reflexivity.
  - apply andb_true_iff in H. destruct H as [H1 H2].
    apply N.eqb_eq in H1. apply IH in H2. subst. reflexivity.
  - inversion H; subst. rewrite N.eqb_refl. simpl. apply IH. reflexivity.
Qed.

Lemma pystr_eqb_refl a : PyStr.eqb a a = true.
Proof. apply pystr_eqb_eq. reflexivity. Qed.

Lemma existsb_eqb_In x l : existsb (PyStr.eqb x) l = true -> In x l.
Proof.
  intros H. apply existsb_exists in H. destruct H as (y & Hy & E).
  apply pystr_eqb_eq in E. subst. exact Hy.
Qed.
End StringFacts.

Section DictFacts.
Variable V : Type.

Lemma get_set (d : PyDict.t V) k v k' :
  PyDict.get (PyDict.set d k v) k' = if PyStr.eqb k' k then Some v else PyDict.get d k'.
Proof.
  induction d as [|[k0 v0] d IH]; simpl.
  - reflexivity.
  - destruct (PyStr.eqb k k0) eqn:E; simpl.
    + apply pystr_eqb_eq in E. subst k0. destruct (PyStr.eqb k' k); reflexivity.
    + destruct (PyStr.eqb k' k0) eqn:E'.
      * apply pystr_eqb_eq in E'. subst k0.
        destruct (PyStr.eqb k' k) eqn:E''; [|reflexivity].
        apply pystr_eqb_eq in E''. subst. rewrite pystr_eqb_refl in E. discriminate.
      * exact IH.
Qed.

Lemma get_In (d : PyDict.t V) k v : PyDict.get d k = Some v -> In (k, v) d.
Proof.
  induction d as [|[k0 v0] d IH]; simpl; [discriminate|].
  destruct (PyStr.eqb k k0) eqn:E.
  - intros H. inversion H; subst. apply pystr_eqb_eq in E. subst. auto.
  - auto.
Qed.

Lemma set_values (P : V -> Prop) (d : PyDict.t V) k v :
  P v -> Forall (fun kv => P (snd kv)) d ->
  Forall (fun kv => P (snd kv)) (PyDict.set d k v).
Proof.
  intros Hv Hd. induction Hd as [|[k0 v0] d H0 Hd IH]; simpl.
  - constructor; [exact Hv|constructor].
  - destruct (PyStr.eqb k k0); constructor; auto.
Qed.
End DictFacts.

(** * The classifier *)

Section ClassifierFacts.
Variable rt : Runtime.
Import Re.

Lemma first_rule_In rules low fixed :
  first_rule rt rules low = Some fixed -> In fixed (map snd rules).
Proof.
  induction rules as [|[pattern f] rest IH]; simpl; [discriminate|].
  destruct (found _); [intros H; inversion H; auto | auto].
Qed.

Lemma label_targets_canonical :
  forallb (fun f => existsb (PyStr.eqb f) FIXED_ROWS && PyStr.truthy f)
    (map snd LABEL_MAP) = true.
Proof. vm_compute. reflexivity. Qed.

Lemma no_rule_matches_empty :
  forallb (fun rule => negb (found (search (isword rt) (fst rule) []))) LABEL_MAP = true.
Proof. vm_compute. reflexivity. Qed.

Lemma normalize_label_canonical label fixed :
  normalize_label rt label = Some fixed ->
  In fixed FIXED_ROWS /\ PyStr.truthy fixed = true.
Proof.
  unfold normalize_label. destruct (negb _); [discriminate|]. intros H.
  apply first_rule_In in H.
  pose proof label_targets_canonical as Hall.
  rewrite forallb_forall in Hall. apply Hall in H.
  apply andb_true_iff in H. destruct H as [H1 H2].
  split; [apply existsb_eqb_In; exact H1 | exact H2].
Qed.
End ClassifierFacts.

(** * The columns *)

Section ColumnFacts.
Lemma first_col_spec k cols i0 :
  match first_col k cols i0 with
  | Some i => exists j c, i = (i0 + j)%nat /\ nth_error cols j = Some c
                /\ contains k c = true
                /\ forall j' c', (j' < j)%nat -> nth_error cols j' = Some c' ->
                     contains k c' = false
  | None => forall c, In c cols -> contains k c = false
  end.
Proof.
  revert i0. induction cols as [|c rest IH]; intros i0; simpl.
  - intros c [].
  - destruct (contains k c) eqn:E.
    + exists 0%nat, c. repeat split; auto; try lia.
    + specialize (IH (S i0)). destruct (first_col k rest (S i0)) as [i|].
      * destruct IH as (j & c0 & -> & Hn & Hc & Hbefore).
        exists (S j), c0. repeat split; auto; try lia.
        intros [|j'] c' Hlt Hn'; simpl in Hn'.
        -- inversion Hn'; subst. exact E.
        -- eapply Hbefore; [|exact Hn']. lia.
      * intros c' [<-|Hin]; auto.
Qed.

Lemma col_like_spec cols keys :
  match col_like cols keys with
  | Some i =>
      exists pre k post c, keys = pre ++ k :: post
        /\ (forall k' c', In k' pre -> In c' cols -> contains k' c' = false)
        /\ nth_error cols i = Some c /\ contains k c = true
        /\ (forall j c', (j < i)%nat -> nth_error cols j = Some c' ->
              contains k c' = false)
  | None => forall k c, In k keys -> In c cols -> contains k c = false
  end.
Proof.
  induction keys as [|k rest IH]; simpl.
  - intros k c [].
  - pose proof (first_col_spec k cols 0) as Hk.
    destruct (first_col k cols 0) as [i|].
    + destruct Hk as (j & c & -> & Hn & Hc & Hbefore).
      exists [], k, rest, c. simpl. repeat split; auto. intros k' c' [].
    + destruct (col_like cols rest) as [i|].
      * destruct IH as (pre & k0 & post & c & -> & Hpre & Hn & Hc & Hbefore).
        exists (k :: pre), k0, post, c. repeat split; auto.
        intros k' c' [<-|Hin] Hc'; auto.
      * intros k' c [<-|Hin] Hc; auto.
Qed.
End ColumnFacts.

(** * The extractors *)

Section ExtractorFacts.
Variable rt : Runtime.
Import Re.

Lemma for_each_ok A (body : A -> result (option ClassifiedRow))
    (P : ClassifiedRow -> Prop) xs :
  (forall x, exists o, body x = Ok o
     /\ match o with Some row => P row | None => True end) ->
  forall rows, Forall P rows ->
  exists rows', for_each body xs rows = Ok rows' /\ Forall P rows'.
Proof.
  intros Hbody. induction xs as [|x xs IH]; intros rows Hrows; simpl.
  - eauto.
  - destruct (Hbody x) as (o & -> & Ho). simpl. apply IH.
    destruct o as [row|]; [|exact Hrows].
    apply Forall_app. split; [exact Hrows|]. constructor; [exact Ho|constructor].
Qed.

Lemma excel_row_ok fname bc df cl ca cy cc r :
  exists o, excel_row rt fname bc df cl ca cy cc r = Ok o
    /\ match o with Some row => classified rt row | None => True end.
Proof.
  unfold excel_row. cbv zeta.
  destruct (normalize_label rt (row_label r cl)) as [fixed|] eqn:E;
    [|exists None; auto].
  destruct (normalize_label_canonical _ _ E) as [Hin Htruthy].
  rewrite Htruthy. cbn [negb].
  destruct (try_number_total rt (series_get r ca PyNone)) as (amt & -> & _).
  cbn [bind]. eexists. split; [reflexivity|]. split; simpl; eauto.
Qed.

Lemma pdf_line_ok fname bc rep line :
  exists o, pdf_line rt fname bc rep line = Ok o
    /\ match o with
       | Some row => classified rt row /\ reporting_currency row = rep
       | None => True
       end.
Proof.
  unfold pdf_line. cbv zeta.
  destruct (negb (PyStr.truthy (strip line))); [exists None; auto|].
  destruct (search (isword rt) (line_re rt) (strip line)) as [m|];
    [|exists None; auto].
  destruct (normalize_label rt (group 1 m)) as [fixed|] eqn:E;
    [|exists None; auto].
  destruct (normalize_label_canonical _ _ E) as [Hin Htruthy].
  rewrite Htruthy. cbn [negb].
  destruct (try_number_total rt (PyStr (group 2 m))) as (amt & -> & _).
  cbn [bind]. destruct amt as [v|]; [|exists None; auto].
  eexists. split; [reflexivity|]. repeat split; simpl; eauto.
Qed.

Lemma extract_from_excel_ok sheets fname bc :
  exists rows, extract_from_excel rt sheets fname bc = Ok rows
    /\ Forall (classified rt) rows.
Proof.
  unfold extract_from_excel.
  assert (H : forall rows, Forall (classified rt) rows ->
    exists rows', excel_sheets rt fname bc sheets rows = Ok rows'
      /\ Forall (classified rt) rows').
  { induction sheets as [|df rest IH]; intros rows Hrows; simpl; [eauto|].
    unfold excel_sheet.
    destruct (@for_each_ok (list pyval) (excel_row rt fname bc df
                (col_like (lowered_columns rt df) label_keys)
                (col_like (lowered_columns rt df) amount_keys)
                (col_like (lowered_columns rt df) year_keys)
                (col_like (lowered_columns rt df) currency_keys))
              (classified rt) (data df)
              (fun r => @excel_row_ok fname bc df _ _ _ _ r) rows Hrows)
      as (rows' & E & Hrows').
    cbv zeta. rewrite E. simpl. apply IH. exact Hrows'. }
  apply H. constructor.
Qed.

Lemma extract_from_pdf_ok pages fname bc :
  exists rows, extract_from_pdf rt pages fname bc = Ok rows
    /\ Forall (fun row => classified rt row
                 /\ reporting_currency row = guess_currency rt (pdf_text pages)) rows.
Proof.
  unfold extract_from_pdf. cbv zeta.
  apply (@for_each_ok pystr); [|constructor].
  intros line. apply pdf_line_ok.
Qed.

(** A loop whose body never raises adds the rows it emits, in order. *)
Lemma for_each_emitted A (body : A -> result (option ClassifiedRow)) xs :
  (forall x, exists o, body x = Ok o) ->
  forall rows, for_each body xs rows = Ok (rows ++ emitted body xs).
Proof.
  intros Hbody. induction xs as [|x xs IH]; intros rows.
  - simpl. rewrite app_nil_r. reflexivity.
  - unfold emitted. cbn [for_each flat_map]. fold (emitted body xs).
    destruct (Hbody x) as (o & E). rewrite E. cbn [bind]. rewrite IH.
    destruct o as [row|]; [rewrite <- app_assoc|]; reflexivity.
Qed.

Lemma sheet_row_returns fname bc df r : exists o, sheet_row rt fname bc df r = Ok o.
Proof.
  unfold sheet_row. cbv zeta.
  destruct (excel_row_ok fname bc df
              (col_like (lowered_columns rt df) label_keys)
              (col_like (lowered_columns rt df) amount_keys)
              (col_like (lowered_columns rt df) year_keys)
              (col_like (lowered_columns rt df) currency_keys) r) as (o & E & _).
  eauto.
Qed.

Lemma excel_sheets_emitted fname bc sheets :
  forall rows,
    excel_sheets rt fname bc sheets rows
    = Ok (rows ++ flat_map (fun df => emitted (sheet_row rt fname bc df) (data df)) sheets).
Proof.
  induction sheets as [|df rest IH]; intros rows.
  - simpl. rewrite app_nil_r. reflexivity.
  - cbn [excel_sheets flat_map]. unfold excel_sheet. cbv zeta.
    fold (sheet_row rt fname bc df).
    rewrite (for_each_emitted (sheet_row rt fname bc df) (data df)
               (sheet_row_returns fname bc df)).
    cbn [bind]. rewrite IH, <- app_assoc. reflexivity.
Qed.

Lemma extract_from_excel_emitted sheets fname bc :
  extract_from_excel rt sheets fname bc
  = Ok (flat_map (fun df => emitted (sheet_row rt fname bc df) (data df)) sheets).
Proof. unfold extract_from_excel. rewrite excel_sheets_emitted. reflexivity. Qed.

Lemma extract_from_pdf_emitted pages fname bc :
  extract_from_pdf rt pages fname bc
  = Ok (emitted (pdf_line rt fname bc (guess_currency rt (pdf_text pages)))
          (splitlines (pdf_text pages))).
Proof.
  unfold extract_from_pdf. cbv zeta.
  rewrite for_each_emitted; [reflexivity|].
  intros line. destruct (pdf_line_ok fname bc (guess_currency rt (pdf_text pages)) line)
    as (o & E & _). eauto.
Qed.

(** A row of an emitted list is the row the body gives for an item. *)
Lemma emitted_In A (body : A -> result (option ClassifiedRow)) xs row :
  In row (emitted body xs) <-> exists x, In x xs /\ body x = Ok (Some row).
Proof.
  unfold emitted. rewrite in_flat_map. split.
  - intros (x & Hx & Hrow). exists x. split; [exact Hx|].
    destruct (body x) as [[row'|]|e]; simpl in Hrow; try contradiction.
    destruct Hrow as [->|[]]. reflexivity.
  - intros (x & Hx & E). exists x. split; [exact Hx|]. rewrite E. left. reflexivity.
Qed.

(** The text extractor gives every row it emits an amount. *)
Lemma pdf_line_amount fname bc rep line row :
  pdf_line rt fname bc rep line = Ok (Some row) -> amount row <> None.
Proof.
  unfold pdf_line. cbv zeta.
  destruct (negb (PyStr.truthy (strip line))); [discriminate|].
  destruct (search (isword rt) (line_re rt) (strip line)) as [m|]; [|discriminate].
  destruct (normalize_label rt (group 1 m)) as [fixed|]; [|discriminate].
  destruct (negb (PyStr.truthy fixed)); [discriminate|].
  destruct (try_number rt (PyStr (group 2 m))) as [[v|]|e]; cbn [bind];
    try discriminate.
  intros E. inversion E; subst. simpl. discriminate.
Qed.
End ExtractorFacts.

(** * The aggregator *)

Section AggregatorFacts.
Variable rt : Runtime.

Lemma items_of_append d r k :
  items_of (setdefault_append d r) k =
  items_of d k ++ (if PyStr.eqb (company_key r) k then [r] else []).
Proof.
  unfold items_of, setdefault_append. rewrite get_set.
  destruct (PyStr.eqb k (company_key r)) eqn:E.
  - apply pystr_eqb_eq in E. subst k. rewrite pystr_eqb_refl. reflexivity.
  - destruct (PyStr.eqb (company_key r) k) eqn:E'.
    + apply pystr_eqb_eq in E'. subst k. rewrite pystr_eqb_refl in E. discriminate.
    + rewrite app_nil_r. reflexivity.
Qed.

Lemma items_of_fold rows d k :
  items_of (fold_left setdefault_append rows d) k = items_of d k ++ company_rows rows k.
Proof.
  revert d. induction rows as [|r rows IH]; intros d; simpl.
  - rewrite app_nil_r. reflexivity.
  - rewrite IH, items_of_append, <- app_assoc. f_equal.
    destruct (PyStr.eqb (company_key r) k); reflexivity.
Qed.

Lemma fold_nonempty rows d :
  Forall (fun kv => snd kv <> []) d ->
  Forall (fun kv => snd kv <> []) (fold_left setdefault_append rows d).
Proof.
  revert d. induction rows as [|r rows IH]; intros d Hd; simpl; [exact Hd|].
  apply IH. unfold setdefault_append.
  apply (set_values (fun l : list ClassifiedRow => l <> [])); [|exact Hd].
  destruct (PyDict.get d (company_key r)); simpl; [|discriminate].
  intros E. apply app_eq_nil in E. destruct E; discriminate.
Qed.

Lemma group_get rows r :
  In r rows ->
  PyDict.get (group_by_company rows) (company_key r)
  = Some (company_rows rows (company_key r)).
Proof.
  intros Hin. pose proof (items_of_fold rows [] (company_key r)) as H.
  fold (group_by_company rows) in H. unfold items_of in H. simpl in H.
  destruct (PyDict.get (group_by_company rows) (company_key r)) as [l|];
    [rewrite H; reflexivity|].
  exfalso. assert (Hr : In r (company_rows rows (company_key r))).
  { apply filter_In. split; [exact Hin | apply pystr_eqb_refl]. }
  rewrite <- H in Hr. exact Hr.
Qed.

Lemma find_append A (f : A -> bool) l1 l2 :
  find f (l1 ++ l2) = match find f l1 with Some x => Some x | None => find f l2 end.
Proof.
  induction l1 as [|x l1 IH]; simpl; [reflexivity|].
  destruct (f x); [reflexivity|exact IH].
Qed.

Lemma lookup_fold items d line :
  PyDict.get (fold_left (fun d i => PyDict.set d (line_item i) i) items d) line
  = match find (fun i => PyStr.eqb line (line_item i)) (rev items) with
    | Some i => Some i
    | None => PyDict.get d line
    end.
Proof.
  revert d. induction items as [|i items IH]; intros d; simpl; [reflexivity|].
  rewrite IH, find_append. destruct (find _ (rev items)); [reflexivity|].
  simpl. rewrite get_set. destruct (PyStr.eqb line (line_item i)); reflexivity.
Qed.

Lemma lookup_amount items line :
  match PyDict.get (build_lookup items) line with
  | Some i => amount i
  | None => None
  end = last_amount items line.
Proof.
  unfold build_lookup, last_amount. rewrite lookup_fold.
  destruct (find _ (rev items)); reflexivity.
Qed.

(** The last row with a line item is the one no later row repeats. *)
Lemma last_amount_last pre i post :
  Forall (fun j => line_item j <> line_item i) post ->
  last_amount (pre ++ i :: post) (line_item i) = amount i.
Proof.
  intros Hpost. unfold last_amount.
  rewrite rev_app_distr. cbn [rev]. rewrite <- app_assoc, find_append.
  assert (Hnone : find (fun j => PyStr.eqb (line_item i) (line_item j)) (rev post) = None).
  { rewrite Forall_forall in Hpost.
    assert (H : forall l, (forall j, In j l -> line_item j <> line_item i) ->
      find (fun j => PyStr.eqb (line_item i) (line_item j)) l = None).
    { induction l as [|j l IH]; intros Hl; simpl; [reflexivity|].
      destruct (PyStr.eqb (line_item i) (line_item j)) eqn:E.
      - apply pystr_eqb_eq in E. exfalso.
        apply (Hl j); [left; reflexivity|congruence].
      - apply IH. intros j' Hj'. apply Hl. right. exact Hj'. }
    apply H. intros j Hj. apply Hpost. rewrite <- in_rev in Hj. exact Hj. }
  rewrite Hnone. cbn [app find]. rewrite pystr_eqb_refl. reflexivity.
Qed.

Lemma report_row_ok meta items line :
  exists o, report_row meta (total_revenue rt items) (build_lookup items) line = Ok o
    /\ o_line_item o = line /\ row_as_specified rt items o.
Proof.
  unfold report_row. cbv zeta. rewrite lookup_amount.
  destruct (last_amount items line) as [a|] eqn:Ea.
  - unfold PyFloat.truediv.
    destruct (PyFloat.truthy (total_revenue rt items)) eqn:Et; simpl;
      eexists; (split; [reflexivity|]); unfold row_as_specified; simpl;
      rewrite Ea; unfold percent_of; rewrite Et; auto.
  - simpl. eexists. split; [reflexivity|]. unfold row_as_specified. simpl.
    rewrite Ea. auto.
Qed.

Lemma report_rows_ok meta items lines :
  exists out, report_rows meta (total_revenue rt items) (build_lookup items) lines = Ok out
    /\ map o_line_item out = lines /\ Forall (row_as_specified rt items) out.
Proof.
  induction lines as [|line rest IH]; simpl; [eauto|].
  destruct (report_row_ok meta items line) as (o & -> & Hline & Ho).
  destruct IH as (out & -> & Hlines & Hout). simpl.
  exists (o :: out). simpl. rewrite Hline, Hlines. auto.
Qed.

Lemma company_report_ok items :
  items <> [] ->
  exists out, company_report rt items = Ok out
    /\ map o_line_item out = FIXED_ROWS /\ Forall (row_as_specified rt items) out.
Proof.
  intros Hne. unfold company_report. cbv zeta.
  destruct items as [|meta rest]; [contradiction|].
  apply report_rows_ok.
Qed.

Lemma company_sheets_ok by_co :
  Forall (fun kv => snd kv <> []) by_co ->
  exists sheets, company_sheets rt by_co = Ok sheets
    /\ forall company items, In (company, items) by_co ->
         exists out, company_report rt items = Ok out
           /\ In (safe_name company, out) sheets.
Proof.
  induction 1 as [|[company items] rest Hne _ IH]; simpl.
  - exists []. split; [reflexivity|]. intros ? ? [].
  - simpl in Hne. destruct (company_report_ok Hne) as (out & E & _). rewrite E. simpl.
    destruct IH as (sheets & -> & Hsheets). simpl.
    eexists. split; [reflexivity|].
    intros c its [Heq|Hin].
    + inversion Heq; subst. exists out. simpl. auto.
    + destruct (Hsheets c its Hin) as (out' & E' & Hin').
      exists out'. simpl. auto.
Qed.

(** The table written for the company of a row of the input. *)
Lemma workbook_report rows r :
  In r rows ->
  exists sheets out,
    write_workbook rt rows = Ok sheets
    /\ PyDict.get (group_by_company rows) (company_key r)
       = Some (company_rows rows (company_key r))
    /\ company_report rt (company_rows rows (company_key r)) = Ok out
    /\ In (safe_name (company_key r), out) sheets
    /\ map o_line_item out = FIXED_ROWS
    /\ Forall (row_as_specified rt (company_rows rows (company_key r))) out.
Proof.
  intros Hin. pose proof (group_get rows r Hin) as Hget.
  assert (Hne : Forall (fun kv => snd kv <> []) (group_by_company rows))
    by (apply fold_nonempty; constructor).
  destruct (company_sheets_ok Hne) as (sheets & Es & Hsheets).
  pose proof (get_In _ _ Hget) as Hentry.
  destruct (Hsheets _ _ Hentry) as (out & Eout & Hout).
  assert (Hitems : company_rows rows (company_key r) <> []).
  { rewrite Forall_forall in Hne. apply (Hne _ Hentry). }
  destruct (company_report_ok Hitems) as (out' & Eout' & Hlines & Hrows).
  rewrite Eout in Eout'. inversion Eout'; subst out'.
  exists sheets, out. repeat split; auto.
  unfold write_workbook. cbv zeta.
  destruct (group_by_company rows) as [|kv rest] eqn:Eg; [destruct Hentry|].
  exact Es.
Qed.
End AggregatorFacts.

(** * Searching *)

Section SearchFacts.
Import Re.
Variable isword : N -> bool.

Lemma search_from_found r b a :
  found (search_from isword r b a) = true <->
  exists p q b' a', a = p ++ q /\ matches isword r (rev p ++ b) q b' a'.
Proof.
  revert b. induction a as [|c a IH]; intros b; simpl.
  - destruct (run isword r b [] [] _) as [cs|] eqn:E; simpl.
    + split; [intros _|reflexivity].
      apply run_sound in E. destruct E as (b' & a' & _ & Hm & _).
      exists [], [], b', a'. auto.
    + split; [discriminate|]. intros (p & q & b' & a' & Hpq & Hm).
      symmetry in Hpq. apply app_eq_nil in Hpq. destruct Hpq; subst. simpl in Hm.
      exfalso. eapply (run_complete (R:=caps)); [exact Hm| |exact E].
      discriminate.
  - destruct (run isword r b (c :: a) [] _) as [cs|] eqn:E; simpl.
    + split; [intros _|reflexivity].
      apply run_sound in E. destruct E as (b' & a' & _ & Hm & _).
      exists [], (c :: a), b', a'. auto.
    + rewrite IH. split.
      * intros (p & q & b' & a' & -> & Hm).
        exists (c :: p), q, b', a'. split; [reflexivity|].
        simpl. rewrite <- app_assoc. exact Hm.
      * intros (p & q & b' & a' & Hpq & Hm). destruct p as [|c' p].
        -- simpl in *. subst q. exfalso.
           eapply (run_complete (R:=caps)); [exact Hm| |exact E]. discriminate.
        -- simpl in Hpq. inversion Hpq; subst.
           exists p, q, b', a'. split; [reflexivity|].
           simpl in Hm. rewrite <- app_assoc in Hm. exact Hm.
Qed.

Lemma search_found r text :
  found (search isword r text) = true <->
  exists pre post b' a', text = pre ++ post /\ matches isword r (rev pre) post b' a'.
Proof.
  unfold search. rewrite search_from_found.
  split; intros (p & q & b' & a' & E & Hm); exists p, q, b', a';
    (split; [exact E|]); [rewrite app_nil_r in Hm|rewrite app_nil_r]; exact Hm.
Qed.

(** A word compiled with [re.I] matches its spellings. *)
Lemma mt_ci_word l b a b' a' :
  matches isword (fold_right (fun c r => Cat (Cls (ci_eq c)) r) Eps l) b a b' a' <->
  exists mid, a = mid ++ a' /\ b' = rev mid ++ b /\ ci_word l mid.
Proof.
  revert b a b'. induction l as [|c l IH]; intros b a b'; simpl.
  - split.
    + intros H. mt_inv. exists []. repeat split. constructor.
    + intros (mid & -> & -> & Hw). inversion Hw; subst. constructor.
  - split.
    + intros H. mt_inv.
      match goal with H : matches _ _ _ _ _ _ |- _ => apply IH in H;
        destruct H as (mid & -> & -> & Hw) end.
      match goal with x : N |- _ => exists (x :: mid) end.
      simpl. rewrite <- app_assoc. repeat split. constructor; assumption.
    + intros (mid & -> & -> & Hw). inversion Hw as [|c0 x l0 mid0 Hx Hw']; subst.
      simpl. econstructor; [constructor; exact Hx|].
      rewrite <- app_assoc. simpl. apply IH. exists mid0. auto.
Qed.
End SearchFacts.

(** * The currency guess *)

(** Takes apart the hypothesis that a word compiled with [re.I] matches. *)
Ltac ci_inv mid Hw :=
  match goal with
  | H : Re.matches _ (fold_right _ _ _) _ _ _ _ |- _ =>
      apply mt_ci_word in H; destruct H as (mid & ? & ? & Hw); subst
  end.

Section CurrencyFacts.
Variable rt : Runtime.
Import Re.

Lemma ci_word_app w1 w2 m1 m2 :
  ci_word w1 m1 -> ci_word w2 m2 -> ci_word (w1 ++ w2) (m1 ++ m2).
Proof. unfold ci_word. apply Forall2_app. Qed.

Lemma usd_found text :
  found (search (isword rt) usd_re text) = true <-> usd_indicator rt text.
Proof.
  rewrite search_found. unfold usd_re, wi, opt. split.
  - intros (pre & post & b' & a' & -> & Hm). mt_inv.
    all: try ci_inv mid Hw.
    + (* \bUSD *)
      right; left. eexists pre, mid, _. eauto.
    + (* \$ *)
      left. apply in_or_app. right. left. reflexivity.
    + (* US\$ *)
      left. apply in_or_app. right. apply in_or_app. right. left. reflexivity.
    + (* dollars\b *)
      right; right; right.
      match goal with Hb : at_boundary _ (?x :: _) ?post = true |- _ =>
        exists pre, (mid ++ [x]), post end.
      rewrite <- !app_assoc. split; [reflexivity|]. split.
      * change (py "dollars") with (py "dollar" ++ [115]).
        apply ci_word_app; [exact Hw|]. constructor; [assumption|constructor].
      * rewrite rev_app_distr. simpl. assumption.
    + (* dollar\b *)
      right; right; left. eexists pre, mid, _. eauto.
  - intros [Hin|[Hs|[He|He]]].
    + apply in_split in Hin. destruct Hin as (pre & post & ->).
      exists pre, (36 :: post), (36 :: rev pre), post. split; [reflexivity|].
      apply M_AltR, M_AltL. constructor.
    + destruct Hs as (pre & mid & post & -> & Hw & Hb).
      exists pre, (mid ++ post), (rev mid ++ rev pre), post. split; [reflexivity|].
      apply M_AltL. eapply M_Cat; [constructor; exact Hb|].
      apply mt_ci_word. exists mid. auto.
    + destruct He as (pre & mid & post & -> & Hw & Hb).
      exists pre, (mid ++ post), (rev mid ++ rev pre), post. split; [reflexivity|].
      apply M_AltR, M_AltR, M_AltR.
      eapply M_Cat; [apply mt_ci_word; exists mid; auto|].
      eapply M_Cat; [apply M_AltR; constructor|]. constructor. exact Hb.
    + destruct He as (pre & mid & post & -> & Hw & Hb).
      change (py "dollars") with (py "dollar" ++ [115]) in Hw.
      unfold ci_word in Hw. apply Forall2_app_inv_l in Hw.
      destruct Hw as (m1 & m2 & H1 & H2 & ->).
      inversion H2 as [|c x l0 l1 Hx Hnil]; subst. inversion Hnil; subst.
      rewrite rev_app_distr in Hb. cbn [rev app] in Hb.
      exists pre, ((m1 ++ [x]) ++ post), (x :: rev m1 ++ rev pre), post.
      split; [reflexivity|].
      apply M_AltR, M_AltR, M_AltR. rewrite <- app_assoc. cbn [app].
      eapply M_Cat; [apply mt_ci_word; exists m1; auto|].
      eapply M_Cat; [apply M_AltL; constructor; exact Hx|]. constructor. exact Hb.
Qed.

(** The patterns of the two other currencies: [\bWORD|c\b]. *)
Lemma symbol_re_complete l c text :
  starts_word_ci rt l text ->
  found (search (isword rt)
    (Alt (Cat WordB (fold_right (fun c r => Cat (Cls (ci_eq c)) r) Eps l))
         (Cat (Chr c) WordB)) text) = true.
Proof.
  intros (pre & mid & post & -> & Hw & Hb). apply search_found.
  exists pre, (mid ++ post), (rev mid ++ rev pre), post. split; [reflexivity|].
  apply M_AltL. eapply M_Cat; [constructor; exact Hb|].
  apply mt_ci_word. exists mid. auto.
Qed.

Lemma symbol_re_sound l c text :
  found (search (isword rt)
    (Alt (Cat WordB (fold_right (fun c r => Cat (Cls (ci_eq c)) r) Eps l))
         (Cat (Chr c) WordB)) text) = true ->
  occurs_ci l text \/ In c text.
Proof.
  rewrite search_found. intros (pre & post & b' & a' & -> & Hm). mt_inv.
  - ci_inv mid Hw. left. eexists pre, mid, _. eauto.
  - right. apply in_or_app. right. left. reflexivity.
Qed.

Lemma guess_usd text :
  guess_currency rt text = py "USD" <-> usd_indicator rt text.
Proof.
  rewrite <- usd_found. unfold guess_currency.
  destruct (found (search (isword rt) usd_re text)); [tauto|].
  destruct (found (search (isword rt) eur_re text));
    [split; discriminate|].
  destruct (found (search (isword rt) gbp_re text)); split; discriminate.
Qed.

Lemma guess_eur text :
  ~ usd_indicator rt text -> starts_word_ci rt (py "EUR") text ->
  guess_currency rt text = py "EUR".
Proof.
  intros Hno He. unfold guess_currency.
  destruct (found (search (isword rt) usd_re text)) eqn:E.
  - apply usd_found in E. contradiction.
  - unfold eur_re, wi. rewrite (symbol_re_complete 8364 He). reflexivity.
Qed.

Lemma guess_gbp text :
  ~ usd_indicator rt text -> ~ occurs_ci (py "EUR") text -> ~ In 8364 text ->
  starts_word_ci rt (py "GBP") text ->
  guess_currency rt text = py "GBP".
Proof.
  intros Hno Hne1 Hne2 Hg. unfold guess_currency.
  destruct (found (search (isword rt) usd_re text)) eqn:E.
  - apply usd_found in E. contradiction.
  - destruct (found (search (isword rt) eur_re text)) eqn:E2.
    + unfold eur_re, wi in E2. apply symbol_re_sound in E2. tauto.
    + unfold gbp_re, wi. rewrite (symbol_re_complete 163 Hg). reflexivity.
Qed.

Lemma guess_none text :
  ~ usd_indicator rt text ->
  ~ occurs_ci (py "EUR") text -> ~ In 8364 text ->
  ~ occurs_ci (py "GBP") text -> ~ In 163 text ->
  guess_currency rt text = [].
Proof.
  intros Hno He1 He2 Hg1 Hg2. unfold guess_currency.
  destruct (found (search (isword rt) usd_re text)) eqn:E.
  - apply usd_found in E. contradiction.
  - destruct (found (search (isword rt) eur_re text)) eqn:E2.
    + unfold eur_re, wi in E2. apply symbol_re_sound in E2. tauto.
    + destruct (found (search (isword rt) gbp_re text)) eqn:E3; [|reflexivity].
      unfold gbp_re, wi in E3. apply symbol_re_sound in E3. tauto.
Qed.
End CurrencyFacts.

(** * The properties of the program *)

(** C1. Every row the tabular extractor or the text extractor produces has
    a line item of the fixed list of 36 canonical items; a row whose label
    the classifier does not map is dropped: neither extractor emits it. *)
Theorem C1_line_items_canonical (rt : Runtime) (sheets : list DataFrame)
    (pages : list (option pystr)) (fname : pystr) (bc : option pystr) :
  List.length FIXED_ROWS = 36%nat
  /\ (exists rows, extract_from_excel rt sheets fname bc = Ok rows
        /\ Forall (classified rt) rows)
  /\ (exists rows, extract_from_pdf rt pages fname bc = Ok rows
        /\ Forall (classified rt) rows)
  /\ (forall df cl ca cy cc r,
        normalize_label rt (row_label r cl) = None ->
        excel_row rt fname bc df cl ca cy cc r = Ok None)
  /\ (forall rep line m,
        Re.search (isword rt) (line_re rt) (strip line) = Some m ->
        normalize_label rt (Re.group 1 m) = None ->
        pdf_line rt fname bc rep line = Ok None).
Proof.
  split; [reflexivity|]. split; [apply extract_from_excel_ok|]. split.
  - destruct (extract_from_pdf_ok rt pages fname bc) as (rows & E & Hrows).
    exists rows. split; [exact E|].
    eapply Forall_impl; [|exact Hrows]. intros row [H _]. exact H.
  - split.
    + intros df cl ca cy cc r E. unfold excel_row. cbv zeta. rewrite E. reflexivity.
    + intros rep line m Em E. unfold pdf_line. cbv zeta.
      destruct (negb (PyStr.truthy (strip line))); [reflexivity|].
      rewrite Em, E. reflexivity.
Qed.

(** C2. For every row of a non-empty input, the report of its company
    holds exactly 36 rows, one per canonical line item, in the order of
    [FIXED_ROWS], however many rows the company has. *)
Theorem C2_report_shape (rt : Runtime) (rows : list ClassifiedRow) (r : ClassifiedRow) :
  In r rows ->
  exists sheets out,
    write_workbook rt rows = Ok sheets
    /\ company_report rt (company_rows rows (company_key r)) = Ok out
    /\ In (safe_name (company_key r), out) sheets
    /\ map o_line_item out = FIXED_ROWS
    /\ List.length out = 36%nat.
Proof.
  intros Hin.
  destruct (workbook_report rt rows r Hin) as (sheets & out & Ew & _ & Eo & Hs & Hl & _).
  exists sheets, out. repeat split; auto.
  rewrite <- (length_map o_line_item), Hl. reflexivity.
Qed.

Lemma C2_report_shape_witness :
  In (example_row "Tax | Current" None) [example_row "Tax | Current" None]
  /\ exists sheets out,
       write_workbook plain_runtime [example_row "Tax | Current" None] = Ok sheets
       /\ company_report plain_runtime
            (company_rows [example_row "Tax | Current" None]
               (company_key (example_row "Tax | Current" None))) = Ok out
       /\ In (safe_name (company_key (example_row "Tax | Current" None)), out) sheets
       /\ map o_line_item out = FIXED_ROWS
       /\ List.length out = 36%nat.
Proof.
  split; [left; reflexivity|].
  apply (@C2_report_shape plain_runtime [example_row "Tax | Current" None]
           (example_row "Tax | Current" None)).
  left; reflexivity.
Defined.

(** C3. For the company of a row of the input, the total revenue is the
    sum of the amounts of the rows of that company whose line item starts
    with [Revenue], an absent amount counting as zero: the builtin [sum] of
    these amounts, which adds them from left to right where [sum] is the
    plain loop. The report of the company has one row for each canonical
    item, in order; each row shows the amount the company states for its
    item, and its percentage is that amount over the total revenue when the
    amount is present and the total is not zero, and blank otherwise. *)
Theorem C3_total_revenue_and_percent (rt : Runtime) (rows : list ClassifiedRow)
    (r : ClassifiedRow) :
  In r rows ->
  let items := company_rows rows (company_key r) in
  let amounts :=
    map (fun i => match amount i with
                  | Some a => if PyFloat.truthy a then a else PyFloat.zero
                  | None => PyFloat.zero
                  end)
        (filter (fun i => startswith (py "Revenue") (line_item i)) items) in
  let total := py_sum rt amounts in
  (float_sum rt = naive_sum -> total = fold_left PyFloat.add amounts PyFloat.zero)
  /\ exists sheets out,
       write_workbook rt rows = Ok sheets
       /\ company_report rt items = Ok out
       /\ In (safe_name (company_key r), out) sheets
       /\ map o_line_item out = FIXED_ROWS
       /\ Forall (fun o =>
            o_amount o = last_amount items (o_line_item o)
            /\ o_percent_of_revenue o =
               match o_amount o with
               | Some a =>
                   if PyFloat.truthy total
                   then Some (SFdiv PyFloat.prec PyFloat.emax a total)
                   else None
               | None => None
               end) out.
Proof.
  intros Hin items amounts total. split.
  - intros Hsum. unfold total, py_sum. rewrite Hsum.
    destruct amounts; reflexivity.
  - destruct (workbook_report rt rows r Hin)
      as (sheets & out & Ew & _ & Eo & Hs & Hl & Hrows).
    exists sheets, out. repeat split; auto.
Qed.

(** Revenue stated as 100, as nothing and as 300 makes a total of 400: the
    tax of 200 is shown as 0.5 of it, the product revenue as 0.25, and the
    revenue without an amount has a blank percentage. *)
Lemma C3_total_revenue_and_percent_witness :
  In (example_row "Tax | Current" (Some (whole 200))) revenue_rows
  /\ py_sum plain_runtime
       (map amount_or_zero (filter is_revenue revenue_rows)) = whole 400
  /\ exists sheets out,
       write_workbook plain_runtime revenue_rows = Ok sheets
       /\ company_report plain_runtime revenue_rows = Ok out
       /\ In (safe_name (py "acme"), out) sheets
       /\ map o_line_item out = FIXED_ROWS
       /\ (exists o p, nth_error out 33 = Some o
             /\ o_line_item o = py "Tax | Current"
             /\ o_amount o = Some (whole 200)
             /\ o_percent_of_revenue o = Some p /\ PyFloat.represents p (1 # 2))
       /\ (exists o, nth_error out 1 = Some o
             /\ o_line_item o = py "Revenue | Services"
             /\ o_amount o = None /\ o_percent_of_revenue o = None)
       /\ (exists o p, nth_error out 0 = Some o
             /\ o_line_item o = py "Revenue | Product"
             /\ o_amount o = Some (whole 100)
             /\ o_percent_of_revenue o = Some p /\ PyFloat.represents p (1 # 4)).
Proof.
  split; [right; right; right; left; reflexivity|].
  destruct (@C3_total_revenue_and_percent plain_runtime revenue_rows
              (example_row "Tax | Current" (Some (whole 200)))
              (or_intror (or_intror (or_intror (or_introl eq_refl)))))
    as (Hsum & sheets & out & Ew & Eo & Hs & Hl & _).
  split; [refine (eq_trans (Hsum eq_refl) _); vm_compute; reflexivity|].
  exists sheets, out. split; [exact Ew|]. split; [exact Eo|].
  split; [exact Hs|]. split; [exact Hl|].
  vm_compute in Eo. injection Eo as <-.
  split; [|split].
  - eexists; eexists. split; [reflexivity|]. split; [reflexivity|].
    split; [reflexivity|]. split; [reflexivity|]. vm_compute. reflexivity.
  - eexists. split; [reflexivity|]. repeat split.
  - eexists; eexists. split; [reflexivity|]. split; [reflexivity|].
    split; [reflexivity|]. split; [reflexivity|]. vm_compute. reflexivity.
Defined.

(** C4. The classifier returns the canonical item of the first rule of
    [LABEL_MAP], in its order, whose pattern matches the lower-cased label,
    and returns unclassified when no rule matches; of several rules that
    match, the earliest decides. *)
Theorem C4_first_matching_rule (rt : Runtime) (label : pystr) :
  let hit (rule : Re.regex * pystr) :=
    Re.found (Re.search (isword rt) (fst rule) (lower rt label)) in
  (forall pre pattern fixed post,
     LABEL_MAP = pre ++ (pattern, fixed) :: post ->
     Forall (fun rule => hit rule = false) pre ->
     hit (pattern, fixed) = true ->
     normalize_label rt label = Some fixed)
  /\ (Forall (fun rule => hit rule = false) LABEL_MAP ->
      normalize_label rt label = None).
Proof.
  cbv zeta.
  assert (Hloop : forall rules,
    (forall pre pattern fixed post,
       rules = pre ++ (pattern, fixed) :: post ->
       Forall (fun rule =>
         Re.found (Re.search (isword rt) (fst rule) (lower rt label)) = false) pre ->
       Re.found (Re.search (isword rt) pattern (lower rt label)) = true ->
       first_rule rt rules (lower rt label) = Some fixed)
    /\ (Forall (fun rule =>
         Re.found (Re.search (isword rt) (fst rule) (lower rt label)) = false) rules ->
        first_rule rt rules (lower rt label) = None)).
  { induction rules as [|[p f] rest [IH1 IH2]]; split.
    - intros [|? ?] ? ? ? E; discriminate.
    - reflexivity.
    - intros pre pattern fixed post E Hpre Hp. destruct pre as [|rule pre]; simpl in E.
      + inversion E; subst. simpl. rewrite Hp. reflexivity.
      + inversion E; subst. inversion Hpre as [|? ? Hrule Hpre']; subst.
        simpl in *. rewrite Hrule. eapply IH1; eauto.
    - intros Hall. inversion Hall as [|? ? Hrule Hrest]; subst.
      simpl in *. rewrite Hrule. apply IH2. exact Hrest. }
  destruct (Hloop LABEL_MAP) as [H1 H2].
  destruct label as [|c label].
  - (* the empty label: no rule matches it *)
    assert (Hlow : lower rt [] = []) by reflexivity.
    pose proof (no_rule_matches_empty rt) as Hnone.
    rewrite forallb_forall in Hnone. split.
    + intros pre pattern fixed post E _ Hp. simpl in Hp. rewrite Hlow in Hp.
      assert (Hin : In (pattern, fixed) LABEL_MAP)
        by (rewrite E; apply in_or_app; right; left; reflexivity).
      apply Hnone in Hin. simpl in Hin. rewrite Hp in Hin. discriminate.
    + reflexivity.
  - unfold normalize_label. simpl negb. cbv iota. split.
    + intros pre pattern fixed post E Hpre Hp. eapply H1; eauto.
    + exact H2.
Qed.

(** Two rules match, the earlier one wins, wherever its word stands. *)
Lemma normalize_label_precedence (rt : Runtime) :
  normalize_label rt (py "Cost of sales - Marketing")
  = Some (py "OpEx | Sales & Marketing | Media/Ads")
  /\ normalize_label rt (py "Cost of Sales")
     = Some (py "COGS | Other COGS").
Proof. split; vm_compute; reflexivity. Qed.

(** C5 (as the code has it). For every table and every role, the tabular
    extractor takes the keys of the role in their order and selects, for
    the first key that some lower-cased trimmed column name holds, the first
    column whose name holds that key; the role is absent when no column
    name holds any key. *)
Theorem C5_column_by_key_order (rt : Runtime) (df : DataFrame) (keys : list pystr) :
  let cols := lowered_columns rt df in
  match col_like cols keys with
  | Some i =>
      exists pre k post c, keys = pre ++ k :: post
        /\ (forall k' c', In k' pre -> In c' cols -> contains k' c' = false)
        /\ nth_error cols i = Some c /\ contains k c = true
        /\ (forall j c', (j < i)%nat -> nth_error cols j = Some c' ->
              contains k c' = false)
  | None => forall k c, In k keys -> In c cols -> contains k c = false
  end.
Proof. cbv zeta. apply col_like_spec. Qed.

(** The column of the label is the second one, the first column whose name
    holds a key is the first one. *)
Lemma C5_counterexample :
  col_like (lowered_columns plain_runtime two_label_columns) label_keys = Some 1%nat
  /\ first_with_any label_keys (lowered_columns plain_runtime two_label_columns) 0
     = Some 0%nat.
Proof. split; vm_compute; reflexivity. Qed.

(** C6. The number parser reads [(1,234.50)] as -1234.5, [1 234] written
    with a non-breaking space as 1234, and gives the not-a-number result
    for [abc], for [None] and for the empty string. *)
Theorem C6_number_examples (rt : Runtime) :
  (exists f, try_number rt (PyStr (py "(1,234.50)")) = Ok (Some f)
     /\ PyFloat.represents f (-(12345 # 10)))
  /\ (exists f, try_number rt (PyStr (py "1" ++ [160] ++ py "234")) = Ok (Some f)
        /\ PyFloat.represents f (1234 # 1))
  /\ try_number rt (PyStr (py "abc")) = Ok None
  /\ try_number rt PyNone = Ok None
  /\ try_number rt (PyStr []) = Ok None.
Proof.
  split; [|split; [|repeat split]]; try (vm_compute; reflexivity).
  - eexists. split; [vm_compute; reflexivity|]. vm_compute. reflexivity.
  - eexists. split; [vm_compute; reflexivity|]. vm_compute. reflexivity.
Qed.

(** C7 (as the code has it). The number parser is total: for every input
    it returns a binary64 number or the not-a-number result, and it never
    raises. A number it returns is never a NaN; it is finite exactly when
    the number the cleaned string denotes is below [2^1024 - 2^970] in
    magnitude, and is an infinity otherwise. Every input whose cleaned
    string, a final line feed left aside, fails the shape check yields the
    not-a-number result, and every other input yields a number. *)
Theorem C7_number_parser_total (rt : Runtime) (x : pyval) :
  exists r, try_number rt x = Ok r
    /\ match r with
       | Some f =>
           PyFloat.isnan f = false
           /\ PyFloat.isfinite f = below_overflow rt (drop_final_newline (cleaned x))
       | None => True
       end
    /\ (number_shape rt (drop_final_newline (cleaned x)) = false -> r = None)
    /\ (number_shape rt (drop_final_newline (cleaned x)) = true -> exists f, r = Some f).
Proof. apply try_number_finite. Qed.

(** Four hundred nines are read as the infinity, which is not finite. *)
Lemma C7_counterexample :
  try_number plain_runtime (PyStr (repeat 57 400)) = Ok (Some (S754_infinity false))
  /\ PyFloat.isfinite (S754_infinity false) = false.
Proof. split; vm_compute; reflexivity. Qed.

(** The largest binary64 number, written out, is read as a finite number;
    a number above the threshold is read as the infinity, and so is its
    opposite. *)
Lemma try_number_range :
  (exists f, try_number plain_runtime (PyStr (py "17976931348623157" ++ repeat 48 292%nat))
             = Ok (Some f) /\ PyFloat.isfinite f = true)
  /\ below_overflow plain_runtime (py "17976931348623157" ++ repeat 48 292%nat) = true
  /\ try_number plain_runtime (PyStr (py "17976931348623159" ++ repeat 48 292%nat))
     = Ok (Some (S754_infinity false))
  /\ below_overflow plain_runtime (py "17976931348623159" ++ repeat 48 292%nat) = false
  /\ try_number plain_runtime (PyStr (py "(17976931348623159" ++ repeat 48 292%nat ++ py ")"))
     = Ok (Some (S754_infinity true))
  /\ (exists f, try_number plain_runtime (PyStr (py "5")) = Ok (Some f)
        /\ PyFloat.isfinite f = true)
  /\ below_overflow plain_runtime (py "5") = true.
Proof.
  split; [eexists; split; vm_compute; reflexivity|].
  split; [vm_compute; reflexivity|]. split; [vm_compute; reflexivity|].
  split; [vm_compute; reflexivity|]. split; [vm_compute; reflexivity|].
  split; [eexists; split; vm_compute; reflexivity|]. vm_compute. reflexivity.
Qed.

(** A line feed kept by the parentheses passes [$]: the cleaned string has
    not the shape and is read as a number all the same. *)
Lemma try_number_final_newline :
  number_shape plain_runtime
    (cleaned (PyStr (py "(123" ++ [10] ++ py ")"))) = false
  /\ exists f, try_number plain_runtime (PyStr (py "(123" ++ [10] ++ py ")"))
               = Ok (Some f) /\ PyFloat.represents f (-(123 # 1)).
Proof.
  split; [vm_compute; reflexivity|]. eexists.
  split; [vm_compute; reflexivity|]. vm_compute. reflexivity.
Qed.

(** C8 (as the code has it). One guess of the reporting currency is made
    from the whole text and every row emitted from the document carries it.
    The guess is USD exactly when the text holds a dollar sign, or [usd] in
    any case right after a word boundary, or [dollar] or [dollars] in any
    case right before a word boundary. Otherwise it is EUR when the text
    holds [eur] in any case right after a word boundary; otherwise, the
    text holding neither [eur] nor the euro sign, it is GBP when the text
    holds [gbp] in any case right after a word boundary; and it is empty
    when the text holds none of these words and signs at all. *)
Theorem C8_currency_guess (rt : Runtime) (pages : list (option pystr))
    (fname : pystr) (bc : option pystr) :
  let text := pdf_text pages in
  (exists rows, extract_from_pdf rt pages fname bc = Ok rows
     /\ Forall (fun row => reporting_currency row = guess_currency rt text) rows)
  /\ (guess_currency rt text = py "USD" <-> usd_indicator rt text)
  /\ (~ usd_indicator rt text -> starts_word_ci rt (py "EUR") text ->
      guess_currency rt text = py "EUR")
  /\ (~ usd_indicator rt text ->
      ~ occurs_ci (py "EUR") text -> ~ In 8364 text ->
      starts_word_ci rt (py "GBP") text ->
      guess_currency rt text = py "GBP")
  /\ (~ usd_indicator rt text ->
      ~ occurs_ci (py "EUR") text -> ~ In 8364 text ->
      ~ occurs_ci (py "GBP") text -> ~ In 163 text ->
      guess_currency rt text = []).
Proof.
  cbv zeta. split; [|split; [|split; [|split]]].
  - destruct (extract_from_pdf_ok rt pages fname bc) as (rows & E & Hrows).
    exists rows. split; [exact E|].
    eapply Forall_impl; [|exact Hrows]. intros row [_ H]. exact H.
  - apply guess_usd.
  - apply guess_eur.
  - apply guess_gbp.
  - apply guess_none.
Qed.

(** [dollar] without its s makes the guess USD, where the words of the
    specification look at [EUR] next. *)
Lemma C8_counterexample :
  guess_currency plain_runtime (py "5 dollar, 3 EUR") = py "USD"
  /\ claimed_guess (py "5 dollar, 3 EUR") = py "EUR".
Proof. split; vm_compute; reflexivity. Qed.

(** The euro sign counts only right before a word character: after an
    amount it is not seen, while the dollar sign is seen anywhere. *)
Lemma guess_currency_trailing_sign :
  guess_currency plain_runtime (py "100 " ++ [8364]) = []
  /\ guess_currency plain_runtime ([8364] ++ py "100") = py "EUR"
  /\ guess_currency plain_runtime (py "100 $") = py "USD".
Proof. repeat split; vm_compute; reflexivity. Qed.

(** C9. When the amount does not parse, the tabular extractor still emits
    the row, its amount blank, and the text extractor emits no row for the
    line; neither extractor fails. The rows a file gives are exactly the
    rows the loop bodies give, in order: for a sheet one row for each row
    whose label is classified, whatever its amount; for a text one row for
    each line whose label is classified and whose amount is a number. *)
Theorem C9_unparsable_amount (rt : Runtime) (fname : pystr) (bc : option pystr) :
  (forall df cl ca cy cc r fixed,
     normalize_label rt (row_label r cl) = Some fixed ->
     try_number rt (series_get r ca PyNone) = Ok None ->
     exists row, excel_row rt fname bc df cl ca cy cc r = Ok (Some row)
       /\ line_item row = fixed /\ amount row = None)
  /\ (forall rep line m fixed,
        Re.search (isword rt) (line_re rt) (strip line) = Some m ->
        normalize_label rt (Re.group 1 m) = Some fixed ->
        try_number rt (PyStr (Re.group 2 m)) = Ok None ->
        pdf_line rt fname bc rep line = Ok None)
  /\ (forall sheets,
        extract_from_excel rt sheets fname bc
        = Ok (flat_map (fun df => emitted (sheet_row rt fname bc df) (data df)) sheets))
  /\ (forall sheets df r fixed,
        In df sheets -> In r (data df) ->
        normalize_label rt
          (row_label r (col_like (lowered_columns rt df) label_keys)) = Some fixed ->
        try_number rt
          (series_get r (col_like (lowered_columns rt df) amount_keys) PyNone)
        = Ok None ->
        exists rows row,
          extract_from_excel rt sheets fname bc = Ok rows
          /\ sheet_row rt fname bc df r = Ok (Some row)
          /\ In row rows /\ line_item row = fixed /\ amount row = None)
  /\ (forall pages,
        let body := pdf_line rt fname bc (guess_currency rt (pdf_text pages)) in
        extract_from_pdf rt pages fname bc
        = Ok (emitted body (splitlines (pdf_text pages)))
        /\ Forall (fun row => amount row <> None)
             (emitted body (splitlines (pdf_text pages)))).
Proof.
  assert (Hrow : forall df cl ca cy cc r fixed,
     normalize_label rt (row_label r cl) = Some fixed ->
     try_number rt (series_get r ca PyNone) = Ok None ->
     exists row, excel_row rt fname bc df cl ca cy cc r = Ok (Some row)
       /\ line_item row = fixed /\ amount row = None).
  { intros df cl ca cy cc r fixed E Ea. unfold excel_row. cbv zeta. rewrite E.
    destruct (normalize_label_canonical _ _ E) as [_ Ht]. rewrite Ht. cbn [negb].
    rewrite Ea. cbn [bind]. eexists. split; [reflexivity|]. split; reflexivity. }
  split; [exact Hrow|]. split; [|split; [|split]].
  - intros rep line m fixed Em E Ea. unfold pdf_line. cbv zeta.
    destruct (negb (PyStr.truthy (strip line))); [reflexivity|].
    rewrite Em, E. destruct (normalize_label_canonical _ _ E) as [_ Ht].
    rewrite Ht. cbn [negb]. rewrite Ea. reflexivity.
  - intros sheets. apply extract_from_excel_emitted.
  - intros sheets df r fixed Hdf Hr E Ea.
    destruct (Hrow df _ (col_like (lowered_columns rt df) amount_keys)
                (col_like (lowered_columns rt df) year_keys)
                (col_like (lowered_columns rt df) currency_keys) r fixed E Ea)
      as (row & Erow & Hline & Hamt).
    eexists. exists row. split; [apply extract_from_excel_emitted|].
    split; [exact Erow|]. split; [|split; assumption].
    apply in_flat_map. exists df. split; [exact Hdf|].
    apply emitted_In. exists r. split; [exact Hr|exact Erow].
  - intros pages body. split; [apply extract_from_pdf_emitted|].
    apply Forall_forall. intros row Hin. apply emitted_In in Hin.
    destruct Hin as (line & _ & E). exact (pdf_line_amount _ _ _ _ _ E).
Qed.

(** The same label and the same amount that does not parse, in a sheet and
    in a text: one row with a blank amount, and no row. *)
Lemma unparsable_amount_example (rt : Runtime) :
  (exists row, extract_from_excel rt [two_label_columns] (py "acme") None = Ok [row]
     /\ line_item row = py "Revenue | Product" /\ amount row = None)
  /\ extract_from_pdf rt [Some (py "Revenue 1.2.3")] (py "acme") None = Ok [].
Proof.
  split; [eexists; split; [vm_compute; reflexivity|split; reflexivity]|].
  vm_compute. reflexivity.
Qed.

(** C10. When several rows of a company have one line item, the report
    shows the amount of the last of them, while the total revenue, which
    the percentages are taken over, sums the amounts of all the revenue
    rows of the company, the repeated ones too. The report has one row for
    each canonical item, in order; the row of an item shows the amount of
    the row of the company that no later row of the company repeats. *)
Theorem C10_last_write_wins (rt : Runtime) (rows : list ClassifiedRow)
    (r : ClassifiedRow) :
  In r rows ->
  let items := company_rows rows (company_key r) in
  let total := py_sum rt (map amount_or_zero (filter is_revenue items)) in
  exists sheets out,
    write_workbook rt rows = Ok sheets
    /\ company_report rt items = Ok out
    /\ In (safe_name (company_key r), out) sheets
    /\ map o_line_item out = FIXED_ROWS
    /\ Forall (fun o =>
         o_amount o = last_amount items (o_line_item o)
         /\ o_percent_of_revenue o = percent_of total (o_amount o)) out
    /\ (forall pre i post,
          items = pre ++ i :: post ->
          Forall (fun j => line_item j <> line_item i) post ->
          In (line_item i) FIXED_ROWS ->
          exists o, In o out /\ o_line_item o = line_item i
            /\ o_amount o = amount i
            /\ o_percent_of_revenue o = percent_of total (amount i)).
Proof.
  intros Hin items total.
  destruct (workbook_report rt rows r Hin)
    as (sheets & out & Ew & _ & Eo & Hs & Hl & Hrows).
  exists sheets, out. repeat split; auto.
  intros pre i post Hitems Hpost Hfixed.
  rewrite <- Hl in Hfixed. apply in_map_iff in Hfixed.
  destruct Hfixed as (o & Hline & Ho).
  rewrite Forall_forall in Hrows. destruct (Hrows o Ho) as [Ha Hp].
  assert (E : o_amount o = amount i).
  { rewrite Ha, Hline. fold items. rewrite Hitems. apply last_amount_last.
    exact Hpost. }
  exists o. repeat split; auto.
  rewrite <- E. exact Hp.
Qed.

(** Product revenue stated as 100 and then as 300: the report shows 300,
    and 0.75 of a total revenue of 400. *)
Lemma C10_last_write_wins_witness :
  In (example_row "Tax | Current" (Some (whole 40))) duplicate_rows
  /\ exists sheets out,
       write_workbook plain_runtime duplicate_rows = Ok sheets
       /\ company_report plain_runtime duplicate_rows = Ok out
       /\ In (safe_name (py "acme"), out) sheets
       /\ map o_line_item out = FIXED_ROWS
       /\ py_sum plain_runtime (map amount_or_zero (filter is_revenue duplicate_rows))
          = whole 400
       /\ exists o p, In o out /\ o_line_item o = py "Revenue | Product"
            /\ o_amount o = Some (whole 300)
            /\ o_percent_of_revenue o = Some p /\ PyFloat.represents p (3 # 4).
Proof.
  split; [right; left; reflexivity|].
  destruct (@C10_last_write_wins plain_runtime duplicate_rows
              (example_row "Tax | Current" (Some (whole 40)))
              (or_intror (or_introl eq_refl)))
    as (sheets & out & Ew & Eo & Hs & Hl & _ & Hlast).
  exists sheets, out. split; [exact Ew|]. split; [exact Eo|].
  split; [exact Hs|]. split; [exact Hl|]. split; [vm_compute; reflexivity|].
  destruct (Hlast [example_row "Revenue | Product" (Some (whole 100));
                   example_row "Tax | Current" (Some (whole 40))]
              (example_row "Revenue | Product" (Some (whole 300))) []
              eq_refl (Forall_nil _) (or_introl eq_refl))
    as (o & Ho & Hline & Ha & Hp).
  exists o. eexists. split; [exact Ho|]. split; [exact Hline|].
  split; [exact Ha|]. split; [rewrite Hp; vm_compute; reflexivity|].
  vm_compute. reflexivity.
Defined.

(** * Further properties of the program *)

(** * More on the number parser *)

Section SeparatorFacts.
Variable rt : Runtime.

Lemma remove_app c a b : remove c (a ++ b) = remove c a ++ remove c b.
Proof. apply filter_app. Qed.

Lemma existsb_remove (f : N -> bool) c s :
  existsb f s = false -> existsb f (remove c s) = false.
Proof.
  induction s as [|x s IH]; simpl; [reflexivity|].
  intros H. apply orb_false_iff in H. destruct H as [Hx Hs].
  destruct (negb (x =? c)); simpl; [rewrite Hx|]; auto.
Qed.

Lemma strip_between x s y :
  isspace x = false -> isspace y = false ->
  strip (x :: s ++ [y]) = x :: s ++ [y].
Proof.
  intros Hx Hy. unfold strip. rewrite lstrip_head by exact Hx.
  change (x :: s ++ [y]) with ((x :: s) ++ [y]). apply rstrip_last. exact Hy.
Qed.

(** What [unspaced] does to a string with no blank at either end. *)
Lemma unspaced_between x s y :
  isspace x = false -> isspace y = false ->
  unspaced (PyStr (x :: s ++ [y]))
  = remove 160 (remove 44 (remove 32 (x :: s ++ [y]))).
Proof.
  intros Hx Hy. unfold unspaced. simpl py_str.
  rewrite strip_between by assumption. reflexivity.
Qed.

Lemma remove_separator c u v :
  c = 32 \/ c = 44 \/ c = 160 ->
  remove 160 (remove 44 (remove 32 (u ++ c :: v)))
  = remove 160 (remove 44 (remove 32 (u ++ v))).
Proof.
  intros Hc. rewrite !remove_app. f_equal.
  destruct Hc as [->|[->| ->]]; reflexivity.
Qed.

Lemma no_parenthesis_start s :
  existsb (fun c => (c =? 40) || (c =? 41)) s = false ->
  startswith [40] s = false.
Proof.
  destruct s as [|c s]; cbn [startswith existsb]; [reflexivity|].
  intros H. apply orb_false_iff in H. destruct H as [H _].
  apply orb_false_iff in H. destruct H as [H _].
  rewrite N.eqb_sym, H. reflexivity.
Qed.

Lemma no_parenthesis_remove s :
  existsb (fun c => (c =? 40) || (c =? 41)) s = false ->
  remove 41 (remove 40 s) = s.
Proof.
  induction s as [|c s IH]; simpl; [reflexivity|].
  intros H. apply orb_false_iff in H. destruct H as [H Hs].
  apply orb_false_iff in H. destruct H as [H40 H41].
  rewrite H40. simpl. rewrite H41. simpl. rewrite IH by exact Hs. reflexivity.
Qed.

Lemma endswith_last p s c : endswith [c] (p :: s ++ [c]) = true.
Proof.
  unfold endswith. change (p :: s ++ [c]) with ((p :: s) ++ [c]).
  rewrite rev_app_distr. simpl. rewrite N.eqb_refl. reflexivity.
Qed.

(** A string that holds a non-blank character: blanks, the first of its
    non-blank characters, and the rest. *)
Lemma first_nonblank s :
  existsb (fun x => negb (isspace x)) s = true ->
  exists ws x t, s = ws ++ x :: t /\ forallb isspace ws = true /\ isspace x = false.
Proof.
  induction s as [|c s IH]; simpl; [discriminate|].
  destruct (isspace c) eqn:Ec; simpl.
  - intros H. destruct (IH H) as (ws & x & t & -> & Hws & Hx).
    exists (c :: ws), x, t. simpl. rewrite Ec, Hws. auto.
  - intros _. exists [], c, s. auto.
Qed.

Lemma last_nonblank s :
  existsb (fun x => negb (isspace x)) s = true ->
  exists t y ws, s = t ++ y :: ws /\ forallb isspace ws = true /\ isspace y = false.
Proof.
  intros H.
  assert (Hrev : existsb (fun x => negb (isspace x)) (rev s) = true).
  { apply existsb_exists in H. destruct H as (x & Hin & Hx).
    apply existsb_exists. exists x. split; [|exact Hx].
    rewrite <- in_rev. exact Hin. }
  destruct (first_nonblank _ Hrev) as (ws & y & t & E & Hws & Hy).
  exists (rev t), y, (rev ws). split; [|split; [|exact Hy]].
  - rewrite <- (rev_involutive s), E, rev_app_distr. simpl.
    rewrite <- app_assoc. reflexivity.
  - rewrite forallb_forall in *. intros x Hx. apply Hws.
    rewrite in_rev. exact Hx.
Qed.

Lemma lstrip_blanks ws s : forallb isspace ws = true -> lstrip (ws ++ s) = lstrip s.
Proof.
  induction ws as [|c ws IH]; simpl; [reflexivity|].
  intros H. apply andb_true_iff in H. destruct H as [Hc Hws].
  rewrite Hc. auto.
Qed.

Lemma rstrip_blanks s ws : forallb isspace ws = true -> rstrip (s ++ ws) = rstrip s.
Proof.
  intros H. unfold rstrip. rewrite rev_app_distr, lstrip_blanks; [reflexivity|].
  rewrite forallb_forall in *. intros x Hx. apply H. rewrite in_rev. exact Hx.
Qed.

(** [strip] removes the blanks around a string with no blank at either end. *)
Lemma strip_around ws x s y ws' :
  forallb isspace ws = true -> forallb isspace ws' = true ->
  isspace x = false -> isspace y = false ->
  strip (ws ++ (x :: s ++ [y]) ++ ws') = x :: s ++ [y].
Proof.
  intros Hws Hws' Hx Hy. unfold strip. rewrite lstrip_blanks by exact Hws.
  cbn [app]. rewrite lstrip_head by exact Hx.
  change (x :: (s ++ [y]) ++ ws') with ((x :: s ++ [y]) ++ ws').
  rewrite rstrip_blanks by exact Hws'.
  change (x :: s ++ [y]) with ((x :: s) ++ [y]). apply rstrip_last. exact Hy.
Qed.
End SeparatorFacts.

(** X1. A cell written between parentheses is read as the opposite of what
    is between them: when the text between the parentheses has no blank
    at either end and no parenthesis of its own, the parser gives for
    [(s)] the negation of what it gives for [s], and no number when [s]
    gives none. *)
Theorem X1_parentheses_negate (rt : Runtime) (s : pystr) :
  strip s = s ->
  existsb (fun c => (c =? 40) || (c =? 41)) s = false ->
  try_number rt (PyStr (40 :: s ++ [41]))
  = match try_number rt (PyStr s) with
    | Ok (Some v) => Ok (Some (PyFloat.neg v))
    | r => r
    end.
Proof.
  intros Hstrip Hpar.
  set (u := remove 160 (remove 44 (remove 32 s))).
  assert (Hu : existsb (fun c => (c =? 40) || (c =? 41)) u = false)
    by (unfold u; auto using existsb_remove).
  assert (E1 : unspaced (PyStr (40 :: s ++ [41])) = 40 :: u ++ [41]).
  { rewrite unspaced_between by reflexivity.
    change (40 :: s ++ [41]) with ([40] ++ s ++ [41]).
    rewrite !remove_app. reflexivity. }
  assert (E2 : unspaced (PyStr s) = u)
    by (unfold unspaced; simpl py_str; rewrite Hstrip; reflexivity).
  unfold try_number. rewrite E1, E2.
  change (PyStr.lit ")") with [41]. change (PyStr.lit "(") with [40].
  rewrite endswith_last. rewrite (no_parenthesis_start _ Hu).
  change (40 :: u ++ [41]) with ([40] ++ u ++ [41]).
  rewrite !remove_app. rewrite (no_parenthesis_remove _ Hu).
  simpl. rewrite app_nil_r.
  destruct (Re.found (Re.rmatch (isword rt) (number_re rt) u)); simpl;
    [|reflexivity].
  destruct (py_float rt u); reflexivity.
Qed.

Lemma X1_parentheses_negate_witness :
  strip (py "12.5") = py "12.5"
  /\ existsb (fun c => (c =? 40) || (c =? 41)) (py "12.5") = false
  /\ try_number plain_runtime (PyStr (py "(12.5)"))
     = Ok (Some (PyFloat.neg (PyFloat.of_decimal false 125 1))).
Proof.
  split; [reflexivity|]. split; [reflexivity|].
  change (PyStr.lit "(12.5)") with (40 :: PyStr.lit "12.5" ++ [41]).
  rewrite (@X1_parentheses_negate plain_runtime (py "12.5")
             eq_refl eq_refl).
  vm_compute. reflexivity.
Defined.

(** A minus sign between the parentheses is negated too. *)
Lemma parenthesised_minus (rt : Runtime) :
  try_number rt (PyStr (py "(-5)")) = Ok (Some (whole 5))
  /\ try_number rt (PyStr (py "-5")) = Ok (Some (PyFloat.neg (whole 5))).
Proof. split; vm_compute; reflexivity. Qed.

(** X2. A space, a comma or a no-break space of a cell that has a
    non-blank character somewhere before it and somewhere after it is
    ignored: the parser gives the same result with it and without it, so
    that [1,5] is read as 15. *)
Theorem X2_separators_ignored (rt : Runtime) (a : pystr) (c : N) (b : pystr) :
  existsb (fun x => negb (isspace x)) a = true ->
  existsb (fun x => negb (isspace x)) b = true ->
  c = 32 \/ c = 44 \/ c = 160 ->
  try_number rt (PyStr (a ++ c :: b)) = try_number rt (PyStr (a ++ b)).
Proof.
  intros Ha Hb Hc.
  destruct (first_nonblank _ Ha) as (ws & x & u & -> & Hws & Hx).
  destruct (last_nonblank _ Hb) as (v & y & ws' & -> & Hws' & Hy).
  assert (E : unspaced (PyStr ((ws ++ x :: u) ++ c :: v ++ y :: ws'))
              = unspaced (PyStr ((ws ++ x :: u) ++ v ++ y :: ws'))).
  { unfold unspaced. cbn [py_str].
    replace ((ws ++ x :: u) ++ c :: v ++ y :: ws')
      with (ws ++ (x :: (u ++ c :: v) ++ [y]) ++ ws')
      by (repeat (rewrite <- app_assoc || (progress cbn [app])); reflexivity).
    replace ((ws ++ x :: u) ++ v ++ y :: ws')
      with (ws ++ (x :: (u ++ v) ++ [y]) ++ ws')
      by (repeat (rewrite <- app_assoc || (progress cbn [app])); reflexivity).
    rewrite !strip_around by assumption.
    change (x :: (u ++ c :: v) ++ [y]) with ((x :: u ++ c :: v) ++ [y]).
    change (x :: (u ++ v) ++ [y]) with ((x :: u ++ v) ++ [y]).
    rewrite (remove_app 32 (x :: u ++ c :: v)), (remove_app 32 (x :: u ++ v)).
    rewrite (remove_app 44), (remove_app 44 (remove 32 (x :: u ++ v))).
    rewrite (remove_app 160),
      (remove_app 160 (remove 44 (remove 32 (x :: u ++ v)))).
    f_equal. apply (remove_separator (x :: u) v Hc). }
  unfold try_number. rewrite E. reflexivity.
Qed.

Lemma X2_separators_ignored_witness :
  existsb (fun x => negb (isspace x)) (py " 1") = true
  /\ existsb (fun x => negb (isspace x)) (py "5 ") = true
  /\ try_number plain_runtime (PyStr (py " 1,5 "))
     = try_number plain_runtime (PyStr (py " 15 "))
  /\ try_number plain_runtime (PyStr (py " 15 "))
     = Ok (Some (PyFloat.of_decimal false 15 0)).
Proof.
  split; [reflexivity|]. split; [reflexivity|]. split.
  - apply (@X2_separators_ignored plain_runtime (py " 1") 44 (py "5 "));
      [reflexivity|reflexivity|right; left; reflexivity].
  - vm_compute. reflexivity.
Defined.

(** A comma with nothing but blanks before it is not ignored: the blank it
    shields from [strip] stays. *)
Lemma separator_after_blanks :
  try_number plain_runtime (PyStr ([9] ++ py "," ++ [9] ++ py "5")) = Ok None
  /\ try_number plain_runtime (PyStr ([9] ++ [9] ++ py "5"))
     = Ok (Some (PyFloat.of_decimal false 5 0)).
Proof. split; vm_compute; reflexivity. Qed.

(** * The sheets of the workbook *)

Section SheetNameFacts.

Lemma forallb_firstn (A : Type) (f : A -> bool) n l :
  forallb f l = true -> forallb f (firstn n l) = true.
Proof.
  revert l. induction n as [|n IH]; intros [|x l]; simpl; auto.
  intros H. apply andb_true_iff in H. destruct H as [Hx Hl].
  rewrite Hx. simpl. auto.
Qed.

Lemma safe_name_valid company : valid_sheet_name (safe_name company).
Proof.
  unfold safe_name. cbv zeta.
  set (sub := fun c : N =>
    if existsb (N.eqb c) [92; 47; 63; 42; 91; 93; 58] then 95 else c).
  destruct (firstn 31 (map sub company)) as [|c s] eqn:E.
  - simpl. repeat split; [discriminate|simpl; lia].
  - simpl PyStr.truthy. cbv iota. rewrite <- E. repeat split.
    + rewrite E. discriminate.
    + rewrite length_firstn. apply Nat.le_min_l.
    + apply forallb_firstn. rewrite forallb_forall. intros x Hx.
      apply in_map_iff in Hx. destruct Hx as (c0 & <- & _).
      unfold sub, forbidden.
      destruct (existsb (N.eqb c0) [92; 47; 63; 42; 91; 93; 58]) eqn:Ec.
      * reflexivity.
      * rewrite Ec. reflexivity.
Qed.

Lemma safe_name_fixes n : valid_sheet_name n -> safe_name n = n.
Proof.
  intros (Hne & Hlen & Hall). unfold safe_name. cbv zeta.
  assert (Hmap : map (fun c : N =>
      if existsb (N.eqb c) [92; 47; 63; 42; 91; 93; 58] then 95 else c) n = n).
  { clear Hne Hlen. induction n as [|c n IH]; cbn [map]; [reflexivity|].
    cbn [forallb] in Hall. apply andb_true_iff in Hall. destruct Hall as [Hc Hn].
    unfold forbidden in Hc. apply negb_true_iff in Hc. rewrite Hc.
    rewrite IH by exact Hn. reflexivity. }
  rewrite Hmap. rewrite firstn_all2 by exact Hlen.
  destruct n; [contradiction|reflexivity].
Qed.

Lemma safe_name_prefix a b :
  firstn 31 a = firstn 31 b -> safe_name a = safe_name b.
Proof.
  intros E. unfold safe_name. cbv zeta. rewrite !firstn_map, E. reflexivity.
Qed.
End SheetNameFacts.

Section SheetOrderFacts.
Variable rt : Runtime.

Lemma keys_set (V : Type) (d : PyDict.t V) k v :
  map fst (PyDict.set d k v)
  = if existsb (PyStr.eqb k) (map fst d) then map fst d else map fst d ++ [k].
Proof.
  induction d as [|[k0 v0] d IH]; simpl; [reflexivity|].
  destruct (PyStr.eqb k k0); simpl; [reflexivity|].
  rewrite IH. destruct (existsb (PyStr.eqb k) (map fst d)); reflexivity.
Qed.

Lemma keys_fold rows d :
  map fst (fold_left setdefault_append rows d)
  = map fst d ++ first_seen (map fst d) (map company_key rows).
Proof.
  revert d. induction rows as [|r rows IH]; intros d; simpl.
  - rewrite app_nil_r. reflexivity.
  - rewrite IH. unfold setdefault_append. rewrite keys_set.
    destruct (existsb (PyStr.eqb (company_key r)) (map fst d)); [reflexivity|].
    rewrite <- app_assoc. reflexivity.
Qed.

(** The sheets of the companies: one per entry, in their order. *)
Lemma company_sheets_each by_co :
  Forall (fun kv => snd kv <> []) by_co ->
  exists sheets, company_sheets rt by_co = Ok sheets
    /\ Forall2 (fun (kv : pystr * list ClassifiedRow) (sheet : Sheet) =>
         fst sheet = safe_name (fst kv)
         /\ company_report rt (snd kv) = Ok (snd sheet)) by_co sheets.
Proof.
  induction 1 as [|[company items] rest Hne _ IH]; simpl.
  - exists []. split; [reflexivity|constructor].
  - simpl in Hne. destruct (company_report_ok rt Hne) as (out & E & _).
    rewrite E. simpl. destruct IH as (sheets & -> & Hsheets). simpl.
    eexists. split; [reflexivity|]. constructor; [|exact Hsheets].
    simpl. auto.
Qed.

Lemma sheet_names (by_co : PyDict.t (list ClassifiedRow)) (sheets : list Sheet) :
  Forall2 (fun kv sheet => fst sheet = safe_name (fst kv)
                           /\ company_report rt (snd kv) = Ok (snd sheet))
          by_co sheets ->
  map fst sheets = map safe_name (map fst by_co).
Proof.
  induction 1 as [|kv sheet by_co sheets [E _] _ IH]; simpl; [reflexivity|].
  rewrite E, IH. reflexivity.
Qed.

(** The sheets handed to the writer, for any rows. *)
Lemma workbook_sheets rows :
  exists sheets, write_workbook rt rows = Ok sheets
    /\ match rows with
       | [] => sheets = [(py "Company_Template", map template_row FIXED_ROWS)]
       | _ :: _ =>
           Forall2 (fun (kv : pystr * list ClassifiedRow) (sheet : Sheet) =>
             fst sheet = safe_name (fst kv)
             /\ company_report rt (snd kv) = Ok (snd sheet))
             (group_by_company rows) sheets
       end.
Proof.
  destruct rows as [|r rows]; [eexists; split; reflexivity|].
  assert (Hne : Forall (fun kv : pystr * list ClassifiedRow => snd kv <> [])
                  (group_by_company (r :: rows)))
    by (apply fold_nonempty; constructor).
  destruct (company_sheets_each Hne) as (sheets & E & Hsheets).
  exists sheets. split; [|exact Hsheets].
  unfold write_workbook. cbv zeta.
  pose proof (keys_fold (r :: rows) []) as Hk.
  fold (group_by_company (r :: rows)) in Hk.
  destruct (group_by_company (r :: rows)) as [|kv by_co]; [discriminate|].
  exact E.
Qed.

(** The names of the sheets, in their order. *)
Lemma workbook_sheet_names rows :
  exists sheets, write_workbook rt rows = Ok sheets
    /\ map fst sheets
       = match rows with
         | [] => [py "Company_Template"]
         | _ :: _ => map safe_name (first_seen [] (map company_key rows))
         end.
Proof.
  destruct (workbook_sheets rows) as (sheets & E & H).
  exists sheets. split; [exact E|].
  destruct rows as [|r rows]; [subst sheets; reflexivity|].
  rewrite (sheet_names H). f_equal.
  unfold group_by_company. rewrite keys_fold. reflexivity.
Qed.

(** Rows of one company make one sheet. *)
Lemma first_seen_one k ks :
  Forall (fun x => x = k) ks -> ks <> [] -> first_seen [] ks = [k].
Proof.
  intros Hall Hne. destruct Hall as [|x ks -> Hall]; [contradiction|].
  simpl. f_equal. clear Hne.
  induction Hall as [|x ks -> _ IH]; [reflexivity|].
  simpl. rewrite pystr_eqb_refl. simpl. exact IH.
Qed.
End SheetOrderFacts.

(** X3. Every sheet name the aggregator hands to the writer is a name a
    sheet may bear: it has from 1 to 31 characters, and none of them is a
    backslash, a slash, a question mark, an asterisk, a bracket or a
    colon. *)
Theorem X3_sheet_names_valid (rt : Runtime) (rows : list ClassifiedRow) :
  exists sheets, write_workbook rt rows = Ok sheets
    /\ Forall (fun sheet : Sheet => valid_sheet_name (fst sheet)) sheets.
Proof.
  destruct (workbook_sheets rt rows) as (sheets & E & H).
  exists sheets. split; [exact E|].
  destruct rows as [|r rows].
  - subst sheets. constructor; [|constructor].
    repeat split; [discriminate|simpl; lia].
  - clear E. induction H as [|kv sheet by_co sheets [En _] _ IH]; constructor;
      [|exact IH].
    rewrite En. apply safe_name_valid.
Qed.

(** X4. A company name that is already a name a sheet may bear is kept as
    it is, so that sanitising a name twice changes nothing more. *)
Theorem X4_valid_name_kept (n : pystr) :
  valid_sheet_name n ->
  safe_name n = n /\ forall company, safe_name (safe_name company) = safe_name company.
Proof.
  intros H. split; [apply safe_name_fixes; exact H|].
  intros company. apply safe_name_fixes. apply safe_name_valid.
Qed.

Lemma X4_valid_name_kept_witness :
  valid_sheet_name (py "acme") /\ safe_name (py "acme") = py "acme".
Proof.
  assert (H : valid_sheet_name (py "acme"))
    by (repeat split; [discriminate|simpl; lia]).
  split; [exact H|]. exact (proj1 (X4_valid_name_kept H)).
Defined.

(** X5. The aggregator hands one sheet to the writer for each distinct
    company of the rows, in the order in which the companies first appear,
    named by the sanitised company name; with no rows it hands the single
    sheet [Company_Template]. *)
Theorem X5_sheets_in_order_of_first_appearance (rt : Runtime)
    (rows : list ClassifiedRow) :
  exists sheets, write_workbook rt rows = Ok sheets
    /\ map fst sheets
       = match rows with
         | [] => [py "Company_Template"]
         | _ :: _ => map safe_name (first_seen [] (map company_key rows))
         end.
Proof. apply workbook_sheet_names. Qed.

(** X6. Two companies whose names differ but agree on their first 31
    characters are handed to the writer as two sheets of the same name. *)
Theorem X6_sheet_name_collision (rt : Runtime) (r1 r2 : ClassifiedRow) :
  company_key r1 <> company_key r2 ->
  firstn 31 (company_key r1) = firstn 31 (company_key r2) ->
  exists n out1 out2,
    write_workbook rt [r1; r2] = Ok [(n, out1); (n, out2)].
Proof.
  intros Hne Hpre.
  destruct (workbook_sheets rt [r1; r2]) as (sheets & E & H).
  assert (Hg : group_by_company [r1; r2]
               = [(company_key r1, [r1]); (company_key r2, [r2])]).
  { unfold group_by_company, setdefault_append. simpl.
    destruct (PyStr.eqb (company_key r2) (company_key r1)) eqn:Ek.
    - apply pystr_eqb_eq in Ek. congruence.
    - reflexivity. }
  rewrite Hg in H.
  inversion H as [|kv1 [n1 out1] l1 l1' [En1 _] H1]; subst.
  inversion H1 as [|kv2 [n2 out2] l2 l2' [En2 _] H2]; subst.
  inversion H2; subst. simpl in En1, En2.
  exists n1, out1, out2. rewrite E. subst n1 n2.
  rewrite (safe_name_prefix _ _ Hpre). reflexivity.
Qed.

Lemma X6_sheet_name_collision_witness :
  firstn 31 (py "International Holdings Company A")
  = firstn 31 (py "International Holdings Company B")
  /\ exists out1 out2,
       write_workbook plain_runtime long_names
       = Ok [(py "International Holdings Company ", out1);
             (py "International Holdings Company ", out2)].
Proof.
  split; [reflexivity|].
  destruct (@X6_sheet_name_collision plain_runtime
              (stated_row "International Holdings Company A" "2024" "EUR" [] "Tax | Current")
              (stated_row "International Holdings Company B" "2024" "EUR" [] "Tax | Current"))
    as (n & out1 & out2 & E); [discriminate|reflexivity|].
  exists out1, out2. unfold long_names. rewrite E.
  assert (En : map fst [(n, out1); (n, out2)]
               = [py "International Holdings Company ";
                  py "International Holdings Company "]).
  { destruct (workbook_sheet_names plain_runtime long_names) as (sheets & E' & Hn).
    unfold long_names in E'. rewrite E in E'. inversion E'; subst sheets.
    rewrite Hn. vm_compute. reflexivity. }
  simpl in En. inversion En; subst n. reflexivity.
Defined.

(** * The rows of a report *)

Section ReportFacts.
Variable rt : Runtime.

Lemma report_rows_meta meta total lookup lines out :
  report_rows meta total lookup lines = Ok out ->
  Forall (carries_meta meta) out.
Proof.
  revert out. induction lines as [|line rest IH]; intros out; simpl.
  - intros E. inversion E. constructor.
  - destruct (report_row meta total lookup line) as [o|e] eqn:Eo;
      [|discriminate]. simpl.
    destruct (report_rows meta total lookup rest) as [out'|e] eqn:Er;
      [|discriminate]. simpl.
    intros E. inversion E; subst. constructor; [|apply IH; reflexivity].
    unfold report_row in Eo. cbv zeta in Eo.
    match type of Eo with
    | bind ?p _ = _ => destruct p as [perc|e]; [|discriminate]
    end.
    simpl in Eo. inversion Eo; subst. repeat split.
Qed.

(** A cell that is not blank comes from a row of the company. *)
Lemma amount_source items o :
  row_as_specified rt items o ->
  blank o \/ In (o_line_item o) (map line_item items).
Proof.
  intros [Ha Hp]. unfold last_amount in Ha.
  destruct (find (fun i => PyStr.eqb (o_line_item o) (line_item i)) (rev items))
    as [i|] eqn:Ef.
  - right. apply find_some in Ef. destruct Ef as [Hin Heq].
    apply pystr_eqb_eq in Heq. rewrite Heq. apply in_map.
    apply in_rev. exact Hin.
  - left. split; [exact Ha|]. rewrite Hp, Ha. reflexivity.
Qed.

Lemma group_values (P : ClassifiedRow -> Prop) rows d :
  Forall P rows ->
  Forall (fun kv => Forall P (snd kv)) d ->
  Forall (fun kv => Forall P (snd kv)) (fold_left setdefault_append rows d).
Proof.
  intros Hrows. revert d. induction Hrows as [|r rows Hr _ IH]; intros d Hd;
    simpl; [exact Hd|].
  apply IH. unfold setdefault_append.
  apply (set_values (fun l : list ClassifiedRow => Forall P l)); [|exact Hd].
  apply Forall_app. split; [|constructor; [exact Hr|constructor]].
  destruct (PyDict.get d (company_key r)) as [l|] eqn:Eg; [|constructor].
  apply get_In in Eg. rewrite Forall_forall in Hd. apply (Hd _ Eg).
Qed.

(** The cells of a workbook that are not blank bear the line item of a
    row of the input. *)
Lemma workbook_amount_source (T : list pystr) rows :
  Forall (fun r => In (line_item r) T) rows ->
  exists sheets, write_workbook rt rows = Ok sheets
    /\ Forall (fun sheet : Sheet =>
         Forall (fun o => blank o \/ In (o_line_item o) T) (snd sheet)) sheets.
Proof.
  intros Hrows. destruct (workbook_sheets rt rows) as (sheets & E & H).
  exists sheets. split; [exact E|]. clear E.
  destruct rows as [|r rows].
  - subst sheets. constructor; [|constructor]. cbn [snd].
    apply Forall_forall. intros o Ho. apply in_map_iff in Ho.
    destruct Ho as (line & <- & _). left. split; reflexivity.
  - assert (Hne : Forall (fun kv : pystr * list ClassifiedRow => snd kv <> [])
                    (group_by_company (r :: rows)))
      by (apply fold_nonempty; constructor).
    assert (Hval : Forall (fun kv : pystr * list ClassifiedRow =>
                      Forall (fun r => In (line_item r) T) (snd kv))
                    (group_by_company (r :: rows)))
      by (apply group_values; [exact Hrows|constructor]).
    induction H as [|kv sheet by_co sheets [_ Eo] _ IH]; constructor.
    + inversion Hne as [|? ? Hkv _]; subst. inversion Hval as [|? ? Hv _]; subst.
      destruct (company_report_ok rt Hkv) as (out & Eo' & _ & Hout).
      rewrite Eo in Eo'. inversion Eo'; subst out.
      eapply Forall_impl; [|exact Hout]. intros o Ho.
      destruct (amount_source Ho) as [Hb|Hin]; [left; exact Hb|right].
      apply in_map_iff in Hin. destruct Hin as (i & <- & Hi).
      rewrite Forall_forall in Hv. apply Hv. exact Hi.
    + apply IH; [inversion Hne|inversion Hval]; assumption.
Qed.

(** The line item of a classified row is the target of a rule. *)
Lemma classified_target r :
  classified rt r -> In (line_item r) (map snd LABEL_MAP).
Proof.
  intros [_ (label & E)]. unfold normalize_label in E.
  destruct (negb (PyStr.truthy label)); [discriminate|].
  eapply first_rule_In. exact E.
Qed.

Lemma extracted_targets sheets pages f1 f2 bc :
  exists rows1 rows2,
    extract_from_excel rt sheets f1 bc = Ok rows1
    /\ extract_from_pdf rt pages f2 bc = Ok rows2
    /\ Forall (fun r => In (line_item r) (map snd LABEL_MAP)) (rows1 ++ rows2).
Proof.
  destruct (extract_from_excel_ok rt sheets f1 bc) as (rows1 & E1 & H1).
  destruct (extract_from_pdf_ok rt pages f2 bc) as (rows2 & E2 & H2).
  exists rows1, rows2. split; [exact E1|]. split; [exact E2|].
  apply Forall_app. split.
  - eapply Forall_impl; [|exact H1]. intros r. apply classified_target.
  - eapply Forall_impl; [|exact H2]. intros r [Hr _]. apply classified_target.
    exact Hr.
Qed.

Lemma unmapped_not_target line :
  In line unmapped -> ~ In line (map snd LABEL_MAP).
Proof.
  unfold unmapped. intros H Hin. apply filter_In in H. destruct H as [_ H].
  apply negb_true_iff in H.
  assert (Ht : existsb (PyStr.eqb line) (map snd LABEL_MAP) = true)
    by (apply existsb_exists; exists line; split;
        [exact Hin|apply pystr_eqb_refl]).
  rewrite Ht in H. discriminate.
Qed.

(** Of the targets of the rules, one only starts with [Revenue]. *)
Lemma revenue_target t :
  In t (map snd LABEL_MAP) ->
  startswith (py "Revenue") t = PyStr.eqb t (py "Revenue | Product").
Proof.
  intros H.
  assert (Hall : forallb (fun t => Bool.eqb (startswith (py "Revenue") t)
                                     (PyStr.eqb t (py "Revenue | Product")))
                   (map snd LABEL_MAP) = true) by (vm_compute; reflexivity).
  rewrite forallb_forall in Hall. apply Hall in H.
  apply eqb_prop in H. exact H.
Qed.
End ReportFacts.

(** X7. The company, year and currency columns of all the rows of a report
    repeat the first row of the company, in the order of the input,
    whatever its later rows state; the base currency falls back on the
    reporting currency of that row when it is empty. *)
Theorem X7_metadata_from_first_row (rt : Runtime) (rows : list ClassifiedRow)
    (r : ClassifiedRow) :
  In r rows ->
  exists m rest sheets out,
    company_rows rows (company_key r) = m :: rest
    /\ write_workbook rt rows = Ok sheets
    /\ company_report rt (m :: rest) = Ok out
    /\ In (safe_name (company_key r), out) sheets
    /\ Forall (carries_meta m) out.
Proof.
  intros Hin.
  destruct (workbook_report rt rows r Hin) as (sheets & out & Ew & _ & Eo & Hs & _).
  destruct (company_rows rows (company_key r)) as [|m rest] eqn:Ec.
  - exfalso. assert (Hr : In r (company_rows rows (company_key r)))
      by (apply filter_In; split; [exact Hin|apply pystr_eqb_refl]).
    rewrite Ec in Hr. exact Hr.
  - exists m, rest, sheets, out. repeat split; auto.
    unfold company_report in Eo. cbv zeta in Eo.
    eapply report_rows_meta. exact Eo.
Qed.

Lemma X7_metadata_from_first_row_witness :
  In (stated_row "acme" "2024" "USD" (py "USD") "Tax | Current") two_years
  /\ exists sheets out,
       write_workbook plain_runtime two_years = Ok sheets
       /\ In (py "acme", out) sheets
       /\ Forall (fun o => o_fiscal_year o = py "2023"
                           /\ o_reporting_currency o = py "EUR"
                           /\ o_base_currency o = py "EUR") out.
Proof.
  split; [right; left; reflexivity|].
  destruct (@X7_metadata_from_first_row plain_runtime two_years
              (stated_row "acme" "2024" "USD" (py "USD") "Tax | Current")
              (or_intror (or_introl eq_refl)))
    as (m & rest & sheets & out & Ec & Ew & _ & Hs & Hm).
  exists sheets, out. split; [exact Ew|]. split; [exact Hs|].
  vm_compute in Ec. inversion Ec; subst m rest.
  eapply Forall_impl; [|exact Hm].
  intros o (_ & Hy & Hc & Hb). rewrite Hy, Hc, Hb. repeat split.
Defined.

(** X8. In a workbook built from what the two extractors return, a row
    whose line item no rule of the classifier leads to is blank, amount
    and percentage: so are the 25 such items, the three derived ones
    among them, which the code never computes. *)
Theorem X8_unmapped_items_blank (rt : Runtime) (sheets : list DataFrame)
    (pages : list (option pystr)) (f1 f2 : pystr) (bc : option pystr) :
  exists rows1 rows2 wb,
    extract_from_excel rt sheets f1 bc = Ok rows1
    /\ extract_from_pdf rt pages f2 bc = Ok rows2
    /\ write_workbook rt (rows1 ++ rows2) = Ok wb
    /\ Forall (fun sheet : Sheet =>
         Forall (fun o => In (o_line_item o) unmapped -> blank o) (snd sheet)) wb
    /\ List.length unmapped = 25%nat
    /\ incl [py "Gross Profit (derived)"; py "Operating Profit (EBIT) (derived)";
             py "Net Income (derived)"] unmapped.
Proof.
  destruct (extracted_targets rt sheets pages f1 f2 bc)
    as (rows1 & rows2 & E1 & E2 & Hrows).
  destruct (@workbook_amount_source rt _ _ Hrows) as (wb & Ew & Hwb).
  exists rows1, rows2, wb. repeat split; auto.
  - eapply Forall_impl; [|exact Hwb]. intros sheet Hsheet.
    eapply Forall_impl; [|exact Hsheet]. intros o [Hb|Hin] Hu; [exact Hb|].
    exfalso. exact (unmapped_not_target Hu Hin).
  - intros line Hl. vm_compute.
    repeat (destruct Hl as [<-|Hl]; [tauto|]). destruct Hl.
Qed.

(** X9. For the rows the two extractors return, the total revenue of a
    company is the sum of its rows of the item [Revenue | Product] alone:
    it is the only item starting with [Revenue] that a rule leads to. *)
Theorem X9_revenue_is_product_revenue (rt : Runtime) (sheets : list DataFrame)
    (pages : list (option pystr)) (f1 f2 : pystr) (bc : option pystr) :
  exists rows1 rows2,
    extract_from_excel rt sheets f1 bc = Ok rows1
    /\ extract_from_pdf rt pages f2 bc = Ok rows2
    /\ forall company,
         let items := company_rows (rows1 ++ rows2) company in
         total_revenue rt items
         = py_sum rt (map amount_or_zero
             (filter (fun i => PyStr.eqb (line_item i) (py "Revenue | Product"))
                     items)).
Proof.
  destruct (extracted_targets rt sheets pages f1 f2 bc)
    as (rows1 & rows2 & E1 & E2 & Hrows).
  exists rows1, rows2. split; [exact E1|]. split; [exact E2|].
  intros company items. unfold total_revenue. f_equal. f_equal.
  apply filter_ext_in. intros i Hi. unfold is_revenue.
  apply revenue_target. unfold items, company_rows in Hi.
  apply filter_In in Hi. destruct Hi as [Hi _].
  rewrite Forall_forall in Hrows. apply Hrows. exact Hi.
Qed.

(** * Where the rows of a file come from *)

Section ProvenanceFacts.
Variable rt : Runtime.
Import Re.

(** A loop adds rows after those it starts with, one at most for each
    item. *)
Lemma for_each_added A (body : A -> result (option ClassifiedRow))
    (P : ClassifiedRow -> Prop) xs :
  (forall x, exists o, body x = Ok o
     /\ match o with Some row => P row | None => True end) ->
  forall rows,
  exists added, for_each body xs rows = Ok (rows ++ added)
    /\ Forall P added /\ (List.length added <= List.length xs)%nat.
Proof.
  intros Hbody. induction xs as [|x xs IH]; intros rows; simpl.
  - exists []. rewrite app_nil_r. split; [reflexivity|].
    split; [apply Forall_nil|apply Nat.le_refl].
  - destruct (Hbody x) as (o & -> & Ho). simpl. destruct o as [row|].
    + destruct (IH (rows ++ [row])) as (added & -> & Hadded & Hlen).
      exists (row :: added). rewrite <- app_assoc. split; [reflexivity|].
      split; [constructor; assumption|simpl; lia].
    + destruct (IH rows) as (added & -> & Hadded & Hlen).
      exists added. split; [reflexivity|]. split; [assumption|lia].
Qed.

Lemma excel_row_of_file fname bc df cl ca cy cc r :
  exists o, excel_row rt fname bc df cl ca cy cc r = Ok o
    /\ match o with
       | Some row =>
           of_file rt fname bc row /\ blank_where_lacking ca cy cc row
           /\ amount_is_number row
       | None => True
       end.
Proof.
  unfold excel_row. cbv zeta.
  destruct (normalize_label rt (row_label r cl)) as [fixed|] eqn:E;
    [|exists None; auto].
  destruct (negb (PyStr.truthy fixed)); [exists None; auto|].
  destruct (try_number_total rt (series_get r ca PyNone)) as (amt & Ea & Hnan & _).
  rewrite Ea. cbn [bind]. eexists. split; [reflexivity|].
  split; [split; reflexivity|]. split; [|exact Hnan].
  split; [|split]; intros ->; [|reflexivity|reflexivity].
  simpl in Ea. inversion Ea. reflexivity.
Qed.

Lemma pdf_line_of_file fname bc rep line :
  exists o, pdf_line rt fname bc rep line = Ok o
    /\ match o with
       | Some row =>
           of_file rt fname bc row /\ fiscal_year row = []
           /\ exists v, amount row = Some v /\ PyFloat.isnan v = false
       | None => True
       end.
Proof.
  unfold pdf_line. cbv zeta.
  destruct (negb (PyStr.truthy (strip line))); [exists None; auto|].
  destruct (search (isword rt) (line_re rt) (strip line)) as [m|];
    [|exists None; auto].
  destruct (normalize_label rt (group 1 m)) as [fixed|];
    [|exists None; auto].
  destruct (negb (PyStr.truthy fixed)); [exists None; auto|].
  destruct (try_number_total rt (PyStr (group 2 m))) as (amt & -> & Hnan & _).
  cbn [bind]. destruct amt as [v|]; [|exists None; auto].
  eexists. split; [reflexivity|]. split; [split; reflexivity|].
  split; [reflexivity|]. exists v. split; [reflexivity|exact Hnan].
Qed.

Lemma excel_sheet_of_file fname bc df rows :
  exists added, excel_sheet rt fname bc df rows = Ok (rows ++ added)
    /\ Forall (fun row =>
         of_file rt fname bc row
         /\ blank_where_lacking
              (col_like (lowered_columns rt df) amount_keys)
              (col_like (lowered_columns rt df) year_keys)
              (col_like (lowered_columns rt df) currency_keys) row
         /\ amount_is_number row) added
    /\ (List.length added <= List.length (data df))%nat.
Proof.
  unfold excel_sheet. cbv zeta. apply for_each_added.
  intros r. apply excel_row_of_file.
Qed.

(** A sheet with no label column adds nothing. *)
Lemma excel_sheet_no_label fname bc df rows :
  col_like (lowered_columns rt df) label_keys = None ->
  excel_sheet rt fname bc df rows = Ok rows.
Proof.
  intros Hl. unfold excel_sheet. cbv zeta. rewrite Hl.
  generalize (col_like (lowered_columns rt df) amount_keys)
             (col_like (lowered_columns rt df) year_keys)
             (col_like (lowered_columns rt df) currency_keys).
  intros ca cy cc. revert rows.
  induction (data df) as [|r rest IH]; intros rows; simpl; [reflexivity|].
  apply IH.
Qed.

Lemma extract_from_excel_of_file sheets fname bc :
  exists rows, extract_from_excel rt sheets fname bc = Ok rows
    /\ Forall (fun row => of_file rt fname bc row /\ amount_is_number row) rows
    /\ (List.length rows
        <= list_sum (map (fun df => List.length (data df)) sheets))%nat.
Proof.
  unfold extract_from_excel.
  assert (H : forall rows,
    exists added, excel_sheets rt fname bc sheets rows = Ok (rows ++ added)
      /\ Forall (fun row => of_file rt fname bc row /\ amount_is_number row) added
      /\ (List.length added
          <= list_sum (map (fun df => List.length (data df)) sheets))%nat).
  { induction sheets as [|df rest IH]; intros rows; simpl.
    - exists []. rewrite app_nil_r. split; [reflexivity|].
      split; [apply Forall_nil|apply Nat.le_refl].
    - destruct (excel_sheet_of_file fname bc df rows) as (added & -> & Hadded & Hlen).
      simpl. destruct (IH (rows ++ added)) as (more & -> & Hmore & Hlen').
      exists (added ++ more). rewrite app_assoc. split; [reflexivity|]. split.
      + apply Forall_app. split; [|exact Hmore].
        eapply Forall_impl; [|exact Hadded]. intros row (H1 & _ & H3). auto.
      + rewrite length_app. lia. }
  destruct (H []) as (rows & E & Hrows & Hlen). exists rows. auto.
Qed.

Lemma extract_from_pdf_of_file pages fname bc :
  exists rows, extract_from_pdf rt pages fname bc = Ok rows
    /\ Forall (fun row =>
         of_file rt fname bc row /\ fiscal_year row = []
         /\ exists v, amount row = Some v /\ PyFloat.isnan v = false) rows
    /\ (List.length rows <= List.length (splitlines (pdf_text pages)))%nat.
Proof.
  unfold extract_from_pdf. cbv zeta.
  destruct (@for_each_added pystr
              (pdf_line rt fname bc (guess_currency rt (pdf_text pages)))
              _ (splitlines (pdf_text pages))
              (fun line => pdf_line_of_file fname bc _ line) [])
    as (added & E & Hadded).
  exists added. split; [exact E|exact Hadded].
Qed.

Lemma resolve_base_given b ccy :
  b <> [] -> b <> py "NONE" -> resolve_base (Some b) ccy = b.
Proof.
  intros Hne Hnone. unfold resolve_base.
  destruct b as [|c b]; [contradiction|]. simpl PyStr.truthy.
  destruct (PyStr.eqb (c :: b) (py "NONE")) eqn:E; [|reflexivity].
  apply pystr_eqb_eq in E. contradiction.
Qed.

Lemma resolve_base_absent bc ccy :
  bc = None \/ bc = Some [] \/ bc = Some (py "NONE") ->
  resolve_base bc ccy = ccy.
Proof. intros [->|[->| ->]]; reflexivity. Qed.

(** The rows of the two extractors, for one file. *)
Lemma extracted_of_file sheets pages fname bc :
  exists rows1 rows2,
    extract_from_excel rt sheets fname bc = Ok rows1
    /\ extract_from_pdf rt pages fname bc = Ok rows2
    /\ Forall (of_file rt fname bc) rows1
    /\ Forall (of_file rt fname bc) rows2.
Proof.
  destruct (extract_from_excel_of_file sheets fname bc) as (rows1 & E1 & H1 & _).
  destruct (extract_from_pdf_of_file pages fname bc) as (rows2 & E2 & H2 & _).
  exists rows1, rows2. split; [exact E1|]. split; [exact E2|]. split.
  - eapply Forall_impl; [|exact H1]. intros row [H _]. exact H.
  - eapply Forall_impl; [|exact H2]. intros row [H _]. exact H.
Qed.

(** The rows of one file go to one sheet. *)
Lemma one_file_sheets fname bc rows :
  Forall (of_file rt fname bc) rows ->
  exists wb, write_workbook rt rows = Ok wb
    /\ map fst wb
       = [match rows with
          | [] => py "Company_Template"
          | _ :: _ => safe_name (file_company rt fname)
          end].
Proof.
  intros Hrows. destruct (workbook_sheet_names rt rows) as (wb & E & Hn).
  exists wb. split; [exact E|]. rewrite Hn.
  destruct rows as [|r rows]; [reflexivity|].
  rewrite (@first_seen_one (file_company rt fname)); [reflexivity| |discriminate].
  apply Forall_forall. intros k Hk. apply in_map_iff in Hk.
  destruct Hk as (row & <- & Hrow). rewrite Forall_forall in Hrows.
  destruct (Hrows row Hrow) as [Hc _].
  unfold company_key, file_company. rewrite Hc. reflexivity.
Qed.
End ProvenanceFacts.

(** X10. A base currency given with the request, other than the empty
    string and [NONE], is the base currency of every row of either
    extractor; with none given, or the empty string, or [NONE], the base
    currency of every row is its reporting currency. *)
Theorem X10_base_currency_override (rt : Runtime) (sheets : list DataFrame)
    (pages : list (option pystr)) (fname : pystr) (bc : option pystr) :
  exists rows1 rows2,
    extract_from_excel rt sheets fname bc = Ok rows1
    /\ extract_from_pdf rt pages fname bc = Ok rows2
    /\ (forall b, bc = Some b -> b <> [] -> b <> py "NONE" ->
        Forall (fun row => base_currency row = b) (rows1 ++ rows2))
    /\ (bc = None \/ bc = Some [] \/ bc = Some (py "NONE") ->
        Forall (fun row => base_currency row = reporting_currency row)
               (rows1 ++ rows2)).
Proof.
  destruct (extracted_of_file rt sheets pages fname bc)
    as (rows1 & rows2 & E1 & E2 & H1 & H2).
  exists rows1, rows2. split; [exact E1|]. split; [exact E2|].
  assert (H : Forall (of_file rt fname bc) (rows1 ++ rows2))
    by (apply Forall_app; split; assumption).
  split.
  - intros b -> Hne Hnone. eapply Forall_impl; [|exact H].
    intros row [_ Hb]. rewrite Hb. apply resolve_base_given; assumption.
  - intros Hbc. eapply Forall_impl; [|exact H].
    intros row [_ Hb]. rewrite Hb. apply resolve_base_absent. exact Hbc.
Qed.

(** The currency of a sheet and the currency given with the request. *)
Lemma base_currency_example :
  exists row,
    extract_from_excel plain_runtime [two_label_columns] (py "acme") (Some (py "CHF"))
    = Ok [row] /\ base_currency row = py "CHF".
Proof. eexists. split; [vm_compute; reflexivity|reflexivity]. Qed.

(** X11. The rows either extractor returns for a file all bear the stem
    of the file name as their company, so that a workbook built from one
    file has exactly one sheet: the sheet of that company, [Company] when
    the stem is empty, or the template when the file gives no row. *)
Theorem X11_one_file_one_sheet (rt : Runtime) (sheets : list DataFrame)
    (pages : list (option pystr)) (fname : pystr) (bc : option pystr) :
  (exists rows wb,
     extract_from_excel rt sheets fname bc = Ok rows
     /\ Forall (fun row => company_name row = path_stem rt fname) rows
     /\ write_workbook rt rows = Ok wb
     /\ map fst wb = [match rows with
                      | [] => py "Company_Template"
                      | _ :: _ => safe_name (file_company rt fname)
                      end])
  /\ (exists rows wb,
        extract_from_pdf rt pages fname bc = Ok rows
        /\ Forall (fun row => company_name row = path_stem rt fname) rows
        /\ write_workbook rt rows = Ok wb
        /\ map fst wb = [match rows with
                         | [] => py "Company_Template"
                         | _ :: _ => safe_name (file_company rt fname)
                         end]).
Proof.
  destruct (extracted_of_file rt sheets pages fname bc)
    as (rows1 & rows2 & E1 & E2 & H1 & H2).
  split.
  - destruct (one_file_sheets H1) as (wb & Ew & Hn).
    exists rows1, wb. repeat split; auto.
    eapply Forall_impl; [|exact H1]. intros row [Hc _]. exact Hc.
  - destruct (one_file_sheets H2) as (wb & Ew & Hn).
    exists rows2, wb. repeat split; auto.
    eapply Forall_impl; [|exact H2]. intros row [Hc _]. exact Hc.
Qed.

(** X12. What a sheet adds when it lacks a column: no row when no column
    name holds a label key; rows with a blank amount when none holds an
    amount key, with a blank fiscal year when none holds a year key, with a
    blank reporting currency when none holds a currency key. *)
Theorem X12_missing_columns (rt : Runtime) (fname : pystr) (bc : option pystr)
    (df : DataFrame) (rows : list ClassifiedRow) :
  let cols := lowered_columns rt df in
  exists added,
    excel_sheet rt fname bc df rows = Ok (rows ++ added)
    /\ (col_like cols label_keys = None -> added = [])
    /\ (col_like cols amount_keys = None ->
        Forall (fun row => amount row = None) added)
    /\ (col_like cols year_keys = None ->
        Forall (fun row => fiscal_year row = []) added)
    /\ (col_like cols currency_keys = None ->
        Forall (fun row => reporting_currency row = []) added).
Proof.
  cbv zeta.
  destruct (excel_sheet_of_file rt fname bc df rows) as (added & E & Hadded & _).
  exists added. split; [exact E|]. split; [|split; [|split]].
  - intros Hl. rewrite (excel_sheet_no_label rt fname bc df rows Hl) in E.
    inversion E as [E']. rewrite <- (app_nil_r rows) in E' at 1.
    apply app_inv_head in E'. symmetry. exact E'.
  - intros H. eapply Forall_impl; [|exact Hadded].
    intros row (_ & (Ha & _ & _) & _). auto.
  - intros H. eapply Forall_impl; [|exact Hadded].
    intros row (_ & (_ & Hy & _) & _). auto.
  - intros H. eapply Forall_impl; [|exact Hadded].
    intros row (_ & (_ & _ & Hc) & _). auto.
Qed.

Lemma X12_missing_columns_witness :
  col_like (lowered_columns plain_runtime no_label_column) label_keys = None
  /\ col_like (lowered_columns plain_runtime no_amount_column) amount_keys = None
  /\ excel_sheet plain_runtime (py "acme") None no_label_column [] = Ok []
  /\ exists row,
       excel_sheet plain_runtime (py "acme") None no_amount_column [] = Ok [row]
       /\ amount row = None /\ fiscal_year row = []
       /\ reporting_currency row = [].
Proof.
  split; [reflexivity|]. split; [reflexivity|].
  destruct (@X12_missing_columns plain_runtime (py "acme") None no_label_column [])
    as (added1 & E1 & Hl & _).
  destruct (@X12_missing_columns plain_runtime (py "acme") None no_amount_column [])
    as (added2 & E2 & _ & Ha & Hy & Hc).
  split.
  - rewrite E1, (Hl eq_refl). reflexivity.
  - assert (El : List.length added2 = 1%nat).
    { assert (E' : excel_sheet plain_runtime (py "acme") None no_amount_column []
                   = Ok added2) by exact E2.
      vm_compute in E'. inversion E'. reflexivity. }
    destruct added2 as [|row [|]]; try discriminate.
    exists row. split; [exact E2|].
    pose proof (Ha eq_refl) as Ha'. pose proof (Hy eq_refl) as Hy'.
    pose proof (Hc eq_refl) as Hc'.
    inversion Ha'; inversion Hy'; inversion Hc'; subst. auto.
Defined.

(** X13. The text extractor returns at most one row for each line of the
    text; every row it returns has a blank fiscal year and an amount, which
    is a number and no NaN. *)
Theorem X13_text_rows (rt : Runtime) (pages : list (option pystr))
    (fname : pystr) (bc : option pystr) :
  exists rows,
    extract_from_pdf rt pages fname bc = Ok rows
    /\ (List.length rows <= List.length (splitlines (pdf_text pages)))%nat
    /\ Forall (fun row =>
         fiscal_year row = []
         /\ exists v, amount row = Some v /\ PyFloat.isnan v = false) rows.
Proof.
  destruct (extract_from_pdf_of_file rt pages fname bc) as (rows & E & H & Hlen).
  exists rows. split; [exact E|]. split; [exact Hlen|].
  eapply Forall_impl; [|exact H]. intros row (_ & Hy & Ha). auto.
Qed.

(** X14. The tabular extractor returns at most one row for each row of the
    sheets, and the amount of a row it returns is blank or a number that is
    no NaN. *)
Theorem X14_table_rows (rt : Runtime) (sheets : list DataFrame)
    (fname : pystr) (bc : option pystr) :
  exists rows,
    extract_from_excel rt sheets fname bc = Ok rows
    /\ (List.length rows
        <= list_sum (map (fun df => List.length (data df)) sheets))%nat
    /\ Forall amount_is_number rows.
Proof.
  destruct (extract_from_excel_of_file rt sheets fname bc) as (rows & E & H & Hlen).
  exists rows. split; [exact E|]. split; [exact Hlen|].
  eapply Forall_impl; [|exact H]. intros row [_ Ha]. exact Ha.
Qed.

(** * The service *)

Section ServiceFacts.
Variable rt : Runtime.
Variable env : Settings.
Variable world : World.

Lemma after_comma_split h p :
  ~ In 44 h -> after_comma (h ++ 44 :: p) = Some p.
Proof.
  induction h as [|c h IH]; simpl; intros Hh; [reflexivity|].
  destruct (c =? 44) eqn:E.
  - apply N.eqb_eq in E. subst c. exfalso. apply Hh. left. reflexivity.
  - apply IH. intros Hin. apply Hh. right. exact Hin.
Qed.

Lemma after_comma_none u : ~ In 44 u -> after_comma u = None.
Proof.
  induction u as [|c u IH]; simpl; intros Hu; [reflexivity|].
  destruct (c =? 44) eqn:E.
  - apply N.eqb_eq in E. subst c. exfalso. apply Hu. left. reflexivity.
  - apply IH. intros Hin. apply Hu. right. exact Hin.
Qed.

(** What a download adds to the requests made: the request of the file. *)
Lemma download_requests f log :
  fst (_download_file world f log) = log ++ requests_of [f].
Proof.
  unfold _download_file, requests_of. simpl flat_map. rewrite app_nil_r.
  destruct (opt_truthy (dataUri f)).
  - rewrite app_nil_r. unfold library.
    destruct (b64decode world _); reflexivity.
  - destruct (opt_truthy (contentUrl f)); [reflexivity|].
    rewrite app_nil_r. reflexivity.
Qed.

Lemma library_log A (r : A + pystr) log : fst (library r log) = log.
Proof. destruct r; reflexivity. Qed.

Lemma pipeline_log A (r : result A) log : fst (pipeline r log) = log.
Proof. destruct r; reflexivity. Qed.

Lemma build_file_requests base f rows log :
  fst (build_file rt world base f rows log) = log ++ requests_of [f].
Proof.
  unfold build_file, io_bind.
  pose proof (download_requests f log) as Hd.
  destruct (_download_file world f log) as [log' [b|e]]; cbn [fst] in Hd; subst log';
    [|reflexivity].
  destruct (as_excel rt f).
  - destruct (read_excel world b) as [sheets|e]; simpl; [|reflexivity].
    destruct (extract_from_excel rt sheets _ base); reflexivity.
  - destruct (as_pdf rt f); [|reflexivity].
    destruct (read_pdf world b) as [pages|e]; simpl; [|reflexivity].
    destruct (extract_from_pdf rt pages _ base); reflexivity.
Qed.

Lemma requests_of_cons f fs : requests_of (f :: fs) = requests_of [f] ++ requests_of fs.
Proof. unfold requests_of. simpl. rewrite app_nil_r. reflexivity. Qed.

(** The loop over the files makes the requests of the files it reaches. *)
Lemma build_files_requests base fs rows log :
  exists made later,
    fst (build_files rt world base fs rows log) = log ++ made
    /\ requests_of fs = made ++ later
    /\ (forall res, snd (build_files rt world base fs rows log) = inl res ->
        later = []).
Proof.
  revert rows log. induction fs as [|f fs IH]; intros rows log.
  - exists [], []. simpl. rewrite app_nil_r. auto.
  - simpl build_files. unfold io_bind.
    pose proof (build_file_requests base f rows log) as Hf.
    destruct (build_file rt world base f rows log) as [log' [rows'|e]];
      cbn [fst] in Hf; subst log'.
    + destruct (IH rows' (log ++ requests_of [f])) as (made & later & E & Hr & Hs).
      exists (requests_of [f] ++ made), later. cbv beta iota. rewrite E.
      rewrite (requests_of_cons f fs), Hr, !app_assoc. auto.
    + exists (requests_of [f]), (requests_of fs). simpl.
      split; [reflexivity|]. split; [apply requests_of_cons|]. discriminate.
Qed.

(** Files that are read neither as a spreadsheet nor as a PDF add no row. *)
Lemma build_files_skipped base fs rows log log' rows' :
  Forall (fun f => as_excel rt f = false /\ as_pdf rt f = false) fs ->
  build_files rt world base fs rows log = (log', inl rows') -> rows' = rows.
Proof.
  intros Hfs. revert rows log. induction Hfs as [|f fs [He Hp] _ IH];
    intros rows log; simpl.
  - unfold ret. intros E. inversion E. reflexivity.
  - unfold io_bind, build_file, io_bind. rewrite He, Hp.
    destruct (_download_file world f log) as [l [b|e]]; [|discriminate].
    unfold ret. apply IH.
Qed.

Lemma key_differs_spec key :
  key_differs env key = false <-> key = Some (API_KEY env).
Proof.
  unfold key_differs. destruct key as [k|]; [|split; discriminate].
  split.
  - intros H. apply negb_false_iff in H. apply pystr_eqb_eq in H. congruence.
  - intros H. inversion H. rewrite pystr_eqb_refl. reflexivity.
Qed.

Lemma authorised_passes key :
  authorised env key ->
  PyStr.truthy (API_KEY env) && key_differs env key = false.
Proof.
  intros [H|H].
  - rewrite H. reflexivity.
  - apply key_differs_spec in H. rewrite H. apply andb_false_r.
Qed.

Lemma unauthorised_stops key :
  API_KEY env <> [] -> key <> Some (API_KEY env) ->
  PyStr.truthy (API_KEY env) && key_differs env key = true.
Proof.
  intros Hk Hne. destruct (API_KEY env) as [|c k] eqn:E; [contradiction|].
  simpl. destruct (key_differs env key) eqn:Ed; [reflexivity|].
  rewrite <- E in *. apply key_differs_spec in Ed. contradiction.
Qed.
End ServiceFacts.

(** X15. With a key set, a request that sends no key or another key is
    refused with status 401 before any file is fetched; with no key set,
    or with the key set, the answer is the one of the service without a
    key. *)
Theorem X15_api_key_gate (rt : Runtime) (env : Settings) (world : World)
    (req : BuildReq) (key : option pystr) (log : list Request) :
  (API_KEY env <> [] -> key <> Some (API_KEY env) ->
   build rt env world req key log
   = (log, inr (HTTPException 401 (py "unauthorized"))))
  /\ (authorised env key ->
      build rt env world req key log
      = build rt {| BASE_URL := BASE_URL env; API_KEY := [] |} world req None log).
Proof.
  split.
  - intros Hk Hne. unfold build. rewrite unauthorised_stops by assumption. reflexivity.
  - intros Ha. unfold build. rewrite authorised_passes by exact Ha. reflexivity.
Qed.

Lemma X15_api_key_gate_witness :
  API_KEY keyed_settings <> []
  /\ Some (py "guess") <> Some (API_KEY keyed_settings)
  /\ build plain_runtime keyed_settings quiet_world
       {| files := [remote_file "a.pdf"]; baseCurrency := None |}
       (Some (py "guess")) []
     = ([], inr (HTTPException 401 (py "unauthorized")))
  /\ authorised keyed_settings (Some (py "secret")).
Proof.
  split; [discriminate|]. split; [discriminate|]. split.
  - apply (proj1 (X15_api_key_gate plain_runtime keyed_settings quiet_world
                    {| files := [remote_file "a.pdf"]; baseCurrency := None |}
                    (Some (py "guess")) [])); discriminate.
  - right. reflexivity.
Defined.

(** X16. A file that carries a data URI is never fetched, whatever URL it
    states: its content is what [b64decode] gives for the text after the
    first comma of the URI, or for the whole URI when it has no comma. *)
Theorem X16_data_uri_not_fetched (rt : Runtime) (world : World) (f : FileRef)
    (log : list Request) :
  (forall h p, dataUri f = Some (h ++ 44 :: p) -> ~ In 44 h ->
     _download_file world f log
     = (log, match b64decode world p with
             | inl b => inl b
             | inr e => inr (LibraryError e)
             end))
  /\ (forall u, dataUri f = Some u -> u <> [] -> ~ In 44 u ->
        _download_file world f log
        = (log, match b64decode world u with
                | inl b => inl b
                | inr e => inr (LibraryError e)
                end)).
Proof.
  split.
  - intros h p E Hh. unfold _download_file. rewrite E.
    assert (Ht : opt_truthy (Some (h ++ 44 :: p)) = true)
      by (destruct h; reflexivity).
    rewrite Ht. cbv zeta. simpl or_empty. rewrite (@after_comma_split h p Hh).
    unfold library. destruct (b64decode world p); reflexivity.
  - intros u E Hne Hu. unfold _download_file. rewrite E.
    assert (Ht : opt_truthy (Some u) = true)
      by (destruct u; [contradiction|reflexivity]).
    rewrite Ht. cbv zeta. simpl or_empty. rewrite (@after_comma_none u Hu).
    unfold library. destruct (b64decode world u); reflexivity.
Qed.

Lemma X16_data_uri_not_fetched_witness :
  dataUri (inline_file "a.pdf") = Some (py "data:application/pdf;base64" ++ 44 :: py "AAAA")
  /\ ~ In 44 (py "data:application/pdf;base64")
  /\ _download_file quiet_world (inline_file "a.pdf") []
     = ([], match b64decode quiet_world (py "AAAA") with
            | inl b => inl b
            | inr e => inr (LibraryError e)
            end).
Proof.
  assert (Hh : ~ In 44 (py "data:application/pdf;base64")).
  { intros H. vm_compute in H.
    repeat (destruct H as [H|H]; [discriminate|]). exact H. }
  split; [reflexivity|]. split; [exact Hh|].
  apply (proj1 (X16_data_uri_not_fetched plain_runtime quiet_world
                  (inline_file "a.pdf") [])
           (py "data:application/pdf;base64") (py "AAAA") eq_refl Hh).
Defined.

(** X17. A request let in without files is refused with status 400, and so
    is one whose first file has neither a data URI nor a URL, with the
    name of the file, whatever the type of the file and before anything is
    fetched. *)
Theorem X17_bad_request (rt : Runtime) (env : Settings) (world : World)
    (req : BuildReq) (key : option pystr) (log : list Request) :
  authorised env key ->
  (files req = [] ->
   build rt env world req key log
   = (log, inr (HTTPException 400 (py "files[] required"))))
  /\ (forall f rest, files req = f :: rest ->
        opt_truthy (dataUri f) = false -> opt_truthy (contentUrl f) = false ->
        build rt env world req key log
        = (log, inr (HTTPException 400 (py "no content for " ++ name f)))).
Proof.
  intros Ha. split.
  - intros E. unfold build. rewrite authorised_passes by exact Ha. rewrite E. reflexivity.
  - intros f rest E Hd Hc. unfold build. rewrite authorised_passes by exact Ha. rewrite E.
    cbv iota. unfold io_bind. simpl build_files. unfold io_bind, build_file, io_bind.
    unfold _download_file. rewrite Hd, Hc. reflexivity.
Qed.

Lemma X17_bad_request_witness :
  authorised open_settings None
  /\ build plain_runtime open_settings quiet_world
       {| files := []; baseCurrency := None |} None []
     = ([], inr (HTTPException 400 (py "files[] required")))
  /\ build plain_runtime open_settings quiet_world
       {| files := [empty_file "notes.txt"]; baseCurrency := None |} None []
     = ([], inr (HTTPException 400 (py "no content for notes.txt"))).
Proof.
  assert (Ha : authorised open_settings None) by (left; reflexivity).
  split; [exact Ha|]. split.
  - apply (proj1 (@X17_bad_request plain_runtime open_settings quiet_world
                    {| files := []; baseCurrency := None |} None [] Ha)).
    reflexivity.
  - apply (proj2 (@X17_bad_request plain_runtime open_settings quiet_world
                    {| files := [empty_file "notes.txt"]; baseCurrency := None |}
                    None [] Ha) (empty_file "notes.txt") []); reflexivity.
Defined.

(** X18. The service fetches nothing but the URLs of the files that carry
    no data URI, each once and in the order of the files: the requests it
    makes are a prefix of these, and all of them when it succeeds. *)
Theorem X18_requests_in_file_order (rt : Runtime) (env : Settings)
    (world : World) (req : BuildReq) (key : option pystr) (log : list Request) :
  exists made later,
    fst (build rt env world req key log) = log ++ made
    /\ requests_of (files req) = made ++ later
    /\ (forall res, snd (build rt env world req key log) = inl res -> later = []).
Proof.
  unfold build.
  destruct (PyStr.truthy (API_KEY env) && key_differs env key).
  { exists [], (requests_of (files req)). simpl. rewrite app_nil_r.
    split; [reflexivity|]. split; [reflexivity|]. discriminate. }
  destruct (files req) as [|f fs] eqn:Ef.
  { exists [], []. simpl. rewrite app_nil_r. auto. }
  cbv iota. unfold io_bind.
  destruct (build_files_requests rt world (baseCurrency req) (f :: fs) [] log)
    as (made & later & E & Hr & Hs).
  destruct (build_files rt world (baseCurrency req) (f :: fs) [] log)
    as [log' [rows|e]]; cbn [fst] in E; subst log'.
  - exists made, later. split; [|split; [exact Hr|]].
    + unfold io_bind.
      pose proof (pipeline_log (write_workbook rt rows) (log ++ made)) as Hp.
      destruct (pipeline (write_workbook rt rows) (log ++ made)) as [l [sheets|e]];
        simpl in Hp; subst l; [|reflexivity].
      pose proof (library_log
        (save_workbook world
           (py "CostBench_PerCompany_" ++ utcnow world ++ py ".xlsx") sheets)
        (log ++ made)) as Hl.
      destruct (library _ (log ++ made)) as [l [u|e]]; simpl in Hl; subst l;
        reflexivity.
    + intros res _. apply (Hs rows). reflexivity.
  - exists made, later. split; [reflexivity|]. split; [exact Hr|].
    intros res H. discriminate H.
Qed.

(** X19. When every file of a request is read neither as a spreadsheet nor
    as a PDF, a request that succeeds writes the template: the single sheet
    [Company_Template] with the 36 canonical items and blank cells. *)
Theorem X19_unsupported_files_template (rt : Runtime) (env : Settings)
    (world : World) (req : BuildReq) (key : option pystr)
    (log log' : list Request) (answer : Response) (out_name : pystr)
    (sheets : list Sheet) :
  Forall (fun f => as_excel rt f = false /\ as_pdf rt f = false) (files req) ->
  build rt env world req key log = (log', inl (answer, (out_name, sheets))) ->
  sheets = [template_sheet].
Proof.
  intros Hfs. unfold build.
  destruct (PyStr.truthy (API_KEY env) && key_differs env key); [discriminate|].
  destruct (files req) as [|f fs] eqn:Ef; [discriminate|].
  cbv iota. unfold io_bind.
  destruct (build_files rt world (baseCurrency req) (f :: fs) [] log)
    as [l [rows|e]] eqn:Eb; [|discriminate].
  eapply build_files_skipped in Eb; [|exact Hfs]. subst rows.
  unfold io_bind. simpl pipeline. unfold ret at 1.
  destruct (save_workbook world _ _) as [u|e]; simpl; [|discriminate].
  unfold ret. intros E. inversion E; subst. reflexivity.
Qed.

Lemma X19_unsupported_files_template_witness :
  Forall (fun f => as_excel plain_runtime f = false /\ as_pdf plain_runtime f = false)
         [inline_file "notes.txt"]
  /\ exists answer out_name,
       build plain_runtime open_settings quiet_world
         {| files := [inline_file "notes.txt"]; baseCurrency := None |} None []
       = ([], inl (answer, (out_name, [template_sheet]))).
Proof.
  assert (Hfs : Forall (fun f => as_excel plain_runtime f = false
                                 /\ as_pdf plain_runtime f = false)
                       [inline_file "notes.txt"])
    by (constructor; [split; reflexivity|constructor]).
  split; [exact Hfs|].
  destruct (build plain_runtime open_settings quiet_world
              {| files := [inline_file "notes.txt"]; baseCurrency := None |} None [])
    as [l [[answer [n sheets]]|e]] eqn:E; [|vm_compute in E; discriminate].
  rewrite (@X19_unsupported_files_template plain_runtime open_settings quiet_world
             {| files := [inline_file "notes.txt"]; baseCurrency := None |}
             None [] l answer n sheets Hfs E).
  exists answer, n. f_equal.
  assert (El : fst (build plain_runtime open_settings quiet_world
              {| files := [inline_file "notes.txt"]; baseCurrency := None |} None [])
              = []) by (vm_compute; reflexivity).
  rewrite E in El. exact El.
Defined.

(** * The workbook the service writes *)

Section WorkbookFacts.
Variable rt : Runtime.

(** The shape of the sheets, for any rows. *)
Lemma workbook_shape rows :
  exists sheets, write_workbook rt rows = Ok sheets
    /\ sheets <> []
    /\ Forall (fun sheet : Sheet =>
         valid_sheet_name (fst sheet)
         /\ map o_line_item (snd sheet) = FIXED_ROWS) sheets.
Proof.
  destruct (workbook_sheets rt rows) as (sheets & E & H).
  exists sheets. split; [exact E|]. clear E.
  destruct rows as [|r rows].
  - subst sheets. split; [discriminate|]. constructor; [|constructor]. split.
    + repeat split; [discriminate|simpl; lia].
    + cbn [snd]. rewrite map_map. apply map_id.
  - assert (Hne : Forall (fun kv : pystr * list ClassifiedRow => snd kv <> [])
                    (group_by_company (r :: rows)))
      by (apply fold_nonempty; constructor).
    pose proof (keys_fold (r :: rows) []) as Hk.
    fold (group_by_company (r :: rows)) in Hk.
    split.
    + destruct H; [discriminate Hk|discriminate].
    + clear Hk. induction H as [|kv sheet by_co sheets [En Eo] _ IH];
        constructor.
      * inversion Hne as [|? ? Hkv _]; subst. split.
        -- rewrite En. apply safe_name_valid.
        -- destruct (company_report_ok rt Hkv) as (out & Eo' & Hl & _).
           rewrite Eo in Eo'. inversion Eo'; subst out. exact Hl.
      * apply IH. inversion Hne; assumption.
Qed.

(** Without a revenue row, no percentage. *)
Lemma no_revenue_report items out :
  Forall (fun r => is_revenue r = false) items ->
  Forall (row_as_specified rt items) out ->
  Forall (fun o => o_percent_of_revenue o = None) out.
Proof.
  intros Hitems.
  assert (Hf : filter is_revenue items = []).
  { induction Hitems as [|r items Hr _ IH]; simpl; [reflexivity|].
    rewrite Hr. exact IH. }
  assert (Ht : total_revenue rt items = PyFloat.zero)
    by (unfold total_revenue; rewrite Hf; reflexivity).
  intros Hout. eapply Forall_impl; [|exact Hout]. intros o [_ Hp].
  rewrite Hp, Ht. unfold percent_of. destruct (o_amount o); reflexivity.
Qed.
End WorkbookFacts.

(** X20. A request the service answers has written a workbook the writer
    accepted, under the time-stamped name the answer points to; the
    workbook has at least one sheet, and every sheet has a name a sheet
    may bear and the 36 canonical items as its rows, in their order. *)
Theorem X20_written_workbook_shape (rt : Runtime) (env : Settings)
    (world : World) (req : BuildReq) (key : option pystr)
    (log log' : list Request) (answer : Response) (out_name : pystr)
    (sheets : list Sheet) :
  build rt env world req key log = (log', inl (answer, (out_name, sheets))) ->
  out_name = py "CostBench_PerCompany_" ++ utcnow world ++ py ".xlsx"
  /\ fileUrl answer = BASE_URL env ++ py "/out/" ++ out_name
  /\ save_workbook world out_name sheets = inl tt
  /\ sheets <> []
  /\ Forall (fun sheet : Sheet =>
       valid_sheet_name (fst sheet)
       /\ map o_line_item (snd sheet) = FIXED_ROWS) sheets.
Proof.
  unfold build.
  destruct (PyStr.truthy (API_KEY env) && key_differs env key); [discriminate|].
  destruct (files req) as [|f fs]; [discriminate|].
  cbv iota. unfold io_bind.
  destruct (build_files rt world (baseCurrency req) (f :: fs) [] log)
    as [l [rows|e]]; [|discriminate].
  destruct (workbook_shape rt rows) as (wb & Ew & Hne & Hwb).
  rewrite Ew. simpl pipeline. unfold ret at 1.
  destruct (save_workbook world _ wb) as [[]|e] eqn:Es; simpl; [|discriminate].
  unfold ret. intros E. inversion E; subst. repeat split; auto.
Qed.

Lemma X20_written_workbook_shape_witness :
  exists answer,
    build plain_runtime open_settings quiet_world
      {| files := [inline_file "a.pdf"]; baseCurrency := None |} None []
    = ([], inl (answer, (py "CostBench_PerCompany_20240101_000000.xlsx",
                         [template_sheet])))
    /\ fileUrl answer
       = py "https://example.com/out/CostBench_PerCompany_20240101_000000.xlsx"
    /\ valid_sheet_name (fst template_sheet).
Proof.
  eexists. split; [vm_compute; reflexivity|]. split; [reflexivity|].
  assert (E : build plain_runtime open_settings quiet_world
      {| files := [inline_file "a.pdf"]; baseCurrency := None |} None []
    = ([], inl ({| fileUrl := py "https://example.com/out/CostBench_PerCompany_20240101_000000.xlsx";
                   fileName := py "CostBench_PerCompany.xlsx" |},
                (py "CostBench_PerCompany_20240101_000000.xlsx",
                 [template_sheet])))) by (vm_compute; reflexivity).
  destruct (X20_written_workbook_shape _ _ _ _ _ _ E) as (_ & _ & _ & _ & H).
  inversion H as [|? ? [Hv _] _]. exact Hv.
Defined.

(** X21. When no row of the input is a revenue row, every percentage of
    every sheet is blank: the total revenue is zero and nothing is divided
    by it. *)
Theorem X21_no_revenue_no_percentage (rt : Runtime) (rows : list ClassifiedRow) :
  Forall (fun r => is_revenue r = false) rows ->
  exists sheets, write_workbook rt rows = Ok sheets
    /\ Forall (fun sheet : Sheet =>
         Forall (fun o => o_percent_of_revenue o = None) (snd sheet)) sheets.
Proof.
  intros Hrows. destruct (workbook_sheets rt rows) as (sheets & E & H).
  exists sheets. split; [exact E|]. clear E.
  destruct rows as [|r rows].
  - subst sheets. constructor; [|constructor]. cbn [snd].
    apply Forall_forall. intros o Ho. apply in_map_iff in Ho.
    destruct Ho as (line & <- & _). reflexivity.
  - assert (Hne : Forall (fun kv : pystr * list ClassifiedRow => snd kv <> [])
                    (group_by_company (r :: rows)))
      by (apply fold_nonempty; constructor).
    assert (Hval : Forall (fun kv : pystr * list ClassifiedRow =>
                      Forall (fun r => is_revenue r = false) (snd kv))
                    (group_by_company (r :: rows)))
      by (apply group_values; [exact Hrows|constructor]).
    induction H as [|kv sheet by_co sheets [_ Eo] _ IH]; constructor.
    + inversion Hne as [|? ? Hkv _]; subst. inversion Hval as [|? ? Hv _]; subst.
      destruct (company_report_ok rt Hkv) as (out & Eo' & _ & Hout).
      rewrite Eo in Eo'. inversion Eo'; subst out.
      eapply no_revenue_report; eassumption.
    + apply IH; [inversion Hne|inversion Hval]; assumption.
Qed.

Lemma X21_no_revenue_no_percentage_witness :
  Forall (fun r => is_revenue r = false) [example_row "Tax | Current" (Some (whole 40))]
  /\ exists sheets,
       write_workbook plain_runtime [example_row "Tax | Current" (Some (whole 40))]
       = Ok sheets
       /\ Forall (fun sheet : Sheet =>
            Forall (fun o => o_percent_of_revenue o = None) (snd sheet)) sheets.
Proof.
  assert (H : Forall (fun r => is_revenue r = false)
                [example_row "Tax | Current" (Some (whole 40))])
    by (constructor; [reflexivity|constructor]).
  split; [exact H|]. exact (X21_no_revenue_no_percentage plain_runtime H).
Defined.
